(** * Verification of the training script [framework/train.py]

    The script seeds Python's generator, loads a YAML configuration, splits
    the image files into a training and a validation subset, builds two
    [tf.data] pipelines, computes the class weights of the loss, creates the
    experiment directories and calls [model.fit].  This development embeds
    those steps and proves the properties the specification states about
    them. *)

From Stdlib Require Import ZArith QArith Qround Qabs Qpower Lqa List Lia SpecFloat.
From Stdlib Require Import Ascii DecimalString DecimalZ.
From stdpp Require Import gmap strings list.

Local Open Scope Z_scope.

(** * Numbers *)

(** ** IEEE-754 binary64, the [float64] of NumPy and the [float] of Python *)

Module F64.
Definition prec : Z := 53.
Definition emax : Z := 1024.

Definition zero : spec_float := S754_zero false.
(** Conversion of an integer, rounding to nearest, ties to even. *)
Definition of_Z (n : Z) : spec_float := binary_normalize prec emax n 0 false.
Definition mul : spec_float -> spec_float -> spec_float := SFmul prec emax.
Definition div : spec_float -> spec_float -> spec_float := SFdiv prec emax.
Definition add : spec_float -> spec_float -> spec_float := SFadd prec emax.

(** The rational a finite float denotes. *)
Definition to_Q (x : spec_float) : option Q :=
  match x with
  | S754_zero _ => Some 0%Q
  | S754_finite s m e =>
      let v := if Z.leb 0 e then inject_Z (Z.pos m * 2 ^ e)
               else Qmake (Z.pos m) (Z.to_pos (2 ^ (- e))) in
      Some (Qred (if s then Qopp v else v))
  | _ => None
  end.

(** Python's [int(x)]: truncation towards zero; raises on nan and on the
    infinities. *)
Definition to_Z_trunc (x : spec_float) : option Z :=
  match x with
  | S754_zero _ => Some 0
  | S754_finite s m e =>
      let a := if Z.leb 0 e then Z.pos m * 2 ^ e else Z.pos m / 2 ^ (- e) in
      Some (if s then - a else a)
  | _ => None
  end.

(** The literal [0.1]: the binary64 number nearest to one tenth. *)
Definition tenth : spec_float := S754_finite false 7205759403792794 (-56).
End F64.

(** ** The element type of an array *)

Class Dtype (F : Type) := {
  fzero : F;
  of_int : Z -> F;
  fmul : F -> F -> F;
  fdiv : F -> F -> F;
  fadd : F -> F -> F
}.

#[export] Instance float64 : Dtype spec_float :=
  {| fzero := F64.zero; of_int := F64.of_Z; fmul := F64.mul; fdiv := F64.div;
     fadd := F64.add |}.

(** Exact rational arithmetic: what the formulas mean before rounding. *)
#[export] Instance exact : Dtype Q :=
  {| fzero := 0%Q; of_int := inject_Z; fmul := Qmult; fdiv := Qdiv;
     fadd := Qplus |}.

(** ** [int64], the dtype NumPy gives an array of Python integers

    The table of counts is an [int64] array: its entries are within
    [-2^63 .. 2^63 - 1].  (NumPy gives integers beyond that range another
    dtype; such tables are outside this model.) *)

Definition int64_wrap (z : Z) : Z := (z + 2 ^ 63) mod 2 ^ 64 - 2 ^ 63.

(** [a.sum()] on an [int64] array wraps silently. *)
Definition int64_sum (l : list Z) : Z :=
  fold_left (fun acc c => int64_wrap (acc + c)) l 0.

(** * Class weights (lines 103-104) *)

Section ClassWeight.
Context {F : Type} `{Dtype F}.

(** [np.zeros((n,))] raises [ValueError] on a negative dimension. *)
Definition np_zeros (n : Z) : option (list F) :=
  if Z.ltb n 0 then None else Some (replicate (Z.to_nat n) fzero).

(** [dst[start:] = src]: the shapes agree, or [src] has one element that
    is broadcast; anything else raises [ValueError]. *)
Definition np_assign_from (dst : list F) (start : nat) (src : list F)
  : option (list F) :=
  let tail_len := (length dst - start)%nat in
  if decide (length src = tail_len) then Some (take start dst ++ src)
  else match src with
       | [x] => Some (take start dst ++ replicate tail_len x)
       | _ => None
       end.

(** [(1 / c) * total / (N_CLASSES - 2)], evaluated left to right. *)
Definition weight_of (N_CLASSES total c : Z) : F :=
  fdiv (fmul (fdiv (of_int 1) (of_int c)) (of_int total))
       (of_int (N_CLASSES - 2)).

(** [N_CLASSES] and [TRAIN_CLASS_COUNTS] are constants of the dataset
    class [LandCoverData]; they are parameters here. *)
Definition class_weight (N_CLASSES : Z) (TRAIN_CLASS_COUNTS : list Z)
  : option (list F) :=
  w0 ← np_zeros N_CLASSES;
  let tail := drop 2 TRAIN_CLASS_COUNTS in
  let total := int64_sum tail in
  np_assign_from w0 2 (weight_of N_CLASSES total <$> tail).
End ClassWeight.

(** * The runtime the script runs in *)

(** A path is its list of components below the root. *)
Definition path := list string.

(** [str(p)] *)
Definition str (p : path) : string := String.concat "/" p.

Inductive exn :=
  | SystemExit            (* argparse: [--config] is required *)
  | FileNotFoundError
  | IsADirectoryError
  | TypeError
  | FileExistsError
  | YAMLError
  | AttributeError
  | AssertionError
  | NameError
  | ValueError
  | OverflowError
  | IndexError
  | ZeroDivisionError
  | InvalidArgumentError. (* TensorFlow *)

(** The section [TrainingConfig] of the YAML document, as [YamlNamespace]
    exposes it: an attribute is there or it is not. *)
Record TrainingSection := {
  y_xp_rootdir : option path;
  y_dataset_folder : option path;
  y_batch_size : option Z;
  y_epochs : option Z;
  y_lr : option Q
}.

(** What [open] and [yaml.load] make of a path: nothing is there, a
    directory is, or a file that parses or does not. *)
Inductive yaml_file :=
  | Missing
  | IsDirectory
  | Malformed
  | Document (TrainingConfig : option TrainingSection).

(** The namespace [_parse_args] returns: both directories resolved. *)
Record Config := {
  xp_rootdir : path;
  dataset_folder : path;
  batch_size : option Z;
  epochs : option Z;
  lr : option Q
}.

(** The collaborators of the script: Python's [random] module, the
    generator behind [tf.data]'s shuffle, the image functions of
    [framework.dataset] and the constants of [LandCoverData]. *)
Class Collaborators := {
  rng : Type;
  (** [random.seed(a)]: the new state depends on [a] alone. *)
  seed_state : Z -> rng;
  (** [Random._randbelow(n)] *)
  randbelow : nat -> rng -> nat * rng;
  tf_rng : Type;
  (** The generator of the [k]-th iterator over a shuffle with this seed. *)
  tf_seed_state : Z -> nat -> tf_rng;
  tf_random : tf_rng -> nat * tf_rng;
  Sample : Type;
  parse_image : string -> Sample;
  (** The augmentation draws at random: its first two arguments stand for
      the iterator and the position of the call. *)
  load_image_train : nat -> nat -> Sample -> Sample;
  load_image_test : Sample -> Sample;
  N_CLASSES : Z;
  TRAIN_CLASS_COUNTS : list Z
}.

Record World `{Collaborators} := {
  dirs : gset path;                 (* the directories that exist *)
  config_files : path -> yaml_file;
  glob_tif : path -> list path;     (* [folder.glob('train/imgs/*.tif')] *)
  now : string;                     (* [strftime("%d-%m-%Y_%H:%M:%S")] of the clock *)
  py_random : rng                   (* state of the module [random] *)
}.

(** ** A monad of state and exceptions *)

Inductive result (W A : Type) :=
  | Ok (a : A) (w : W)
  | Raise (e : exn) (w : W).
Arguments Ok {W A} a w.
Arguments Raise {W A} e w.

Definition M (W A : Type) : Type := W -> result W A.

Definition ret {W A} (a : A) : M W A := fun w => Ok a w.
Definition raise {W A} (e : exn) : M W A := fun w => Raise e w.
Definition bind {W A B} (c : M W A) (k : A -> M W B) : M W B :=
  fun w => match c w with
           | Ok a w' => k a w'
           | Raise e w' => Raise e w'
           end.

Notation "'let*' x ':=' c 'in' k" := (bind c (fun x => k))
  (at level 10, x pattern, c at level 100, k at level 200).
Notation "c ;; k" := (bind c (fun _ => k))
  (at level 100, k at level 200, right associativity).

Definition from_option {W A} (e : exn) (o : option A) : M W A :=
  match o with Some a => ret a | None => raise e end.

(** [assert b] *)
Definition assert_ {W} (b : bool) : M W unit :=
  if b then ret tt else raise AssertionError.

Definition world_of {W A} (r : result W A) : W :=
  match r with Ok _ w => w | Raise _ w => w end.

Section Runtime.
Context `{Collaborators}.

Definition is_dir (p : path) : M World bool :=
  fun w => Ok (bool_decide (p ∈ dirs w)) w.

Definition path_exists (p : path) : M World bool :=
  fun w => Ok (bool_decide (p ∈ dirs w)
               || match config_files w p with Missing => false | _ => true end) w.

(** The ancestors of a path, the path itself included. *)
Definition ancestors (p : path) : list path :=
  (fun n => take n p) <$> seq 0 (S (length p)).

(** [Path.mkdir(parents=...)] with [exist_ok=False]. *)
Definition mkdir (parents : bool) (p : path) : M World unit :=
  fun w =>
    if bool_decide (p ∈ dirs w) then Raise FileExistsError w
    else if parents then
      Ok tt {| dirs := list_to_set (ancestors p) ∪ dirs w;
               config_files := config_files w; glob_tif := glob_tif w;
               now := now w; py_random := py_random w |}
    else if bool_decide (take (length p - 1) p ∈ dirs w) then
      Ok tt {| dirs := {[p]} ∪ dirs w;
               config_files := config_files w; glob_tif := glob_tif w;
               now := now w; py_random := py_random w |}
    else Raise FileNotFoundError w.

(** [open(p)] followed by [yaml.load]. *)
Definition load_yaml (p : path) : M World (option TrainingSection) :=
  fun w => match config_files w p with
           | Missing => Raise FileNotFoundError w
           | IsDirectory => Raise IsADirectoryError w
           | Malformed => Raise YAMLError w
           | Document d => Ok d w
           end.

(** [random.seed(a)] *)
Definition random_seed (a : Z) : M World unit :=
  fun w => Ok tt {| dirs := dirs w; config_files := config_files w;
                    glob_tif := glob_tif w; now := now w;
                    py_random := seed_state a |}.

(** ** [random.sample(population, len(population))]

    With [k = n] CPython always takes the branch that copies the
    population into a pool and, at step [i], moves [pool[j]] to the result
    and [pool[n - i - 1]] into the vacancy. *)
Fixpoint sample_loop {A} (steps i n : nat) (pool : list A) (g : rng)
  : option (list A * rng) :=
  match steps with
  | O => Some ([], g)
  | S steps' =>
      let '(j, g1) := randbelow (n - i) g in
      x ← pool !! j;
      y ← pool !! (n - i - 1)%nat;
      '(rest, g2) ← sample_loop steps' (S i) n (<[j := y]> pool) g1;
      Some (x :: rest, g2)
  end.

Definition sample {A} (population : list A) : M World (list A) :=
  fun w =>
    let n := length population in
    match sample_loop n 0 n population (py_random w) with
    | Some (l, g) => Ok l {| dirs := dirs w; config_files := config_files w;
                             glob_tif := glob_tif w; now := now w;
                             py_random := g |}
    | None => Raise IndexError w
    end.
End Runtime.

(** * [tf.data] pipelines

    A dataset makes iterators; an iterator yields its next element or
    reports the end of the sequence.  [fresh k] is the state of the iterator
    made over the dataset when [k] iterators have been made over it before:
    the script makes one at line 114 and [model.fit] makes others. *)

Record Dataset (St A : Type) := {
  fresh : nat -> St;
  next : St -> option (A * St)
}.
Arguments fresh {St A} _ _.
Arguments next {St A} _ _.

(** [n] successive calls of [next]; [None] when the sequence ends before. *)
Fixpoint draw {St A} (d : Dataset St A) (n : nat) (s : St) : option (list A * St) :=
  match n with
  | O => Some ([], s)
  | S n' =>
      '(x, s1) ← next d s;
      '(l, s2) ← draw d n' s1;
      Some (x :: l, s2)
  end.

(** At most [n] elements, as many as there are. *)
Fixpoint pull {St A} (d : Dataset St A) (n : nat) (s : St) : list A * St :=
  match n with
  | O => ([], s)
  | S n' =>
      match next d s with
      | None => ([], s)
      | Some (x, s1) => let '(l, s2) := pull d n' s1 in (x :: l, s2)
      end
  end.

Definition from_tensor_slices {A} (l : list A) : Dataset (list A) A :=
  {| fresh := fun _ => l;
     next := fun s => match s with [] => None | x :: s' => Some (x, s') end |}.

(** [ds.map(f)]; the order of the input is kept. *)
Definition ds_map {St A B} (f : A -> B) (d : Dataset St A) : Dataset St B :=
  {| fresh := fresh d;
     next := fun s => '(x, s') ← next d s; Some (f x, s') |}.

(** [ds.map(f)] for an [f] that draws at random: the state counts the calls. *)
Definition ds_map_random {St A B} (f : nat -> nat -> A -> B) (d : Dataset St A)
  : Dataset (St * nat * nat) B :=
  {| fresh := fun k => (fresh d k, k, O);
     next := fun '(s, k, i) =>
       '(x, s') ← next d s; Some (f k i x, (s', k, S i)) |}.

Record shuffle_state (St A G : Type) := {
  sh_input : St;
  sh_buffer : list A;
  sh_gen : G
}.
Arguments sh_input {St A G} _.
Arguments sh_buffer {St A G} _.
Arguments sh_gen {St A G} _.

Record repeat_state (St : Type) := {
  rp_epoch : nat;
  rp_input : St;
  rp_first_call : bool
}.
Arguments rp_epoch {St} _.
Arguments rp_input {St} _.
Arguments rp_first_call {St} _.

Section TfData.
Context `{Collaborators}.

(** [ds.shuffle(buffer_size, seed)]: the buffer is filled from the input
    up to [buffer_size] elements, a random slot is swapped with the first
    one, and the first one is emitted. *)
Definition ds_shuffle {St A} (buffer_size : nat) (seed : Z) (d : Dataset St A)
  : Dataset (shuffle_state St A tf_rng) A :=
  {| fresh := fun k =>
       {| sh_input := fresh d k; sh_buffer := []; sh_gen := tf_seed_state seed k |};
     next := fun st =>
       let '(new, s') := pull d (buffer_size - length (sh_buffer st)) (sh_input st) in
       match sh_buffer st ++ new with
       | [] => None
       | first :: rest =>
           let '(r, g') := tf_random (sh_gen st) in
           let j := (r mod S (length rest))%nat in
           match (first :: rest) !! j with
           | None => None
           | Some x =>
               Some (x, {| sh_input := s';
                           sh_buffer := drop 1 (<[j := first]> (first :: rest));
                           sh_gen := g' |})
           end
       end |}.

(** [ds.repeat()]: when the input ends a new iterator is made over it; an
    input that ends at its first call ends the repetition.  The iterators
    over the input are numbered as they are made: an iterator that starts
    when [k] of them have been made starts with number [k], and its later
    passes take the numbers that follow, so that no two passes of a shuffled
    input use the same generator. *)
Definition ds_repeat {St A} (d : Dataset St A) : Dataset (repeat_state St) A :=
  {| fresh := fun k =>
       {| rp_epoch := k; rp_input := fresh d k; rp_first_call := true |};
     next := fun st =>
       match next d (rp_input st) with
       | Some (x, s') =>
           Some (x, {| rp_epoch := rp_epoch st; rp_input := s'; rp_first_call := false |})
       | None =>
           if rp_first_call st then None
           else
             let e := S (rp_epoch st) in
             match next d (fresh d e) with
             | Some (x, s') =>
                 Some (x, {| rp_epoch := e; rp_input := s'; rp_first_call := false |})
             | None => None
             end
       end |}.

(** [ds.batch(batch_size)], [drop_remainder=False]. *)
Definition ds_batch {St A} (batch_size : nat) (d : Dataset St A)
  : Dataset St (list A) :=
  {| fresh := fresh d;
     next := fun s =>
       match pull d batch_size s with
       | ([], _) => None
       | (b, s') => Some (b, s')
       end |}.

(** [ds.prefetch(n)] changes when elements are computed, not which. *)
Definition ds_prefetch {St A} (d : Dataset St A) : Dataset St A := d.
End TfData.

(** * The script *)

(** Line 19. *)
Definition SEED : Z := 42.

(** The index a slice bound denotes in a list of [len] elements. *)
Definition slice_index (len : nat) (i : Z) : nat :=
  if Z.ltb i 0 then Z.to_nat (Z.max 0 (Z.of_nat len + i))
  else Nat.min (Z.to_nat i) len.

(** [l[i:]] and [l[:i]] *)
Definition slice_from {A} (l : list A) (i : Z) : list A :=
  drop (slice_index (length l) i) l.
Definition slice_to {A} (l : list A) (i : Z) : list A :=
  take (slice_index (length l) i) l.

(** [a // b] on integers *)
Definition floordiv {W} (a b : Z) : M W Z :=
  if Z.eqb b 0 then raise ZeroDivisionError else ret (a / b).

(** The variables lines 78-83 leave behind. *)
Record Split := {
  train_files : list path;
  val_files : list path;
  valset_size : Z;
  trainset_size : Z
}.

Section Script.
Context `{Collaborators}.

(** Lines 49-62. [argv] is the value of [--config], if it was given. *)
Definition _parse_args (argv : option path) : M World Config :=
  let* cli_config := from_option SystemExit argv in
  let* doc := load_yaml cli_config in
  let* config := from_option AttributeError doc in
  let* root := from_option AttributeError (y_xp_rootdir config) in
  let* root_ok := is_dir root in
  assert_ root_ok ;;
  let* folder := from_option AttributeError (y_dataset_folder config) in
  let* folder_ok := is_dir folder in
  assert_ folder_ok ;;
  ret {| xp_rootdir := root; dataset_folder := folder;
         batch_size := y_batch_size config; epochs := y_epochs config;
         lr := y_lr config |}.

(** Lines 78-83: shuffle the files, hold out the first tenth. *)
Definition split (files : list path) : M World Split :=
  let* shuffled := sample files in
  let n := Z.of_nat (length shuffled) in
  let* v := from_option OverflowError
              (F64.to_Z_trunc (F64.mul (F64.of_Z n) F64.tenth)) in
  ret {| train_files := slice_from shuffled v;
         val_files := slice_to shuffled v;
         valset_size := v;
         trainset_size := n - v |}.

(** [.batch(config.batch_size)]: TensorFlow refuses a batch size that is
    not positive. *)
Definition tf_batch_size (config : Config) : M World Z :=
  let* b := from_option AttributeError (batch_size config) in
  if Z.leb b 0 then raise InvalidArgumentError else ret b.

Definition train_state : Type :=
  repeat_state (shuffle_state (list string * nat * nat) Sample tf_rng).
Definition val_state : Type := repeat_state (list string).

(** Lines 85-86 and 90-94. *)
Definition train_dataset (files : list path) (batch : nat)
  : Dataset train_state (list Sample) :=
  ds_prefetch
    (ds_batch batch
       (ds_repeat
          (ds_shuffle 1024 SEED
             (ds_map_random load_image_train
                (ds_map parse_image (from_tensor_slices (str <$> files))))))).

(** Lines 87-88 and 96-99. *)
Definition val_dataset (files : list path) (batch : nat)
  : Dataset val_state (list Sample) :=
  ds_prefetch
    (ds_batch batch
       (ds_repeat
          (ds_map load_image_test
             (ds_map parse_image (from_tensor_slices (str <$> files)))))).

(** Lines 108-111. *)
Definition make_xp_dir (config : Config) : M World path :=
  fun w =>
    let xp_dir := xp_rootdir config ++ [now w] in
    (mkdir true (xp_dir ++ ["tensorboard"%string]) ;;
     mkdir false (xp_dir ++ ["plots"%string]) ;;
     mkdir false (xp_dir ++ ["checkpoints"%string]) ;;
     ret xp_dir) w.

(** Lines 114-115; when the loop body never runs, [sample_batch] is unbound
    at line 118. *)
Definition take_sample_batch {St} (d : Dataset St (list Sample))
  : M World (list Sample) :=
  match next d (fresh d O) with
  | Some (b, _) => ret (take 5 b)
  | None => raise NameError
  end.

(** The arguments [model.fit] is called with. *)
Record Fit := {
  fit_x : Dataset train_state (list Sample);
  fit_epochs : Z;
  fit_steps_per_epoch : Z;
  fit_validation_data : Dataset val_state (list Sample);
  fit_validation_steps : Z;
  fit_class_weight : list spec_float
}.

(** The variables of the module when [model.fit] is called. *)
Record Globals := {
  config : Config;
  files : Split;
  xp_dir : path;
  sample_batch : list Sample;
  fit : Fit
}.

(** Lines 68-165, up to the call of [model.fit]. *)
Definition main (argv : option path) : M World Globals :=
  let* config := _parse_args argv in
  let* folder_ok := path_exists (dataset_folder config) in
  assert_ folder_ok ;;
  let* found := (fun w => Ok (glob_tif w (dataset_folder config)) w) in
  let* sp := split found in
  let* batch := tf_batch_size config in
  let train := train_dataset (train_files sp) (Z.to_nat batch) in
  let val := val_dataset (val_files sp) (Z.to_nat batch) in
  let* weights := from_option ValueError
                    (class_weight (F:=spec_float) N_CLASSES TRAIN_CLASS_COUNTS) in
  let* xp := make_xp_dir config in
  let* sb := take_sample_batch train in
  let* _ := from_option AttributeError (lr config) in
  let* ep := from_option AttributeError (epochs config) in
  let* steps := floordiv (trainset_size sp) batch in
  let* vsteps := floordiv (valset_size sp) batch in
  ret {| config := config; files := sp; xp_dir := xp; sample_batch := sb;
         fit := {| fit_x := train; fit_epochs := ep;
                   fit_steps_per_epoch := steps;
                   fit_validation_data := val;
                   fit_validation_steps := vsteps;
                   fit_class_weight := weights |} |}.

(** The process: the module is loaded, which seeds the generator (line
    21), then the main block runs. *)
Definition script (argv : option path) : M World Globals :=
  random_seed SEED ;; main argv.
End Script.

(** * Quantities the specification speaks of *)

(** The rational [m * 2^e]. *)
Definition V (m e : Z) : Q := (inject_Z m * 2 ^ e)%Q.

(** The relative error of one rounding, [2^-52], and of the three roundings
    of a class weight, [2^-50]. *)
Definition u52 : Q := (1 # 4503599627370496)%Q.
Definition eps50 : Q := (1 # 1125899906842624)%Q.

(** [y] is within the fraction [2^-52] of [x]. *)
Definition approx (y x : Q) : Prop := (Qabs (y - x) <= x * u52)%Q.

(** The rationals the entries of a binary64 vector denote. *)
Definition values (w : list spec_float) : option (list Q) := mapM F64.to_Q w.

(** The arithmetic mean of the entries of the non-ignored classes. *)
Definition mean_weight {F} `{Dtype F} (w : list F) : F :=
  fdiv (foldl fadd fzero (drop 2 w)) (of_int (Z.of_nat (length w) - 2)).

(** The sum over the non-ignored classes of [weight[i] * count[i]]. *)
Definition weighted_total {F} `{Dtype F} (w : list F) (counts : list Z) : F :=
  foldl fadd fzero (zip_with fmul (drop 2 w) (of_int <$> drop 2 counts)).

(** The sum of the counts, without wrap-around. *)
Definition total (counts : list Z) : Z := foldr Z.add 0 counts.

(** What the script takes for granted of [Random._randbelow]. *)
Definition randbelow_in_range `{Collaborators} : Prop :=
  forall (n : nat) (g : rng), (0 < n)%nat -> (fst (randbelow n g) < n)%nat.

(** What the validation pipeline makes of a path. *)
Definition val_sample `{Collaborators} (f : string) : Sample :=
  load_image_test (parse_image f).

(** A dataset never ends when its states at every position [p] of the
    sequence satisfy an invariant [I p] under which [next] yields an element,
    which [R p] describes, and a state of the position after. *)
Definition Streams {St A} (d : Dataset St A)
    (I : nat -> St -> Prop) (R : nat -> A -> Prop) : Prop :=
  forall p s, I p s ->
    exists x s', next d s = Some (x, s') /\ R p x /\ I (S p) s'.

(** A dataset ends after [len] elements: [J k i] holds of the [k]-th
    iterator when it has yielded [i] elements, and [R k i] describes the
    next one. *)
Definition Epochs {St A} (d : Dataset St A) (len : nat)
    (J : nat -> nat -> St -> Prop) (R : nat -> nat -> A -> Prop) : Prop :=
  (forall k, J k O (fresh d k)) /\
  (forall k i s, J k i s -> (i < len)%nat ->
     exists x s', next d s = Some (x, s') /\ R k i x /\ J k (S i) s') /\
  (forall k s, J k len s -> next d s = None).

(** What the outcome of a run is, the world left aside. *)
Definition outcome {W A} (r : result W A) : exn + A :=
  match r with Ok a _ => inr a | Raise e _ => inl e end.

(** The ways the configuration can be wrong, as the specification lists
    them: no file, a file that does not parse, a document without the
    training section or without one of the two directories, a directory that
    does not exist. *)
Inductive config_error `{Collaborators} (w : World) : option path -> Prop :=
  | no_config_flag : config_error w None
  | config_missing p :
      config_files w p = Missing -> config_error w (Some p)
  | config_is_directory p :
      config_files w p = IsDirectory -> config_error w (Some p)
  | config_malformed p :
      config_files w p = Malformed -> config_error w (Some p)
  | config_no_section p :
      config_files w p = Document None -> config_error w (Some p)
  | config_no_root p y :
      config_files w p = Document (Some y) -> y_xp_rootdir y = None ->
      config_error w (Some p)
  | config_root_not_dir p y root :
      config_files w p = Document (Some y) -> y_xp_rootdir y = Some root ->
      root ∉ dirs w -> config_error w (Some p)
  | config_no_folder p y root :
      config_files w p = Document (Some y) -> y_xp_rootdir y = Some root ->
      root ∈ dirs w -> y_dataset_folder y = None -> config_error w (Some p)
  | config_folder_not_dir p y root folder :
      config_files w p = Document (Some y) -> y_xp_rootdir y = Some root ->
      root ∈ dirs w -> y_dataset_folder y = Some folder ->
      folder ∉ dirs w -> config_error w (Some p).

(** * A concrete instance, to run the definitions on *)

Module Demo.
(** The table of the specification's example, and one whose weights are
    not dyadic. *)
Definition spec_counts : list Z := [100; 50; 10; 40].
Definition odd_counts : list Z := [7; 5; 3; 28].

(** A linear congruential generator stands for both generators. *)
Definition lcg (g : N) : N := ((g * 75 + 74) mod 65537)%N.

#[export] Instance collaborators : Collaborators :=
  {| rng := N;
     seed_state := fun a => Z.to_N a;
     randbelow := fun n g => (N.to_nat (lcg g mod N.of_nat n), lcg g);
     tf_rng := N;
     tf_seed_state := fun seed k => (Z.to_N seed + N.of_nat k)%N;
     tf_random := fun g => (N.to_nat (lcg g), lcg g);
     Sample := string;
     parse_image := fun p => p;
     load_image_train := fun _ _ x => x;
     load_image_test := fun x => x;
     N_CLASSES := 4;
     TRAIN_CLASS_COUNTS := [100; 50; 10; 40] |}.

Definition section : TrainingSection :=
  {| y_xp_rootdir := Some ["xp"%string];
     y_dataset_folder := Some ["data"%string];
     y_batch_size := Some 2;
     y_epochs := Some 3;
     y_lr := Some (1 # 1000)%Q |}.

Definition tile (k : nat) : path :=
  ["data"; "train"; "imgs"; String (Ascii.ascii_of_nat (97 + k)) ".tif"]%string.

(** The same section without the learning rate. *)
Definition section_without_lr : TrainingSection :=
  {| y_xp_rootdir := Some ["xp"%string];
     y_dataset_folder := Some ["data"%string];
     y_batch_size := Some 2;
     y_epochs := Some 3;
     y_lr := None |}.

(** A dataset of [n] tiles, an existing root, one configuration file. *)
Definition world (n : nat) : World :=
  {| dirs := {[ ["xp"%string]; ["data"%string] ]};
     config_files := fun p =>
       if decide (p = ["cfg.yaml"%string]) then Document (Some section)
       else if decide (p = ["no_lr.yaml"%string])
            then Document (Some section_without_lr)
       else Missing;
     glob_tif := fun p =>
       if decide (p = ["data"%string]) then tile <$> seq 0 n else [];
     now := "04-11-2020_10:30:00"%string;
     py_random := 7%N |}.
End Demo.

(** * The plot callback (lines 23-46) *)

(** [str(n)] of an integer: its decimal digits, after a minus sign when it
    is negative. *)
Definition str_int (z : Z) : string := NilEmpty.string_of_int (Z.to_int z).

(** [range(a, b)] *)
Definition range (a b : Z) : list Z :=
  (fun i => a + Z.of_nat i) <$> seq 0 (Z.to_nat (b - a)).

(** The attributes of a [PlotCallback] that [on_epoch_begin] decides on;
    [dataset] and [sample_batch] are only handed on to [plot_predictions]. *)
Record PlotCallback := {
  save_folder : option path;
  num : Z;
  ipython_mode : bool
}.

(** [f'plot_{n}_epoch{epoch}.png'] *)
Definition plot_name (n epoch : Z) : string :=
  String.append "plot_"
    (String.append (str_int n)
       (String.append "_epoch" (String.append (str_int epoch) ".png"))).

(** What [on_epoch_begin] does before it calls [plot_predictions]: the
    paths it asks the plots to be saved at, if any.  [clear_output] is an
    attribute of the class, so that [self.clear_output(wait=True)] passes
    [self] for [wait] as well: with [ipython_mode] the call raises
    [TypeError] before any path is built. *)
Definition on_epoch_begin (cb : PlotCallback) (epoch : Z)
  : exn + option (list path) :=
  if ipython_mode cb then inl TypeError
  else inr match save_folder cb with
           | Some folder =>
               Some ((fun n => folder ++ [plot_name n epoch])
                       <$> range 1 (num cb + 1))
           | None => None
           end.

(** The callback of line 118. *)
Definition plot_callback (xp_dir : path) : PlotCallback :=
  {| save_folder := Some (xp_dir ++ ["plots"%string]); num := 5;
     ipython_mode := false |}.

(** * Further quantities *)

(** A set of directories is a tree when the parent of each is in it. *)
Definition tree (d : gset path) : Prop :=
  forall p, p ∈ d -> take (length p - 1) p ∈ d.

(** [w'] has the directories of [w] and maybe more; the configuration
    files, the dataset and the clock are those of [w]. *)
Definition extends `{Collaborators} (w w' : World) : Prop :=
  dirs w ⊆ dirs w' /\ config_files w' = config_files w /\
  glob_tif w' = glob_tif w /\ now w' = now w.

(** A computation that, whatever its outcome, leaves a world that extends
    the one it started in. *)
Definition frame `{Collaborators} {A} (c : M World A) : Prop :=
  forall w, extends w (world_of (c w)).

(** The samples iterator [k] of the training input yields, in file order. *)
Definition train_samples `{Collaborators} (k : nat) (l : list string) : list Sample :=
  imap (fun i f => load_image_train k i (parse_image f)) l.

(** The input of the training shuffle. *)
Definition train_input `{Collaborators} (l : list string)
  : Dataset (list string * nat * nat) Sample :=
  ds_map_random load_image_train (ds_map parse_image (from_tensor_slices l)).

(** The samples an iterator of the training shuffle has yet to yield: those
    in its buffer, then those its input has not loaded. *)
Definition pending `{Collaborators}
    (st : shuffle_state (list string * nat * nat) Sample tf_rng) : list Sample :=
  sh_buffer st
  ++ imap (fun j f => load_image_train (sh_input st).1.2 ((sh_input st).2 + j)
                        (parse_image f))
          (sh_input st).1.1.

(** ** A second concrete instance

    The world of [Demo] with the root of the file system among its
    directories, and a configuration file of any content. *)

Module Example.
#[local] Existing Instance Demo.collaborators.

Definition world (y : TrainingSection) (n : nat) : World :=
  {| dirs := {[ []; ["xp"%string]; ["data"%string] ]};
     config_files := fun p =>
       if decide (p = ["cfg.yaml"%string]) then Document (Some y) else Missing;
     glob_tif := fun p =>
       if decide (p = ["data"%string]) then Demo.tile <$> seq 0 n else [];
     now := "04-11-2020_10:30:00"%string;
     py_random := 7%N |}.

(** The section of [Demo] with another batch size. *)
Definition section_with_batch (b : option Z) : TrainingSection :=
  {| y_xp_rootdir := Some ["xp"%string];
     y_dataset_folder := Some ["data"%string];
     y_batch_size := b;
     y_epochs := Some 3;
     y_lr := Some (1 # 1000)%Q |}.
End Example.

(** * Rounding in binary64 *)

Lemma digits2_pos_bounds (p : positive) :
  2 ^ (Z.pos (digits2_pos p) - 1) <= Z.pos p < 2 ^ Z.pos (digits2_pos p).
Proof.
  induction p as [p IH | p IH |]; cbn [digits2_pos].
  - rewrite Pos2Z.inj_succ.
    replace (Z.succ (Z.pos (digits2_pos p)) - 1) with (Z.succ (Z.pos (digits2_pos p) - 1)) by lia.
    rewrite !Z.pow_succ_r by lia. lia.
  - rewrite Pos2Z.inj_succ.
    replace (Z.succ (Z.pos (digits2_pos p)) - 1) with (Z.succ (Z.pos (digits2_pos p) - 1)) by lia.
    rewrite !Z.pow_succ_r by lia. lia.
  - cbn. lia.
Qed.

Lemma shr_1_m mrs : 0 <= shr_m mrs -> shr_m (shr_1 mrs) = shr_m mrs / 2.
Proof.
  destruct mrs as [m r s]; cbn [shr_m shr_1]. intros Hm.
  destruct m as [|[p|p|]|p]; cbn [shr_m]; try lia.
  - reflexivity.
  - rewrite Pos2Z.inj_xI. apply Z.div_unique with 1; lia.
  - rewrite Pos2Z.inj_xO. apply Z.div_unique with 0; lia.
  - reflexivity.
Qed.

Lemma iter_shr_1_m p : forall mrs, 0 <= shr_m mrs ->
  shr_m (SpecFloat.iter_pos shr_1 p mrs) = shr_m mrs / 2 ^ Z.pos p.
Proof.
  induction p as [p IH | p IH |]; intros mrs Hm; cbn [SpecFloat.iter_pos].
  - assert (H1 : 0 <= shr_m (shr_1 mrs)) by (rewrite shr_1_m by done; apply Z.div_pos; lia).
    assert (H2 : 0 <= shr_m (SpecFloat.iter_pos shr_1 p (shr_1 mrs)))
      by (rewrite IH by done; apply Z.div_pos; lia).
    rewrite IH, IH, shr_1_m by done.
    rewrite !Z.div_div by lia. f_equal.
    replace (Z.pos p~1) with (1 + Z.pos p + Z.pos p) by lia.
    rewrite !Z.pow_add_r by lia. change (2 ^ 1) with 2. lia.
  - assert (H2 : 0 <= shr_m (SpecFloat.iter_pos shr_1 p mrs))
      by (rewrite IH by done; apply Z.div_pos; lia).
    rewrite IH, IH by done.
    rewrite !Z.div_div by lia. f_equal.
    replace (Z.pos p~0) with (Z.pos p + Z.pos p) by lia.
    rewrite !Z.pow_add_r by lia. reflexivity.
  - rewrite shr_1_m by done. reflexivity.
Qed.

Lemma shr_record_of_loc_m m l : shr_m (shr_record_of_loc m l) = m.
Proof. destruct l as [|[]]; reflexivity. Qed.

Lemma shr_m_e mrs e n : 0 <= shr_m mrs ->
  shr_m (fst (shr mrs e n)) = shr_m mrs / 2 ^ Z.max 0 n /\
  snd (shr mrs e n) = e + Z.max 0 n.
Proof.
  intros Hm. destruct n as [|p|p]; cbn [shr fst snd].
  - change (2 ^ Z.max 0 0) with 1. rewrite Z.div_1_r. lia.
  - rewrite iter_shr_1_m by done. replace (Z.max 0 (Z.pos p)) with (Z.pos p) by lia. done.
  - replace (Z.max 0 (Z.neg p)) with 0 by lia. change (2 ^ 0) with 1. rewrite Z.div_1_r. lia.
Qed.

Lemma round_nearest_even_bounds m l :
  m <= round_nearest_even m l <= m + 1.
Proof. destruct l as [|[]]; cbn; try lia. destruct (Z.even m); lia. Qed.

Lemma Zdigits2_bounds m : 0 < m ->
  2 ^ (Zdigits2 m - 1) <= m < 2 ^ Zdigits2 m.
Proof. destruct m as [|p|p]; try lia. intros _. apply digits2_pos_bounds. Qed.

Lemma Zdigits2_pos m : 0 < m -> 0 < Zdigits2 m.
Proof. destruct m; cbn; lia. Qed.

Lemma Zdigits2_unique m d : 2 ^ (d - 1) <= m < 2 ^ d -> 0 < d -> Zdigits2 m = d.
Proof.
  intros Hm Hd.
  assert (0 < m) by (pose proof (Z.pow_pos_nonneg 2 (d - 1)); lia).
  pose proof (Zdigits2_bounds m H) as Hb. pose proof (Zdigits2_pos m H) as Hp.
  destruct (Z.lt_trichotomy (Zdigits2 m) d) as [Hlt | [-> | Hgt]]; [|done|].
  - assert (2 ^ Zdigits2 m <= 2 ^ (d - 1)) by (apply Z.pow_le_mono_r; lia). lia.
  - assert (2 ^ d <= 2 ^ (Zdigits2 m - 1)) by (apply Z.pow_le_mono_r; lia). lia.
Qed.

(** Rounding a positive mantissa with at least [prec] digits, in the normal
    range: the result is finite and its mantissa, scaled back to the
    exponent of the truncated mantissa, is the truncation or its successor. *)
Lemma binary_round_aux_normal s m e l n :
  0 < m -> Zdigits2 m = 53 + n -> 0 <= n -> -1074 <= e + n <= 970 ->
  exists m' e',
    binary_round_aux F64.prec F64.emax s m e l = S754_finite s m' e' /\
    e + n <= e' <= e + n + 1 /\
    m / 2 ^ n <= Z.pos m' * 2 ^ (e' - (e + n)) <= m / 2 ^ n + 1 /\
    (l = loc_Exact -> n = 0 -> Z.pos m' = m /\ e' = e) /\
    2 ^ 52 <= Z.pos m' < 2 ^ 53.
Proof.
  intros Hm Hdn Hn Hrange.
  pose proof (Zdigits2_bounds m Hm) as Hd.
  assert (Hp : F64.prec = 53) by reflexivity.
  assert (Hemin : emin F64.prec F64.emax = -1074) by reflexivity.
  assert (Hemax : F64.emax - F64.prec = 971) by reflexivity.
  unfold binary_round_aux.
  assert (Hfexp : fexp F64.prec F64.emax (Zdigits2 m + e) - e = n).
  { unfold fexp. rewrite Hemin. lia. }
  unfold shr_fexp at 1. rewrite Hfexp.
  destruct (shr (shr_record_of_loc m l) e n) as [mrs' e'] eqn:Hshr.
  pose proof (shr_m_e (shr_record_of_loc m l) e n) as [Hq He'].
  { rewrite shr_record_of_loc_m. lia. }
  rewrite Hshr in Hq, He'. cbn [fst snd] in Hq, He'.
  rewrite shr_record_of_loc_m in Hq. replace (Z.max 0 n) with n in * by lia.
  set (q := m / 2 ^ n) in *.
  assert (Hqb : 2 ^ 52 <= q < 2 ^ 53).
  { unfold q. split.
    - apply Z.div_le_lower_bound; [lia|]. rewrite <- Z.pow_add_r by lia.
      replace (n + 52) with (Zdigits2 m - 1) by lia. lia.
    - apply Z.div_lt_upper_bound; [lia|]. rewrite <- Z.pow_add_r by lia.
      replace (n + 53) with (Zdigits2 m) by lia. lia. }
  pose proof (round_nearest_even_bounds (shr_m mrs') (loc_of_shr_record mrs')) as Hr.
  assert (Hexact : l = loc_Exact -> n = 0 ->
            round_nearest_even (shr_m mrs') (loc_of_shr_record mrs') = m).
  { intros -> Hn0. rewrite Hn0 in Hshr. cbn in Hshr. inversion Hshr; subst mrs'.
    reflexivity. }
  set (m1 := round_nearest_even (shr_m mrs') (loc_of_shr_record mrs')) in *.
  rewrite Hq in Hr.
  unfold shr_fexp.
  set (n2 := fexp F64.prec F64.emax (Zdigits2 m1 + e') - e').
  destruct (shr (shr_record_of_loc m1 loc_Exact) e' n2) as [mrs'' e''] eqn:Hshr2.
  pose proof (shr_m_e (shr_record_of_loc m1 loc_Exact) e' n2) as [Hq2 He''].
  { cbn. lia. }
  rewrite Hshr2 in Hq2, He''. cbn [fst snd shr_record_of_loc shr_m] in Hq2, He''.
  assert (Hcases : (m1 < 2 ^ 53 /\ n2 = 0) \/ (m1 = 2 ^ 53 /\ n2 = 1)).
  { destruct (Z.eq_dec m1 (2 ^ 53)) as [Hc | Hc]; [right | left]; split; try lia.
    - assert (Hd1 : Zdigits2 m1 = 54) by (apply Zdigits2_unique; lia).
      unfold n2, fexp. rewrite Hd1, Hemin, Hp. lia.
    - assert (Hd1 : Zdigits2 m1 = 53) by (apply Zdigits2_unique; lia).
      unfold n2, fexp. rewrite Hd1, Hemin, Hp. lia. }
  destruct Hcases as [[Hlt Hn2] | [Hc Hn2]]; rewrite Hn2 in *.
  - change (2 ^ Z.max 0 0) with 1 in Hq2. rewrite Z.div_1_r in Hq2.
    rewrite Hq2. destruct m1 as [|p|p] eqn:Hm1; [lia| |lia].
    replace (e'' <=? F64.emax - F64.prec) with true
      by (symmetry; apply Z.leb_le; lia).
    exists p, e''. split; [reflexivity|]. split; [lia|]. split; [|split].
    + replace (e'' - (e + n)) with 0 by lia. change (2 ^ 0) with 1. lia.
    + intros Hl Hn0. specialize (Hexact Hl Hn0). lia.
    + lia.
  - rewrite Hc in Hq2. change (2 ^ 53 / 2 ^ Z.max 0 1) with (2 ^ 52) in Hq2.
    rewrite Hq2. change (2 ^ 52) with (Z.pos (2 ^ 52)%positive).
    replace (e'' <=? F64.emax - F64.prec) with true
      by (symmetry; apply Z.leb_le; lia).
    exists (2 ^ 52)%positive, e''. split; [reflexivity|]. split; [lia|]. split; [|split].
    + replace (e'' - (e + n)) with 1 by lia.
      change (Z.pos (2 ^ 52)%positive * 2 ^ 1) with (2 ^ 53). lia.
    + intros Hl Hn0. specialize (Hexact Hl Hn0).
      assert (Hd53 : Zdigits2 m = 53) by lia. rewrite Hd53 in Hd. lia.
    + change (Z.pos (2 ^ 52)%positive) with (2 ^ 52). lia.
Qed.

Lemma pos_iter_xO (m d : positive) :
  Z.pos (Pos.iter xO m d) = Z.pos m * 2 ^ Z.pos d.
Proof.
  induction d as [|d IH] using Pos.peano_ind.
  - cbn. lia.
  - rewrite Pos.iter_succ, Pos2Z.inj_xO, IH, Pos2Z.inj_succ, Z.pow_succ_r by lia. lia.
Qed.

Lemma Zdigits2_range m lo hi :
  0 <= lo -> 2 ^ lo <= m < 2 ^ hi -> lo < Zdigits2 m <= hi.
Proof.
  intros Hlo Hm.
  assert (0 < m) by (pose proof (Z.pow_pos_nonneg 2 lo); lia).
  pose proof (Zdigits2_bounds m H) as Hb. pose proof (Zdigits2_pos m H) as Hp.
  split.
  - destruct (Z.lt_ge_cases lo (Zdigits2 m)) as [|Hge]; [done|].
    assert (2 ^ Zdigits2 m <= 2 ^ lo) by (apply Z.pow_le_mono_r; lia). lia.
  - destruct (Z.le_gt_cases (Zdigits2 m) hi) as [|Hgt]; [done|].
    assert (2 ^ hi <= 2 ^ (Zdigits2 m - 1)) by (apply Z.pow_le_mono_r; lia). lia.
Qed.

Lemma pow2_scale_bounds x lo hi a :
  0 <= a -> 0 <= lo -> 0 <= hi -> 2 ^ lo <= x < 2 ^ hi ->
  2 ^ (lo + a) <= x * 2 ^ a < 2 ^ (hi + a).
Proof.
  intros Ha Hlo Hhi [H1 H2]. rewrite !Z.pow_add_r by lia.
  assert (0 < 2 ^ a) by (apply Z.pow_pos_nonneg; lia).
  split; [apply Z.mul_le_mono_nonneg_r; lia | apply Z.mul_lt_mono_pos_r; lia].
Qed.

(** An integer below [2^53] converts exactly; the mantissa is normalised to
    53 digits. *)
Lemma of_Z_exact (N : Z) :
  0 < N < 2 ^ 53 ->
  let a := 53 - Zdigits2 N in
  exists m, F64.of_Z N = S754_finite false m (- a) /\ Z.pos m = N * 2 ^ a /\ 0 <= a.
Proof.
  intros HN a. destruct N as [|p|p]; try lia.
  assert (Hd : 0 < Zdigits2 (Z.pos p) <= 53) by (apply Zdigits2_range; lia).
  pose proof (Zdigits2_bounds (Z.pos p) ltac:(lia)) as Hb.
  unfold F64.of_Z, binary_normalize, binary_round.
  change (Z.pos (digits2_pos p)) with (Zdigits2 (Z.pos p)).
  assert (Hf : fexp F64.prec F64.emax (Zdigits2 (Z.pos p) + 0) = - a).
  { unfold fexp, a. change (emin F64.prec F64.emax) with (-1074).
    change F64.prec with 53. lia. }
  rewrite Hf. unfold shl_align. replace (- a - 0) with (- a) by lia.
  destruct (Z.eq_dec a 0) as [Ha0 | Hane].
  - rewrite Ha0. cbn [Z.opp].
    destruct (binary_round_aux_normal false (Z.pos p) 0 loc_Exact 0)
      as (m' & e' & Heq & _ & _ & Hex & _); [lia..|].
    destruct (Hex eq_refl eq_refl) as [Hm' He']. subst e'.
    exists m'. split; [exact Heq|]. split; [|lia]. change (2 ^ 0) with 1. lia.
  - destruct (- a) as [|q|q] eqn:Hq; [lia|lia|].
    assert (Ha : a = Z.pos q) by lia.
    set (mz := Pos.iter xO p q).
    assert (Hmz : Z.pos mz = Z.pos p * 2 ^ a) by (unfold mz; rewrite pos_iter_xO, Ha; done).
    assert (Hmzb : 2 ^ 52 <= Z.pos mz < 2 ^ 53).
    { rewrite Hmz.
      pose proof (pow2_scale_bounds (Z.pos p) (Zdigits2 (Z.pos p) - 1)
                    (Zdigits2 (Z.pos p)) a ltac:(lia) ltac:(lia) ltac:(lia) Hb) as Hs.
      replace (Zdigits2 (Z.pos p) - 1 + a) with 52 in Hs by lia.
      replace (Zdigits2 (Z.pos p) + a) with 53 in Hs by lia. exact Hs. }
    assert (Hdz : Zdigits2 (Z.pos mz) = 53) by (apply Zdigits2_unique; lia).
    destruct (binary_round_aux_normal false (Z.pos mz) (Z.neg q) loc_Exact 0)
      as (m' & e' & Heq & _ & _ & Hex & _); [lia..|].
    destruct (Hex eq_refl eq_refl) as [Hm' He']. subst e'.
    exists m'. split; [exact Heq|]. split; lia.
Qed.

(** [int(n * 0.1)] is the integer quotient by ten for every [n] below
    [2^52]. *)
Lemma trunc_mul_tenth (N : Z) :
  0 < N < 2 ^ 52 ->
  F64.to_Z_trunc (F64.mul (F64.of_Z N) F64.tenth) = Some (N / 10).
Proof.
  intros HN.
  destruct (of_Z_exact N ltac:(lia)) as (mN & -> & HmN & Ha).
  set (a := 53 - Zdigits2 N) in *.
  assert (HdN : 0 < Zdigits2 N <= 52) by (apply Zdigits2_range; lia).
  pose proof (Zdigits2_bounds N ltac:(lia)) as HbN.
  set (A := 2 ^ a) in *.
  assert (HA : 2 <= A).
  { unfold A. change 2 with (2 ^ 1) at 1. apply Z.pow_le_mono_r; lia. }
  assert (HNA : 2 ^ 52 <= N * A < 2 ^ 53).
  { pose proof (pow2_scale_bounds N (Zdigits2 N - 1) (Zdigits2 N) a
                  ltac:(lia) ltac:(lia) ltac:(lia) HbN) as Hs.
    replace (Zdigits2 N - 1 + a) with 52 in Hs by lia.
    replace (Zdigits2 N + a) with 53 in Hs by lia. exact Hs. }
  unfold F64.mul, F64.tenth, SFmul. cbn [xorb].
  set (X := Z.pos (mN * 7205759403792794)).
  assert (HX : X = N * A * 7205759403792794) by (unfold X; lia).
  assert (HXb : 2 ^ 104 <= X < 2 ^ 106) by (rewrite HX; lia).
  assert (HdX : 104 < Zdigits2 X <= 106) by (apply Zdigits2_range; lia).
  set (n := Zdigits2 X - 53) in *.
  destruct (binary_round_aux_normal false X (- a + -56) loc_Exact n)
    as (m' & e' & -> & He' & Hm' & _); [lia..|].
  set (t := a + 56 - n).
  replace (- a + -56 + n) with (- t) in * by (unfold t; lia).
  assert (Ht : 4 <= t) by (unfold t; lia).
  cbn [F64.to_Z_trunc].
  replace (0 <=? e') with false by (symmetry; apply Z.leb_gt; lia).
  f_equal.
  set (j := e' - - t) in *.
  assert (Hj : 0 <= j <= 1) by lia.
  replace (- e') with (t - j) by lia.
  assert (Hdiv : Z.pos m' / 2 ^ (t - j) = (Z.pos m' * 2 ^ j) / 2 ^ t).
  { replace t with ((t - j) + j) at 2 by lia. rewrite Z.pow_add_r by lia.
    rewrite Z.div_mul_cancel_r; [done| |]; apply Z.pow_nonzero; lia. }
  rewrite Hdiv. set (M1 := Z.pos m' * 2 ^ j) in *.
  set (q := X / 2 ^ n) in *.
  assert (Hnt : 2 ^ n * 2 ^ t = A * 2 ^ 56).
  { rewrite <- Z.pow_add_r by lia. replace (n + t) with (a + 56) by (unfold t; lia).
    rewrite Z.pow_add_r by lia. done. }
  assert (H2n : 0 < 2 ^ n <= 2 ^ 53).
  { split; [apply Z.pow_pos_nonneg; lia | apply Z.pow_le_mono_r; lia]. }
  assert (H2t : 0 < 2 ^ t) by (apply Z.pow_pos_nonneg; lia).
  pose proof (Z.div_mod N 10 ltac:(lia)) as Hdm.
  pose proof (Z.mod_pos_bound N 10 ltac:(lia)) as Hmod.
  set (k := N / 10) in *. set (r := N mod 10) in *.
  assert (HkA : N * A = 10 * (k * A) + r * A) by lia.
  assert (HrA : 0 <= r * A <= 9 * A).
  { split; [apply Z.mul_nonneg_nonneg; lia | apply Z.mul_le_mono_nonneg_r; lia]. }
  assert (Hk0 : 0 <= k * A) by (apply Z.mul_nonneg_nonneg; lia).
  symmetry. apply Z.div_unique with (M1 - k * 2 ^ t); [left|lia].
  split.
  - (* lower bound *)
    assert (k * 2 ^ t <= q); [|lia].
    apply Z.div_le_lower_bound; [lia|].
    replace (2 ^ n * (k * 2 ^ t)) with (k * (2 ^ n * 2 ^ t)) by lia.
    rewrite Hnt, HX. change (2 ^ 56) with 72057594037927936. lia.
  - (* upper bound *)
    assert (q < (k + 1) * 2 ^ t - 1); [|lia].
    apply Z.div_lt_upper_bound; [lia|].
    replace (2 ^ n * ((k + 1) * 2 ^ t - 1)) with ((k + 1) * (2 ^ n * 2 ^ t) - 2 ^ n) by lia.
    rewrite Hnt, HX. change (2 ^ 56) with 72057594037927936.
    change (2 ^ 53) with 9007199254740992 in *.
    lia.
Qed.

(** Beyond [2^53] the product is rounded too coarsely: for this [n],
    [int(n * 0.1)] is one more than the quotient of [n] by ten. *)
Remark trunc_mul_tenth_large :
  F64.to_Z_trunc (F64.mul (F64.of_Z 9007199254640999) F64.tenth)
  = Some (9007199254640999 / 10 + 1).
Proof. vm_compute. reflexivity. Qed.

(** ** The error of the binary64 operations *)

Lemma two_neq_0 : ~ (2 == 0)%Q.
Proof. discriminate. Qed.

Lemma pow2_pos (e : Z) : (0 < 2 ^ e)%Q.
Proof. apply Qpower_0_lt. reflexivity. Qed.

Lemma V_shift m j e : 0 <= j -> (V (m * 2 ^ j) e == V m (e + j))%Q.
Proof.
  intros Hj. unfold V.
  rewrite inject_Z_mult, Zpower_Qpower by exact Hj.
  rewrite (Qpower_plus 2 e j two_neq_0). change (inject_Z 2) with 2%Q. ring.
Qed.

Lemma V_le m1 m2 e : m1 <= m2 -> (V m1 e <= V m2 e)%Q.
Proof.
  intros Hm. unfold V. apply Qmult_le_compat_r.
  - rewrite <- Zle_Qle. exact Hm.
  - apply Qlt_le_weak, pow2_pos.
Qed.

Lemma V_mul m1 e1 m2 e2 : (V m1 e1 * V m2 e2 == V (m1 * m2) (e1 + e2))%Q.
Proof.
  unfold V. rewrite inject_Z_mult, (Qpower_plus 2 e1 e2 two_neq_0). ring.
Qed.

Lemma V_0 m : (V m 0 == inject_Z m)%Q.
Proof. unfold V. change (2 ^ 0)%Q with 1%Q. ring. Qed.

(** The rational a positive finite float denotes. *)
Lemma to_Q_finite (m : positive) (e : Z) :
  exists x, F64.to_Q (S754_finite false m e) = Some x /\ (x == V (Z.pos m) e)%Q.
Proof.
  cbn [F64.to_Q]. eexists. split; [reflexivity|]. rewrite Qred_correct.
  destruct (Z.leb_spec 0 e) as [He|He].
  - unfold V. rewrite inject_Z_mult, Zpower_Qpower by exact He. reflexivity.
  - unfold V. replace e with (- (- e)) at 2 by lia.
    rewrite Qpower_opp, <- (Zpower_Qpower 2 (- e)) by lia.
    assert (Hp : 0 < 2 ^ (- e)) by (apply Z.pow_pos_nonneg; lia).
    rewrite Qmake_Qdiv, Z2Pos.id by exact Hp. reflexivity.
Qed.

(** Two numbers between [q * t] and [(q + 1) * t], for [q >= 2^52], differ
    by at most the fraction [2^-52] of either. *)
Lemma sandwich_rel (q : Z) (t r x : Q) :
  2 ^ 52 <= q -> (0 < t)%Q ->
  (inject_Z q * t <= r)%Q -> (r <= (inject_Z q + 1) * t)%Q ->
  (inject_Z q * t <= x)%Q -> (x <= (inject_Z q + 1) * t)%Q ->
  (Qabs (r - x) <= x * u52)%Q.
Proof.
  intros Hq Ht Hr1 Hr2 Hx1 Hx2.
  assert (Hq' : (4503599627370496 <= inject_Z q)%Q).
  { change 4503599627370496%Q with (inject_Z (2 ^ 52)). rewrite <- Zle_Qle. exact Hq. }
  assert (Htx : (t <= x * u52)%Q).
  { unfold u52. 
    assert (H1 : (4503599627370496 * t <= x)%Q).
    { eapply Qle_trans; [|exact Hx1]. apply Qmult_le_compat_r; [exact Hq'|].
      apply Qlt_le_weak; exact Ht. }
    lra. }
  apply Qabs_Qle_condition. split; lra.
Qed.

(** Rounding in the normal range: the result is a normal number within the
    fraction [2^-52] of any [x] that lies between the truncated mantissa and
    its successor. *)
Lemma round_rel s m e l n (x : Q) :
  0 < m -> Zdigits2 m = 53 + n -> 0 <= n -> -1074 <= e + n <= 970 ->
  (V (m / 2 ^ n) (e + n) <= x)%Q -> (x <= V (m / 2 ^ n + 1) (e + n))%Q ->
  exists m' e',
    binary_round_aux F64.prec F64.emax s m e l = S754_finite s m' e' /\
    2 ^ 52 <= Z.pos m' < 2 ^ 53 /\
    e + n <= e' <= e + n + 1 /\
    (Qabs (V (Z.pos m') e' - x) <= x * u52)%Q.
Proof.
  intros Hm Hd Hn Hrange Hx1 Hx2.
  destruct (binary_round_aux_normal s m e l n Hm Hd Hn Hrange)
    as (m' & e' & Heq & He' & Hm' & _ & Hnorm).
  exists m', e'. split; [exact Heq|]. split; [exact Hnorm|]. split; [exact He'|].
  assert (HV : (V (Z.pos m') e' == V (Z.pos m' * 2 ^ (e' - (e + n))) (e + n))%Q).
  { rewrite V_shift by lia. replace (e + n + (e' - (e + n))) with e' by lia. reflexivity. }
  pose proof (Zdigits2_bounds m Hm) as Hb. rewrite Hd in Hb.
  assert (Hq : 2 ^ 52 <= m / 2 ^ n).
  { apply Z.div_le_lower_bound; [apply Z.pow_pos_nonneg; lia|].
    rewrite <- Z.pow_add_r by lia. replace (n + 52) with (53 + n - 1) by lia. lia. }
  apply (sandwich_rel (m / 2 ^ n) (2 ^ (e + n))%Q).
  - exact Hq.
  - apply pow2_pos.
  - rewrite HV. apply (V_le (m / 2 ^ n)). lia.
  - rewrite HV. change (inject_Z (m / 2 ^ n) + 1)%Q with (inject_Z (m / 2 ^ n) + inject_Z 1)%Q.
    rewrite <- inject_Z_plus. apply (V_le _ (m / 2 ^ n + 1)). lia.
  - exact Hx1.
  - change (inject_Z (m / 2 ^ n) + 1)%Q with (inject_Z (m / 2 ^ n) + inject_Z 1)%Q.
    rewrite <- inject_Z_plus. exact Hx2.
Qed.

(** The product of two normal numbers. *)
Lemma mul_rel (mx my : positive) (ex ey : Z) :
  2 ^ 52 <= Z.pos mx < 2 ^ 53 -> 2 ^ 52 <= Z.pos my < 2 ^ 53 ->
  -500 <= ex + ey <= 500 ->
  exists mz ez,
    F64.mul (S754_finite false mx ex) (S754_finite false my ey)
    = S754_finite false mz ez /\
    2 ^ 52 <= Z.pos mz < 2 ^ 53 /\
    ex + ey + 52 <= ez <= ex + ey + 54 /\
    (Qabs (V (Z.pos mz) ez - V (Z.pos mx) ex * V (Z.pos my) ey)
     <= V (Z.pos mx) ex * V (Z.pos my) ey * u52)%Q.
Proof.
  intros Hx Hy He. unfold F64.mul, SFmul. cbn [xorb].
  set (X := Z.pos (mx * my)).
  assert (HX : X = Z.pos mx * Z.pos my) by reflexivity.
  assert (HXb : 2 ^ 104 <= X < 2 ^ 106).
  { rewrite HX. change (2 ^ 104) with (2 ^ 52 * 2 ^ 52).
    change (2 ^ 106) with (2 ^ 53 * 2 ^ 53). split.
    - apply Z.mul_le_mono_nonneg; lia.
    - apply Z.mul_lt_mono_nonneg; lia. }
  assert (HdX : 104 < Zdigits2 X <= 106) by (apply Zdigits2_range; lia).
  set (n := Zdigits2 X - 53).
  assert (H2n : 0 < 2 ^ n) by (apply Z.pow_pos_nonneg; unfold n; lia).
  destruct (round_rel false X (ex + ey) loc_Exact n
              (V (Z.pos mx) ex * V (Z.pos my) ey)%Q)
    as (mz & ez & Heq & Hnorm & Hez & Hrel); try (unfold n; lia).
  - rewrite V_mul, <- HX, <- (V_shift (X / 2 ^ n) n (ex + ey)) by (unfold n; lia).
    apply V_le. rewrite Z.mul_comm. apply Z.mul_div_le. exact H2n.
  - rewrite V_mul, <- HX, <- (V_shift (X / 2 ^ n + 1) n (ex + ey)) by (unfold n; lia).
    apply V_le. pose proof (Z.mul_succ_div_gt X (2 ^ n) H2n). lia.
  - exists mz, ez. split; [exact Heq|]. split; [exact Hnorm|].
    split; [unfold n in Hez; lia|exact Hrel].
Qed.

(** The quotient of two normal numbers. *)
Lemma div_rel (mx my : positive) (ex ey : Z) :
  2 ^ 52 <= Z.pos mx < 2 ^ 53 -> 2 ^ 52 <= Z.pos my < 2 ^ 53 ->
  -500 <= ex - ey <= 500 ->
  exists mz ez,
    F64.div (S754_finite false mx ex) (S754_finite false my ey)
    = S754_finite false mz ez /\
    2 ^ 52 <= Z.pos mz < 2 ^ 53 /\
    ex - ey - 53 <= ez <= ex - ey - 51 /\
    (Qabs (V (Z.pos mz) ez - V (Z.pos mx) ex / V (Z.pos my) ey)
     <= V (Z.pos mx) ex / V (Z.pos my) ey * u52)%Q.
Proof.
  intros Hx Hy He. unfold F64.div, SFdiv, SFdiv_core_binary. cbn [xorb].
  assert (Hdx : Zdigits2 (Z.pos mx) = 53) by (apply Zdigits2_unique; lia).
  assert (Hdy : Zdigits2 (Z.pos my) = 53) by (apply Zdigits2_unique; lia).
  rewrite Hdx, Hdy.
  replace (Z.min (fexp F64.prec F64.emax (53 + ex - (53 + ey))) (ex - ey))
    with (ex - ey - 53)
    by (unfold fexp; change (emin F64.prec F64.emax) with (-1074);
        change F64.prec with 53; lia).
  replace (ex - ey - (ex - ey - 53)) with 53 by lia.
  rewrite Z.shiftl_mul_pow2 by lia.
  pose proof (Z.div_eucl_eq (Z.pos mx * 2 ^ 53) (Z.pos my) ltac:(lia)) as Heucl.
  pose proof (Z.mod_pos_bound (Z.pos mx * 2 ^ 53) (Z.pos my) ltac:(lia)) as Hmod.
  unfold Z.modulo in Hmod.
  destruct (Z.div_eucl (Z.pos mx * 2 ^ 53) (Z.pos my)) as [q r].
  change (2 ^ 53) with 9007199254740992 in *. change (2 ^ 52) with 4503599627370496 in *.
  assert (Hq : 4503599627370496 <= q < 18014398509481984) by nia.
  change 4503599627370496 with (2 ^ 52) in Hq. change 18014398509481984 with (2 ^ 54) in Hq.
  assert (Hdq : 52 < Zdigits2 q <= 54) by (apply Zdigits2_range; lia).
  set (n := Zdigits2 q - 53).
  assert (H2n : 0 < 2 ^ n) by (apply Z.pow_pos_nonneg; unfold n; lia).
  assert (Hy0 : (0 < inject_Z (Z.pos my))%Q) by (rewrite <- (Zlt_Qlt 0); lia).
  assert (Hexact : (V (Z.pos mx) ex / V (Z.pos my) ey
                    == inject_Z (Z.pos mx * 9007199254740992) / inject_Z (Z.pos my)
                       * 2 ^ (ex - ey - 53))%Q).
  { unfold V. rewrite inject_Z_mult.
    replace ex with ((ex - ey - 53) + 53 + ey) at 1 by lia.
    rewrite !(Qpower_plus 2) by exact two_neq_0.
    change (2 ^ 53)%Q with (inject_Z 9007199254740992).
    pose proof (pow2_pos ey). field. split; lra. }
  destruct (round_rel false q (ex - ey - 53) (new_location (Z.pos my) r) n
              (V (Z.pos mx) ex / V (Z.pos my) ey)%Q)
    as (mz & ez & Heq & Hnorm & Hez & Hrel); try (unfold n; lia).
  - rewrite Hexact. rewrite <- (V_shift (q / 2 ^ n) n (ex - ey - 53)) by (unfold n; lia).
    unfold V.
    apply Qmult_le_compat_r; [|apply Qlt_le_weak, pow2_pos].
    apply Qle_shift_div_l; [exact Hy0|]. rewrite <- inject_Z_mult, <- Zle_Qle.
    pose proof (Z.mul_div_le q (2 ^ n) H2n). nia.
  - rewrite Hexact.
    rewrite <- (V_shift (q / 2 ^ n + 1) n (ex - ey - 53)) by (unfold n; lia).
    unfold V.
    apply Qmult_le_compat_r; [|apply Qlt_le_weak, pow2_pos].
    apply Qle_shift_div_r; [exact Hy0|]. rewrite <- inject_Z_mult, <- Zle_Qle.
    pose proof (Z.mul_succ_div_gt q (2 ^ n) H2n). nia.
  - exists mz, ez. split; [exact Heq|]. split; [exact Hnorm|].
    split; [unfold n in Hez; lia|exact Hrel].
Qed.

Lemma approx_scale (y x t : Q) : (0 <= t)%Q -> approx y x -> approx (y * t) (x * t).
Proof.
  unfold approx. intros Ht Hyx.
  apply Qabs_Qle_condition in Hyx. destruct Hyx as [H1 H2].
  apply Qabs_Qle_condition. unfold u52 in *. split; nra.
Qed.

Lemma approx_bounds (y x : Q) :
  approx y x -> (x * (1 - u52) <= y /\ y <= x * (1 + u52))%Q.
Proof.
  unfold approx. intros Hyx.
  apply Qabs_Qle_condition in Hyx. destruct Hyx as [H1 H2]. unfold u52 in *.
  split; lra.
Qed.

#[export] Instance approx_proper : Proper (Qeq ==> Qeq ==> iff) approx.
Proof. intros y y' Hy x x' Hx. unfold approx. rewrite Hy, Hx. reflexivity. Qed.

(** A positive integer below [2^53] is a normal number. *)
Lemma of_Z_normal (N : Z) :
  0 < N < 2 ^ 53 ->
  exists m e,
    F64.of_Z N = S754_finite false m e /\
    2 ^ 52 <= Z.pos m < 2 ^ 53 /\ -52 <= e <= 0 /\
    (V (Z.pos m) e == inject_Z N)%Q.
Proof.
  intros HN. destruct (of_Z_exact N HN) as (m & Heq & Hm & Ha).
  set (a := 53 - Zdigits2 N) in *.
  assert (HdN : 0 < Zdigits2 N <= 53) by (apply Zdigits2_range; lia).
  pose proof (Zdigits2_bounds N ltac:(lia)) as HbN.
  exists m, (- a). split; [exact Heq|]. split; [|split; [lia|]].
  - rewrite Hm.
    pose proof (pow2_scale_bounds N (Zdigits2 N - 1) (Zdigits2 N) a
                  ltac:(lia) ltac:(lia) ltac:(lia) HbN) as Hs.
    replace (Zdigits2 N - 1 + a) with 52 in Hs by lia.
    replace (Zdigits2 N + a) with 53 in Hs by lia. exact Hs.
  - rewrite Hm, V_shift by lia. replace (- a + a) with 0 by lia. apply V_0.
Qed.

(** The weight of a class in binary64: a positive normal number [x] with
    [x * c * k] within the fraction [2^-50] of the total [s]. *)
Lemma weight_of_float_rel (k s c : Z) :
  0 < c < 2 ^ 53 -> 0 < s < 2 ^ 53 -> 0 < k < 2 ^ 53 ->
  exists m e,
    weight_of (F:=spec_float) (k + 2) s c = S754_finite false m e /\
    (Qabs (V (Z.pos m) e * inject_Z c * inject_Z k - inject_Z s)
     <= inject_Z s * (1 # 1125899906842624))%Q.
Proof.
  intros Hc Hs Hk. unfold weight_of. cbn [fdiv fmul of_int float64].
  replace (k + 2 - 2) with k by lia.
  destruct (of_Z_normal 1 ltac:(lia)) as (m1 & e1 & -> & Hm1 & He1 & V1).
  destruct (of_Z_normal c Hc) as (mc & ec & -> & Hmc & Hec & Vc).
  destruct (of_Z_normal s Hs) as (ms & es & -> & Hms & Hes & Vs).
  destruct (of_Z_normal k Hk) as (mk & ek & -> & Hmk & Hek & Vk).
  destruct (div_rel m1 mc e1 ec Hm1 Hmc ltac:(lia)) as (ma & ea & -> & Hma & Hea & Ra).
  destruct (mul_rel ma ms ea es Hma Hms ltac:(lia)) as (mb & eb & -> & Hmb & Heb & Rb).
  destruct (div_rel mb mk eb ek Hmb Hmk ltac:(lia)) as (mw & ew & -> & Hmw & Hew & Rw).
  exists mw, ew. split; [reflexivity|].
  fold (approx (V (Z.pos ma) ea) (V (Z.pos m1) e1 / V (Z.pos mc) ec)) in Ra.
  fold (approx (V (Z.pos mb) eb) (V (Z.pos ma) ea * V (Z.pos ms) es)) in Rb.
  fold (approx (V (Z.pos mw) ew) (V (Z.pos mb) eb / V (Z.pos mk) ek)) in Rw.
  rewrite V1, Vc in Ra. rewrite Vs in Rb. rewrite Vk in Rw.
  assert (Hc0 : (0 < inject_Z c)%Q) by (rewrite <- (Zlt_Qlt 0); lia).
  assert (Hs0 : (0 < inject_Z s)%Q) by (rewrite <- (Zlt_Qlt 0); lia).
  assert (Hk0 : (0 < inject_Z k)%Q) by (rewrite <- (Zlt_Qlt 0); lia).
  set (vA := V (Z.pos ma) ea) in *. set (vB := V (Z.pos mb) eb) in *.
  set (vW := V (Z.pos mw) ew) in *.
  set (qc := inject_Z c) in *. set (qs := inject_Z s) in *. set (qk := inject_Z k) in *.
  apply (approx_scale _ _ qc ltac:(lra)) in Ra.
  apply (approx_scale _ _ qc ltac:(lra)) in Rb.
  apply (approx_scale _ _ (qc * qk)%Q) in Rw; [|apply Qlt_le_weak, Qmult_lt_0_compat; assumption].
  assert (E1 : (inject_Z 1 / qc * qc == 1)%Q) by (change (inject_Z 1) with 1%Q; field; lra).
  assert (E3 : (vB / qk * (qc * qk) == vB * qc)%Q) by (field; lra).
  rewrite E1 in Ra. rewrite E3 in Rw.
  apply approx_bounds in Ra, Rb, Rw.
  destruct Ra as [Ra1 Ra2], Rb as [Rb1 Rb2], Rw as [Rw1 Rw2].
  assert (EX : (vA * qs * qc == vA * qc * qs)%Q) by ring.
  rewrite EX in Rb1, Rb2.
  set (P1 := (vA * qc)%Q) in *. 
  assert (HX1 : ((1 - u52) * qs <= P1 * qs)%Q)
    by (apply Qmult_le_compat_r; lra).
  assert (HX2 : (P1 * qs <= (1 + u52) * qs)%Q)
    by (apply Qmult_le_compat_r; lra).
  set (X1 := (P1 * qs)%Q) in *. set (P2 := (vB * qc)%Q) in *.
  assert (EW : (vW * qc * qk == vW * (qc * qk))%Q) by ring.
  rewrite EW. set (P3 := (vW * (qc * qk))%Q) in *.
  apply Qabs_Qle_condition. unfold u52 in *. split; lra.
Qed.

(** * Class weights *)

Lemma int64_wrap_id z : - 2 ^ 63 <= z < 2 ^ 63 -> int64_wrap z = z.
Proof.
  intros Hz. unfold int64_wrap. rewrite Z.mod_small; lia.
Qed.

Lemma total_nonneg l : Forall (fun c => 0 <= c) l -> 0 <= total l.
Proof. unfold total. induction 1; cbn; lia. Qed.

Lemma int64_sum_total l :
  Forall (fun c => 0 <= c) l -> total l < 2 ^ 63 -> int64_sum l = total l.
Proof.
  unfold int64_sum. intros Hpos.
  enough (Hgen : forall acc, 0 <= acc -> acc + total l < 2 ^ 63 ->
            fold_left (fun a c => int64_wrap (a + c)) l acc = acc + total l).
  { intros Hlt. rewrite Hgen; lia. }
  induction Hpos as [|c l Hc Hl IH]; intros acc Hacc Hlt;
    change (total []) with 0 in *;
    try change (total (c :: l)) with (c + total l) in *; cbn [fold_left]; [lia|].
  pose proof (total_nonneg l Hl).
  rewrite int64_wrap_id by lia. rewrite IH; lia.
Qed.

(** The shape of the vector, for any element type. *)
Lemma class_weight_shape {F} `{Dtype F} (n : Z) (counts : list Z) :
  Z.of_nat (length counts) = n -> 2 <= n ->
  class_weight n counts
  = Some ([fzero; fzero]
          ++ (weight_of n (int64_sum (drop 2 counts)) <$> drop 2 counts)).
Proof.
  intros Hlen Hn. unfold class_weight, np_zeros.
  replace (n <? 0) with false by (symmetry; apply Z.ltb_ge; lia).
  cbn [mbind option_bind]. unfold np_assign_from.
  rewrite length_replicate, length_fmap, length_drop.
  rewrite decide_True by lia.
  destruct (Z.to_nat n) as [|[|k]] eqn:Hk; [lia..|]. reflexivity.
Qed.

Lemma class_weight_lookup {F} `{Dtype F} (n : Z) (counts : list Z) w i c :
  class_weight n counts
  = Some ([fzero; fzero]
          ++ (weight_of n (int64_sum (drop 2 counts)) <$> drop 2 counts)) ->
  class_weight n counts = Some w ->
  (2 <= i)%nat -> counts !! i = Some c ->
  w !! i = Some (weight_of n (int64_sum (drop 2 counts)) c).
Proof.
  intros Hshape Hw Hi Hc.
  assert (Hweq : w = [fzero; fzero]
            ++ (weight_of n (int64_sum (drop 2 counts)) <$> drop 2 counts))
    by congruence.
  rewrite Hweq, lookup_app_r by (cbn [length]; lia).
  change (length [fzero; fzero]) with 2%nat.
  rewrite list_lookup_fmap, lookup_drop.
  replace (2 + (i - 2))%nat with i by lia. rewrite Hc. reflexivity.
Qed.

(** C1. The class weight vector has one entry per class; the entries of
    classes 0 and 1 are zero, and the entry of every class [i >= 2] is
    [(1 / count[i]) * (sum of the counts of the classes >= 2) / (N_CLASSES - 2)],
    in the binary64 arithmetic of the code.  For the counts [100, 50, 10, 40]
    the vector is [0, 0, 2.5, 0.625]. *)
Theorem class_weight_formula :
  (forall (n : Z) (counts : list Z),
     Z.of_nat (length counts) = n -> 2 <= n ->
     Forall (fun c => 0 <= c) (drop 2 counts) ->
     total (drop 2 counts) < 2 ^ 63 ->
     exists w : list spec_float,
       class_weight n counts = Some w /\
       Z.of_nat (length w) = n /\
       w !! 0%nat = Some F64.zero /\
       w !! 1%nat = Some F64.zero /\
       forall i c, (2 <= i)%nat -> counts !! i = Some c ->
         w !! i = Some (F64.div
                          (F64.mul (F64.div (F64.of_Z 1) (F64.of_Z c))
                                   (F64.of_Z (total (drop 2 counts))))
                          (F64.of_Z (n - 2))))
  /\ (fmap (M:=list) F64.to_Q <$> class_weight (F:=spec_float) 4 [100; 50; 10; 40])
     = Some [Some 0%Q; Some 0%Q; Some (5 # 2)%Q; Some (5 # 8)%Q].
Proof.
  split; [|vm_compute; reflexivity].
  intros n counts Hlen Hn Hpos Htot.
  pose proof (class_weight_shape (F:=spec_float) n counts Hlen Hn) as Hshape.
  eexists. split; [exact Hshape|]. split; [|split; [reflexivity|split; [reflexivity|]]].
  - rewrite length_app, length_fmap, length_drop. cbn [length]. lia.
  - intros i c Hi Hc.
    rewrite (class_weight_lookup n counts _ i c Hshape Hshape Hi Hc).
    rewrite int64_sum_total by assumption. reflexivity.
Qed.

(** The formula at a concrete table. *)
Lemma class_weight_formula_witness :
  exists w : list spec_float,
    class_weight 4 [100; 50; 10; 40] = Some w /\
    Z.of_nat (length w) = 4 /\
    w !! 0%nat = Some F64.zero /\
    w !! 1%nat = Some F64.zero /\
    forall i c, (2 <= i)%nat -> [100; 50; 10; 40] !! i = Some c ->
      w !! i = Some (F64.div
                       (F64.mul (F64.div (F64.of_Z 1) (F64.of_Z c))
                                (F64.of_Z (total (drop 2 [100; 50; 10; 40]))))
                       (F64.of_Z (4 - 2))).
Proof.
  apply (proj1 class_weight_formula 4 [100; 50; 10; 40]).
  - reflexivity.
  - lia.
  - repeat constructor; lia.
  - vm_compute. reflexivity.
Defined.

Lemma foldl_Qplus_const (l : list Q) (a v : Q) :
  Forall (fun x => (x == v)%Q) l ->
  (foldl Qplus a l == a + inject_Z (Z.of_nat (length l)) * v)%Q.
Proof.
  intros Hl. revert a. induction Hl as [|x l Hx Hl IH]; intros a.
  - cbn. ring.
  - cbn [foldl length]. rewrite IH, Hx, Nat2Z.inj_succ.
    unfold Z.succ. rewrite inject_Z_plus. ring.
Qed.

Lemma weight_of_exact_times_count (n s c : Z) :
  c <> 0 -> n - 2 <> 0 ->
  (weight_of (F:=Q) n s c * inject_Z c == inject_Z s / inject_Z (n - 2))%Q.
Proof.
  intros Hc Hn. unfold weight_of. cbn [fdiv fmul of_int exact].
  assert (~ (inject_Z c == 0)%Q) by (unfold Qeq; cbn; lia).
  assert (~ (inject_Z (n - 2) == 0)%Q) by (unfold Qeq; cbn; lia).
  field. split; assumption.
Qed.

Lemma weight_of_exact_pos (n s c : Z) :
  0 < c -> 0 < s -> 0 < n - 2 -> (0 < weight_of (F:=Q) n s c)%Q.
Proof.
  intros Hc Hs Hn. unfold weight_of. cbn [fdiv fmul of_int exact]. unfold Qdiv.
  assert (Hpos : forall z, 0 < z -> (0 < inject_Z z)%Q)
    by (intros z Hz; unfold Qlt; cbn; lia).
  repeat apply Qmult_lt_0_compat; try apply Qinv_lt_0_compat; auto.
  reflexivity.
Qed.

Lemma zip_weights_counts (n s : Z) (l : list Z) :
  Forall (fun c => 0 < c) l -> n - 2 <> 0 ->
  Forall (fun x => (x == inject_Z s / inject_Z (n - 2))%Q)
         (zip_with Qmult (weight_of (F:=Q) n s <$> l) (inject_Z <$> l)).
Proof.
  intros Hl Hn. induction Hl as [|c l Hc Hl IH]; cbn; constructor; [|exact IH].
  apply weight_of_exact_times_count; lia.
Qed.

Lemma lookup_le_total (l : list Z) i c :
  Forall (fun c => 0 <= c) l -> l !! i = Some c -> c <= total l.
Proof.
  intros Hl. revert i. induction Hl as [|x l Hx Hl IH]; intros [|i] Hi;
    try discriminate; change (total (x :: l)) with (x + total l).
  - injection Hi as ->. pose proof (total_nonneg l Hl). lia.
  - cbn in Hi. specialize (IH i Hi). lia.
Qed.

Lemma total_constant (l : list Z) c :
  Forall (eq c) l -> total l = Z.of_nat (length l) * c.
Proof.
  induction 1 as [|x l Hx Hl IH]; [reflexivity|].
  change (total (x :: l)) with (x + total l). rewrite IH, <- Hx.
  cbn [length]. lia.
Qed.

Lemma Forall_pos_nonneg (l : list Z) :
  Forall (fun c => 0 < c) l -> Forall (fun c => 0 <= c) l.
Proof. intros Hl. eapply Forall_impl; [exact Hl|]. cbn. intros; lia. Qed.

(** The facts both amended statements rest on. *)
Lemma class_weight_exact (n : Z) (counts : list Z) :
  Z.of_nat (length counts) = n -> 3 <= n ->
  Forall (fun c => 0 < c) (drop 2 counts) ->
  total (drop 2 counts) < 2 ^ 63 ->
  let s := total (drop 2 counts) in
  exists w : list Q,
    class_weight n counts = Some w /\
    drop 2 w = (weight_of n s <$> drop 2 counts) /\
    Z.of_nat (length w) = n /\
    0 < s /\
    (weighted_total w counts == inject_Z s)%Q.
Proof.
  intros Hlen Hn Hpos Htot s.
  pose proof (Forall_pos_nonneg _ Hpos) as Hnn.
  pose proof (class_weight_shape (F:=Q) n counts Hlen ltac:(lia)) as Hshape.
  rewrite int64_sum_total in Hshape by assumption. fold s in Hshape.
  assert (Hk : Z.of_nat (length (drop 2 counts)) = n - 2)
    by (rewrite length_drop; lia).
  assert (Hs : 0 < s).
  { destruct (drop 2 counts) as [|c l] eqn:Hd; [cbn in Hk; lia|].
    unfold s. change (total (c :: l)) with (c + total l).
    inversion Hpos; subst. inversion Hnn; subst.
    pose proof (total_nonneg l ltac:(assumption)). lia. }
  eexists. split; [exact Hshape|]. split; [reflexivity|]. split; [|split; [exact Hs|]].
  - rewrite length_app, length_fmap. cbn [length]. lia.
  - unfold weighted_total.
    change (drop 2 ([fzero; fzero] ++ (weight_of n s <$> drop 2 counts)))
      with (weight_of (F:=Q) n s <$> drop 2 counts).
    cbn [fadd fmul fzero of_int exact].
    rewrite (foldl_Qplus_const _ 0%Q (inject_Z s / inject_Z (n - 2))%Q)
      by (apply zip_weights_counts; [assumption|lia]).
    rewrite length_zip_with, !length_fmap, Nat.min_id, Hk.
    assert (~ (inject_Z (n - 2) == 0)%Q) by (unfold Qeq; cbn; lia).
    field. assumption.
Qed.

(** ** The same formula in binary64 *)

Lemma foldl_Qplus_bounds (xs : list Q) (cs : list Z) (k lo hi : Q) :
  (0 < k)%Q ->
  Forall2 (fun x c => lo <= x * inject_Z c * k /\ x * inject_Z c * k <= hi)%Q xs cs ->
  forall a : Q,
    (a * k + inject_Z (Z.of_nat (length cs)) * lo
     <= foldl Qplus a (zip_with Qmult xs (inject_Z <$> cs)) * k)%Q /\
    (foldl Qplus a (zip_with Qmult xs (inject_Z <$> cs)) * k
     <= a * k + inject_Z (Z.of_nat (length cs)) * hi)%Q.
Proof.
  intros Hk. induction 1 as [|x c xs cs [Hlo Hhi] Hrest IH]; intros a.
  - cbn [foldl zip_with fmap list_fmap length].
    change (inject_Z (Z.of_nat 0)) with 0%Q. split; lra.
  - cbn [foldl zip_with fmap list_fmap length]. rewrite Nat2Z.inj_succ.
    unfold Z.succ. rewrite inject_Z_plus. change (inject_Z 1) with 1%Q.
    destruct (IH (a + x * inject_Z c)%Q) as [IH1 IH2]. split; lra.
Qed.

(** The weights of a list of classes, one class at a time. *)
Lemma weights_float_rel (n s : Z) (l : list Z) :
  0 < n - 2 < 2 ^ 53 -> 0 < s < 2 ^ 53 ->
  Forall (fun c => 0 < c <= s) l ->
  exists ys,
    mapM F64.to_Q (weight_of (F:=spec_float) n s <$> l) = Some ys /\
    Forall (fun y => 0 < y)%Q ys /\
    Forall2 (fun y c =>
               inject_Z s * (1 - eps50) <= y * inject_Z c * inject_Z (n - 2) /\
               y * inject_Z c * inject_Z (n - 2) <= inject_Z s * (1 + eps50))%Q
            ys l.
Proof.
  intros Hn Hs. induction 1 as [|c l Hc Hl IH].
  - exists []. repeat split; constructor.
  - destruct IH as (ys & Hys & Hpos' & Hb).
    destruct (weight_of_float_rel (n - 2) s c) as (m & e & Hw & Hrel); try lia.
    replace (n - 2 + 2) with n in Hw by lia.
    destruct (to_Q_finite m e) as (y & Hy & HyV).
    exists (y :: ys). cbn [fmap list_fmap]. rewrite Hw.
    assert (Hy0 : (0 < y)%Q).
    { rewrite HyV. unfold V. apply Qmult_lt_0_compat; [|apply pow2_pos].
      rewrite <- (Zlt_Qlt 0). lia. }
    split; [|split].
    + cbn [mapM]. rewrite Hy. cbn [mbind option_bind]. rewrite Hys. reflexivity.
    + constructor; assumption.
    + constructor; [|exact Hb]. rewrite <- HyV in Hrel.
      apply Qabs_Qle_condition in Hrel. unfold eps50. split; lra.
Qed.

(** The class weights in binary64, for counts whose total is below [2^53]. *)
Lemma class_weight_float (n : Z) (counts : list Z) :
  Z.of_nat (length counts) = n -> 3 <= n ->
  Forall (fun c => 0 < c) (drop 2 counts) ->
  total (drop 2 counts) < 2 ^ 53 ->
  let s := total (drop 2 counts) in
  exists (w : list spec_float) (xs : list Q),
    class_weight n counts = Some w /\
    values w = Some xs /\
    (forall i x, (2 <= i)%nat -> xs !! i = Some x -> (0 < x)%Q) /\
    (Qabs (weighted_total xs counts - inject_Z s) <= inject_Z s * eps50)%Q.
Proof.
  intros Hlen Hn Hpos Htot s.
  pose proof (Forall_pos_nonneg _ Hpos) as Hnn.
  pose proof (class_weight_shape (F:=spec_float) n counts Hlen ltac:(lia)) as Hshape.
  rewrite int64_sum_total in Hshape
    by (try assumption; change (2 ^ 63) with 9223372036854775808;
        change (2 ^ 53) with 9007199254740992 in Htot; lia).
  fold s in Hshape.
  assert (Hk : Z.of_nat (length (drop 2 counts)) = n - 2)
    by (rewrite length_drop; lia).
  assert (Hkb : n - 2 <= s).
  { unfold s. rewrite <- Hk. clear -Hpos.
    induction Hpos as [|c l Hc Hl IH]; [reflexivity|].
    change (total (c :: l)) with (c + total l). cbn [length]. lia. }
  assert (Hle : Forall (fun c => 0 < c <= s) (drop 2 counts)).
  { apply Forall_lookup. intros i c Hi. split.
    - rewrite Forall_lookup in Hpos. exact (Hpos i c Hi).
    - exact (lookup_le_total _ i c Hnn Hi). }
  destruct (weights_float_rel n s (drop 2 counts) ltac:(lia) ltac:(lia) Hle)
    as (ys & Hys & Hypos & Hb).
  exists ([F64.zero; F64.zero] ++ (weight_of n s <$> drop 2 counts)), (0 :: 0 :: ys)%Q.
  split; [exact Hshape|]. split; [|split].
  - unfold values. cbn [app mapM F64.to_Q F64.zero mbind option_bind].
    rewrite Hys. reflexivity.
  - intros i x Hi Hx. destruct i as [|[|i]]; [lia..|]. cbn in Hx.
    rewrite Forall_lookup in Hypos. exact (Hypos _ _ Hx).
  - unfold weighted_total. cbn [drop fadd fmul fzero of_int exact]. rewrite drop_0.
    assert (Hk0 : (0 < inject_Z (n - 2))%Q) by (rewrite <- (Zlt_Qlt 0); lia).
    destruct (foldl_Qplus_bounds ys (drop 2 counts) (inject_Z (n - 2)) _ _ Hk0 Hb 0%Q)
      as [H1 H2].
    rewrite Hk in H1, H2.
    set (T := foldl Qplus 0%Q (zip_with Qmult ys (inject_Z <$> drop 2 counts))) in *.
    assert (Hs0 : (0 < inject_Z s)%Q) by (rewrite <- (Zlt_Qlt 0); lia).
    apply Qabs_Qle_condition. unfold eps50 in *.
    set (qk := inject_Z (n - 2)) in *. set (qs := inject_Z s) in *.
    split.
    + apply (Qmult_le_r _ _ qk Hk0). lra.
    + apply (Qmult_le_r _ _ qk Hk0). lra.
Qed.

(** C4, as stated, fails: for the counts [100, 50, 10, 40] the entries of
    the non-ignored classes are 2.5 and 0.625, and their arithmetic mean is
    1.5625, in binary64 and in exact arithmetic alike. *)
Lemma mean_weight_not_one :
  (exists w : list spec_float,
     class_weight 4 [100; 50; 10; 40] = Some w /\
     F64.to_Q (mean_weight w) = Some (25 # 16)%Q /\
     mean_weight w <> F64.of_Z 1)
  /\ (exists w : list Q,
        class_weight 4 [100; 50; 10; 40] = Some w /\
        ~ (mean_weight w == 1)%Q).
Proof.
  split.
  - eexists. split; [vm_compute; reflexivity|]. split; [vm_compute; reflexivity|].
    vm_compute. discriminate.
  - eexists. split; [vm_compute; reflexivity|]. vm_compute. discriminate.
Qed.

(** C4, amended. The entries of the non-ignored classes are normalised so
    that their mean weighted by the class counts, [sum of weight[i] *
    count[i]] over [sum of count[i]], is 1: exactly so in exact arithmetic,
    where their plain arithmetic mean is 1 when all these counts are equal,
    and within [2^-50] for the entries the code computes in binary64. *)
Theorem weights_normalised_by_count (n : Z) (counts : list Z) :
  Z.of_nat (length counts) = n -> 3 <= n ->
  Forall (fun c => 0 < c) (drop 2 counts) ->
  total (drop 2 counts) < 2 ^ 53 ->
  (exists w : list Q,
     class_weight n counts = Some w /\
     (weighted_total w counts / inject_Z (total (drop 2 counts)) == 1)%Q /\
     forall c, Forall (eq c) (drop 2 counts) -> (mean_weight w == 1)%Q) /\
  (exists (w : list spec_float) (xs : list Q),
     class_weight n counts = Some w /\
     values w = Some xs /\
     (Qabs (weighted_total xs counts / inject_Z (total (drop 2 counts)) - 1)
      <= eps50)%Q).
Proof.
  intros Hlen Hn Hpos Htot.
  assert (Htot63 : total (drop 2 counts) < 2 ^ 63).
  { change (2 ^ 63) with 9223372036854775808.
    change (2 ^ 53) with 9007199254740992 in Htot. lia. }
  destruct (class_weight_exact n counts Hlen Hn Hpos Htot63)
    as (w & Hw & Hdrop & Hlw & Hs & Hsum).
  assert (Hs0 : (0 < inject_Z (total (drop 2 counts)))%Q)
    by (rewrite <- (Zlt_Qlt 0); exact Hs).
  split.
  - exists w. split; [exact Hw|]. split.
    + rewrite Hsum. apply Qmult_inv_r. lra.
    + intros c Hc. unfold mean_weight. rewrite Hdrop, Hlw.
      cbn [fadd fdiv fzero of_int exact].
      assert (Hk : Z.of_nat (length (drop 2 counts)) = n - 2)
        by (rewrite length_drop; lia).
      assert (Hc0 : 0 < c).
      { destruct (drop 2 counts) as [|x l]; [cbn in Hk; lia|].
        inversion Hc; subst. inversion Hpos; subst. assumption. }
      rewrite (foldl_Qplus_const _ 0%Q 1%Q).
      * rewrite length_fmap, Hk.
        assert (~ (inject_Z (n - 2) == 0)%Q) by (unfold Qeq; cbn; lia).
        field. assumption.
      * rewrite (total_constant _ c Hc), Hk. clear Hdrop Hsum Hs Htot Htot63 Hk Hs0.
        induction Hc as [|x l Hx Hl IH]; cbn [fmap list_fmap]; constructor.
        -- subst x. unfold weight_of. cbn [fdiv fmul of_int exact].
           rewrite inject_Z_mult.
           assert (~ (inject_Z c == 0)%Q) by (unfold Qeq; cbn; lia).
           assert (~ (inject_Z (n - 2) == 0)%Q) by (unfold Qeq; cbn; lia).
           field. split; assumption.
        -- apply IH. inversion Hpos; assumption.
  - destruct (class_weight_float n counts Hlen Hn Hpos Htot)
      as (wf & xs & Hwf & Hxs & _ & Hrel).
    exists wf, xs. split; [exact Hwf|]. split; [exact Hxs|].
    set (qs := inject_Z (total (drop 2 counts))) in *.
    set (T := weighted_total xs counts) in *.
    apply Qabs_Qle_condition in Hrel. apply Qabs_Qle_condition.
    unfold eps50 in *. split.
    + apply (Qmult_le_r _ _ qs Hs0).
      assert (E : ((T / qs - 1) * qs == T - qs)%Q) by (field; lra).
      rewrite E. lra.
    + apply (Qmult_le_r _ _ qs Hs0).
      assert (E : ((T / qs - 1) * qs == T - qs)%Q) by (field; lra).
      rewrite E. lra.
Qed.

(** The amended statement at the counts [100, 50, 10, 40]. *)
Lemma weights_normalised_by_count_witness :
  (exists w : list Q,
     class_weight 4 Demo.spec_counts = Some w /\
     (weighted_total w Demo.spec_counts
      / inject_Z (total (drop 2 Demo.spec_counts)) == 1)%Q /\
     forall c, Forall (eq c) (drop 2 Demo.spec_counts) -> (mean_weight w == 1)%Q) /\
  (exists (w : list spec_float) (xs : list Q),
     class_weight 4 Demo.spec_counts = Some w /\
     values w = Some xs /\
     (Qabs (weighted_total xs Demo.spec_counts
            / inject_Z (total (drop 2 Demo.spec_counts)) - 1)
      <= eps50)%Q).
Proof.
  apply (weights_normalised_by_count 4 Demo.spec_counts).
  - reflexivity.
  - lia.
  - repeat constructor; lia.
  - vm_compute. reflexivity.
Defined.

(** C5, as stated, fails in the arithmetic of the code: for the counts
    [7, 5, 3, 28] the sum of [weight[i] * count[i]] over the classes 2 and 3
    is the binary64 number just below 31, not 31; it is not 31 either when
    the products and the sum of the rounded weights are taken exactly. *)
Lemma balancing_identity_rounds :
  exists w : list spec_float,
    class_weight 4 [7; 5; 3; 28] = Some w /\
    total (drop 2 [7; 5; 3; 28]) = 31 /\
    weighted_total w [7; 5; 3; 28] <> F64.of_Z 31 /\
    F64.to_Q (weighted_total w [7; 5; 3; 28])
    = Some (8725724278030335 # 281474976710656)%Q /\
    exists x2 x3 : Q,
      F64.to_Q <$> drop 2 w = [Some x2; Some x3] /\
      ~ (x2 * 3 + x3 * 28 == 31)%Q.
Proof.
  eexists. split; [vm_compute; reflexivity|]. split; [reflexivity|].
  split; [vm_compute; discriminate|]. split; [vm_compute; reflexivity|].
  eexists _, _. split; [vm_compute; reflexivity|]. vm_compute. discriminate.
Qed.

(** C5, amended. For every table whose counts of the non-ignored classes
    are positive, with a total below [2^53]: in exact arithmetic every
    weight of a class [i >= 2] is positive and the sum over these classes of
    [weight[i] * count[i]] equals the sum of their counts; for the weights
    the code computes in binary64, every weight of a class [i >= 2] is a
    positive finite number and that sum differs from the sum of the counts
    by at most the fraction [2^-50] of it. *)
Theorem balancing_identity_up_to_rounding (n : Z) (counts : list Z) :
  Z.of_nat (length counts) = n -> 3 <= n ->
  Forall (fun c => 0 < c) (drop 2 counts) ->
  total (drop 2 counts) < 2 ^ 53 ->
  (exists w : list Q,
     class_weight n counts = Some w /\
     (forall i x, (2 <= i)%nat -> w !! i = Some x -> (0 < x)%Q) /\
     (weighted_total w counts == inject_Z (total (drop 2 counts)))%Q) /\
  (exists (w : list spec_float) (xs : list Q),
     class_weight n counts = Some w /\
     values w = Some xs /\
     (forall i x, (2 <= i)%nat -> xs !! i = Some x -> (0 < x)%Q) /\
     (Qabs (weighted_total xs counts - inject_Z (total (drop 2 counts)))
      <= inject_Z (total (drop 2 counts)) * eps50)%Q).
Proof.
  intros Hlen Hn Hpos Htot.
  assert (Htot63 : total (drop 2 counts) < 2 ^ 63).
  { change (2 ^ 63) with 9223372036854775808.
    change (2 ^ 53) with 9007199254740992 in Htot. lia. }
  split; [|exact (class_weight_float n counts Hlen Hn Hpos Htot)].
  destruct (class_weight_exact n counts Hlen Hn Hpos Htot63)
    as (w & Hw & Hdrop & Hlw & Hs & Hsum).
  exists w. split; [exact Hw|]. split; [|exact Hsum].
  intros i x Hi Hx.
  assert (Hx' : drop 2 w !! (i - 2)%nat = Some x).
  { rewrite lookup_drop. replace (2 + (i - 2))%nat with i by lia. exact Hx. }
  rewrite Hdrop, list_lookup_fmap in Hx'.
  destruct (drop 2 counts !! (i - 2)%nat) as [c|] eqn:Hc; [|discriminate].
  injection Hx' as <-.
  apply weight_of_exact_pos; [|exact Hs|lia].
  rewrite Forall_lookup in Hpos. exact (Hpos _ _ Hc).
Qed.

(** The amended statement at the counts [7, 5, 3, 28]. *)
Lemma balancing_identity_up_to_rounding_witness :
  (exists w : list Q,
     class_weight 4 Demo.odd_counts = Some w /\
     (forall i x, (2 <= i)%nat -> w !! i = Some x -> (0 < x)%Q) /\
     (weighted_total w Demo.odd_counts
      == inject_Z (total (drop 2 Demo.odd_counts)))%Q) /\
  (exists (w : list spec_float) (xs : list Q),
     class_weight 4 Demo.odd_counts = Some w /\
     values w = Some xs /\
     (forall i x, (2 <= i)%nat -> xs !! i = Some x -> (0 < x)%Q) /\
     (Qabs (weighted_total xs Demo.odd_counts
            - inject_Z (total (drop 2 Demo.odd_counts)))
      <= inject_Z (total (drop 2 Demo.odd_counts)) * eps50)%Q).
Proof.
  apply (balancing_identity_up_to_rounding 4 Demo.odd_counts).
  - reflexivity.
  - lia.
  - repeat constructor; lia.
  - vm_compute. reflexivity.
Defined.

(** * The shuffle and the split *)

Section Shuffle.
Context `{Collaborators}.
Hypothesis Hrange : randbelow_in_range.

(** One step of the pool algorithm: the element drawn and the shortened
    pool together are the pool before. *)
Lemma pool_step {A} (pool : list A) (m j : nat) (x y : A) :
  (j < S m)%nat -> pool !! j = Some x -> pool !! m = Some y ->
  x :: take m (<[j := y]> pool) ≡ₚ take (S m) pool.
Proof.
  intros Hj Hx Hy. rewrite (take_S_r pool m y Hy).
  destruct (decide (j = m)) as [-> | Hne].
  - rewrite take_insert_ge by lia. rewrite Hx in Hy. injection Hy as ->.
    rewrite Permutation_app_comm. reflexivity.
  - rewrite take_insert_lt by lia.
    assert (Hxt : take m pool !! j = Some x) by (rewrite lookup_take_lt by lia; exact Hx).
    assert (Hjl : (j < length (take m pool))%nat) by (eapply lookup_lt_Some; exact Hxt).
    rewrite insert_take_drop by exact Hjl.
    set (l1 := take j (take m pool)). set (l2 := drop (S j) (take m pool)).
    assert (Hsplit : take m pool = l1 ++ x :: l2)
      by (symmetry; apply take_drop_middle; exact Hxt).
    rewrite Hsplit. transitivity (x :: y :: l1 ++ l2).
    + apply perm_skip. symmetry. apply Permutation_middle.
    + rewrite (Permutation_app_comm (l1 ++ x :: l2) [y]). cbn [app].
      rewrite perm_swap. apply perm_skip. apply Permutation_middle.
Qed.

Lemma sample_loop_spec {A} (steps : nat) :
  forall (i n : nat) (pool : list A) (g : rng),
    length pool = n -> (i + steps <= n)%nat ->
    exists l g' rest,
      sample_loop steps i n pool g = Some (l, g') /\
      length l = steps /\
      l ++ rest ≡ₚ take (n - i) pool /\
      length rest = (n - i - steps)%nat.
Proof.
  induction steps as [|steps IH]; intros i n pool g Hlen Hle.
  - exists [], g, (take (n - i) pool). cbn. split; [done|]. split; [done|].
    split; [done|]. rewrite length_take. lia.
  - cbn [sample_loop].
    pose proof (Hrange (n - i)%nat g ltac:(lia)) as Hj.
    destruct (randbelow (n - i) g) as [j g1] eqn:Hrb. cbn [fst] in Hj.
    destruct (lookup_lt_is_Some_2 pool j ltac:(lia)) as [x Hx].
    destruct (lookup_lt_is_Some_2 pool (n - i - 1)%nat ltac:(lia)) as [y Hy].
    rewrite Hx, Hy. cbn [mbind option_bind].
    destruct (IH (S i) n (<[j := y]> pool) g1) as (l & g2 & rest & Hl & Hll & Hperm & Hrest);
      [rewrite length_insert; exact Hlen | lia |].
    rewrite Hl. cbn [mbind option_bind].
    exists (x :: l), g2, rest. split; [done|]. split; [cbn; lia|]. split; [|lia].
    cbn [app]. rewrite Hperm.
    replace (n - S i)%nat with (n - i - 1)%nat by lia.
    replace (n - i)%nat with (S (n - i - 1)) at 2 by lia.
    apply pool_step; [lia | exact Hx | exact Hy].
Qed.

(** [random.sample(l, len(l))] returns a permutation of [l]. *)
Lemma sample_permutation {A} (population : list A) (w : World) :
  exists l w',
    sample population w = Ok l w' /\ l ≡ₚ population /\
    dirs w' = dirs w /\ config_files w' = config_files w /\
    glob_tif w' = glob_tif w /\ now w' = now w.
Proof.
  unfold sample.
  destruct (sample_loop_spec (length population) 0 (length population)
              population (py_random w) eq_refl ltac:(lia))
    as (l & g' & rest & Hl & Hll & Hperm & Hrest).
  rewrite Hl. eexists _, _. split; [reflexivity|]. split; [|done].
  destruct rest; [|cbn in Hrest; lia].
  rewrite app_nil_r, Nat.sub_0_r, firstn_all in Hperm. exact Hperm.
Qed.
End Shuffle.

Lemma Qfloor_tenth (n : Z) : Qfloor ((1 # 10) * inject_Z n) = n / 10.
Proof.
  unfold Qfloor. cbn. f_equal. destruct n; reflexivity.
Qed.

Lemma slice_index_nonneg (len : nat) (i : Z) :
  0 <= i <= Z.of_nat len -> slice_index len i = Z.to_nat i.
Proof.
  intros Hi. unfold slice_index.
  replace (i <? 0) with false by (symmetry; apply Z.ltb_ge; lia). lia.
Qed.

(** The split of a list whose length is below [2^52]. *)
Lemma split_spec `{Collaborators} (file_list : list path) (w : World) :
  randbelow_in_range ->
  1 <= Z.of_nat (length file_list) < 2 ^ 52 ->
  exists sp w' shuffled,
    split file_list w = Ok sp w' /\
    valset_size sp = Z.of_nat (length file_list) / 10 /\
    trainset_size sp = Z.of_nat (length file_list) - valset_size sp /\
    shuffled ≡ₚ file_list /\
    val_files sp = take (Z.to_nat (valset_size sp)) shuffled /\
    train_files sp = drop (Z.to_nat (valset_size sp)) shuffled /\
    0 <= valset_size sp <= Z.of_nat (length file_list) /\
    dirs w' = dirs w /\ config_files w' = config_files w /\
    glob_tif w' = glob_tif w /\ now w' = now w.
Proof.
  intros Hrange HN. unfold split, bind.
  destruct (sample_permutation Hrange file_list w) as (l & w' & -> & Hperm & Hw').
  assert (Hlen : length l = length file_list) by (rewrite Hperm; reflexivity).
  rewrite Hlen, trunc_mul_tenth by lia. cbn [from_option ret].
  set (v := Z.of_nat (length file_list) / 10).
  assert (Hv : 0 <= v <= Z.of_nat (length file_list)).
  { unfold v. split; [apply Z.div_pos; lia|].
    apply Z.div_le_upper_bound; lia. }
  eexists _, w', l. split; [reflexivity|].
  cbn [valset_size trainset_size val_files train_files].
  unfold slice_from, slice_to. rewrite slice_index_nonneg by (rewrite Hlen; exact Hv).
  repeat (split; [reflexivity || assumption|]). exact Hw'.
Qed.

(** The split of what [random.sample] returned. *)
Lemma split_of_sample `{Collaborators} (file_list shuffled : list path) (w w' : World) :
  sample file_list w = Ok shuffled w' ->
  1 <= Z.of_nat (length shuffled) < 2 ^ 52 ->
  split file_list w
  = Ok {| train_files := drop (Z.to_nat (Z.of_nat (length shuffled) / 10)) shuffled;
          val_files := take (Z.to_nat (Z.of_nat (length shuffled) / 10)) shuffled;
          valset_size := Z.of_nat (length shuffled) / 10;
          trainset_size := Z.of_nat (length shuffled)
                           - Z.of_nat (length shuffled) / 10 |} w'.
Proof.
  intros Hsample HN. unfold split, bind. rewrite Hsample.
  rewrite trunc_mul_tenth by lia. cbn [from_option ret].
  assert (Hv : 0 <= Z.of_nat (length shuffled) / 10 <= Z.of_nat (length shuffled)).
  { split; [apply Z.div_pos; lia|]. apply Z.div_le_upper_bound; lia. }
  unfold slice_from, slice_to. rewrite slice_index_nonneg by exact Hv. reflexivity.
Qed.

(** C2. For a list of [N >= 1] files [random.sample] returns a permutation
    [shuffled] of the list, and the split sets
    [valset_size = floor(0.1 * N)] and [trainset_size = N - valset_size];
    the first [valset_size] elements of [shuffled], the list [random.sample]
    returned, are the validation set and the rest of it the training set, so
    that the two subsets have these sizes, are disjoint and together are the
    whole list.  ([N] is below [2^52], as the length of any list in memory
    is.) *)
Theorem split_sizes_and_partition `{Collaborators}
    (file_list : list path) (w : World) :
  randbelow_in_range ->
  1 <= Z.of_nat (length file_list) < 2 ^ 52 ->
  exists sp w' shuffled,
    sample file_list w = Ok shuffled w' /\
    split file_list w = Ok sp w' /\
    valset_size sp = Qfloor ((1 # 10) * inject_Z (Z.of_nat (length file_list))) /\
    trainset_size sp = Z.of_nat (length file_list) - valset_size sp /\
    shuffled ≡ₚ file_list /\
    val_files sp = take (Z.to_nat (valset_size sp)) shuffled /\
    train_files sp = drop (Z.to_nat (valset_size sp)) shuffled /\
    Z.of_nat (length (val_files sp)) = valset_size sp /\
    Z.of_nat (length (train_files sp)) = trainset_size sp /\
    val_files sp ++ train_files sp ≡ₚ file_list /\
    (NoDup file_list -> forall f, f ∈ val_files sp -> f ∉ train_files sp).
Proof.
  intros Hrange HN.
  destruct (sample_permutation Hrange file_list w) as (l & w' & Hsample & Hperm & _).
  assert (Hlen : length l = length file_list) by (rewrite Hperm; reflexivity).
  pose proof (split_of_sample file_list l w w' Hsample ltac:(rewrite Hlen; exact HN))
    as Hsplit.
  rewrite Hlen in Hsplit.
  set (v := Z.of_nat (length file_list) / 10) in *.
  assert (Hv : 0 <= v <= Z.of_nat (length file_list)).
  { unfold v. split; [apply Z.div_pos; lia|]. apply Z.div_le_upper_bound; lia. }
  eexists _, w', l. split; [exact Hsample|]. split; [exact Hsplit|].
  cbn [valset_size trainset_size val_files train_files].
  split; [rewrite Qfloor_tenth; reflexivity|]. split; [reflexivity|].
  split; [exact Hperm|]. split; [reflexivity|]. split; [reflexivity|].
  split; [rewrite length_take; lia|]. split; [rewrite length_drop; lia|].
  split; [rewrite take_drop; exact Hperm|].
  intros Hnd.
  assert (Hnd' : NoDup (take (Z.to_nat v) l ++ drop (Z.to_nat v) l)).
  { rewrite take_drop, Hperm. exact Hnd. }
  apply NoDup_app in Hnd'. destruct Hnd' as (_ & Hdisj & _). exact Hdisj.
Qed.

Lemma Demo_randbelow_in_range : randbelow_in_range (H:=Demo.collaborators).
Proof.
  intros n g Hn. cbn [fst randbelow Demo.collaborators].
  pose proof (N.mod_lt (Demo.lcg g) (N.of_nat n) ltac:(lia)). lia.
Qed.

(** The split of a list of twelve tiles. *)
Lemma split_sizes_and_partition_witness :
  exists sp w' shuffled,
    sample (Demo.tile <$> seq 0 12) (Demo.world 12) = Ok shuffled w' /\
    split (Demo.tile <$> seq 0 12) (Demo.world 12) = Ok sp w' /\
    valset_size sp
    = Qfloor ((1 # 10) * inject_Z (Z.of_nat (length (Demo.tile <$> seq 0 12)))) /\
    trainset_size sp
    = Z.of_nat (length (Demo.tile <$> seq 0 12)) - valset_size sp /\
    shuffled ≡ₚ Demo.tile <$> seq 0 12 /\
    val_files sp = take (Z.to_nat (valset_size sp)) shuffled /\
    train_files sp = drop (Z.to_nat (valset_size sp)) shuffled /\
    Z.of_nat (length (val_files sp)) = valset_size sp /\
    Z.of_nat (length (train_files sp)) = trainset_size sp /\
    val_files sp ++ train_files sp ≡ₚ Demo.tile <$> seq 0 12 /\
    (NoDup (Demo.tile <$> seq 0 12) ->
     forall f, f ∈ val_files sp -> f ∉ train_files sp).
Proof.
  apply (split_sizes_and_partition (Demo.tile <$> seq 0 12) (Demo.world 12)).
  - exact Demo_randbelow_in_range.
  - split; [vm_compute; discriminate | vm_compute; reflexivity].
Defined.

(** ** Determinism *)

Lemma sample_outcome_rng `{Collaborators} {A} (l : list A) (w1 w2 : World) :
  py_random w1 = py_random w2 ->
  outcome (sample l w1) = outcome (sample l w2) /\
  py_random (world_of (sample l w1)) = py_random (world_of (sample l w2)).
Proof.
  intros Hg. unfold sample. rewrite Hg.
  destruct (sample_loop _ _ _ _ _) as [[s g]|]; cbn;
    (split; [reflexivity|]); [reflexivity|exact Hg].
Qed.

Lemma split_outcome_rng `{Collaborators} (l : list path) (w1 w2 : World) :
  py_random w1 = py_random w2 ->
  outcome (split l w1) = outcome (split l w2).
Proof.
  intros Hg. unfold split, bind.
  destruct (sample_outcome_rng l w1 w2 Hg) as [Ho _].
  destruct (sample l w1) as [s1 w1'|e1 w1'], (sample l w2) as [s2 w2'|e2 w2'];
    cbn in Ho; try discriminate; [|cbn; congruence].
  injection Ho as ->.
  destruct (F64.to_Z_trunc _); reflexivity.
Qed.

(** C3. The split is a function of the file list and the seed: seeding the
    generator and then shuffling and splitting gives the same training and
    validation lists, the same sizes and the same failures, whatever state
    the generator, the clock and the file system were in before. *)
Theorem split_deterministic `{Collaborators}
    (seed : Z) (file_list : list path) (w1 w2 : World) :
  outcome ((random_seed seed ;; split file_list) w1)
  = outcome ((random_seed seed ;; split file_list) w2).
Proof.
  unfold bind at 1 2. cbn [random_seed].
  apply split_outcome_rng. reflexivity.
Qed.

(** * Running the script *)

Lemma bind_Ok {W A B} (c : M W A) (k : A -> M W B) w b w' :
  bind c k w = Ok b w' -> exists a w1, c w = Ok a w1 /\ k a w1 = Ok b w'.
Proof.
  unfold bind. destruct (c w) as [a w1|e w1]; [|discriminate]. eauto.
Qed.

Lemma from_option_Ok {W A} e (o : option A) (w : W) a w' :
  from_option e o w = Ok a w' -> o = Some a /\ w' = w.
Proof. destruct o; cbn; intros Heq; inversion Heq; auto. Qed.

Lemma assert_Ok {W} b (w : W) u w' : assert_ b w = Ok u w' -> b = true /\ w' = w.
Proof. destruct b; cbn; intros Heq; inversion Heq; auto. Qed.

Lemma floordiv_Ok {W} a b (w : W) q w' :
  floordiv a b w = Ok q w' -> b <> 0 /\ q = a / b /\ w' = w.
Proof.
  unfold floordiv. destruct (Z.eqb_spec b 0); cbn; intros Heq; inversion Heq; auto.
Qed.

Section Running.
Context `{Collaborators}.

Lemma parse_args_world argv w r :
  _parse_args argv w = r -> world_of r = w.
Proof.
  intros <-. unfold _parse_args, bind, from_option, load_yaml, is_dir, assert_, ret, raise.
  destruct argv as [p|]; [|reflexivity].
  destruct (config_files w p) as [| | |[y|]]; try reflexivity.
  destruct (y_xp_rootdir y) as [root|]; [|reflexivity].
  destruct (bool_decide (root ∈ dirs w)); [|reflexivity].
  destruct (y_dataset_folder y) as [folder|]; [|reflexivity].
  destruct (bool_decide (folder ∈ dirs w)); reflexivity.
Qed.

Lemma parse_args_Ok argv w c w' :
  _parse_args argv w = Ok c w' ->
  w' = w /\ xp_rootdir c ∈ dirs w /\ dataset_folder c ∈ dirs w.
Proof.
  intros Hp. pose proof (parse_args_world _ _ _ Hp) as Hw. cbn in Hw. subst w'.
  split; [reflexivity|]. revert Hp.
  unfold _parse_args, bind, from_option, load_yaml, is_dir, assert_, ret, raise.
  destruct argv as [p|]; [|discriminate].
  destruct (config_files w p) as [| | |[y|]]; try discriminate.
  destruct (y_xp_rootdir y) as [root|]; [|discriminate].
  destruct (bool_decide (root ∈ dirs w)) eqn:Hroot; [|discriminate].
  destruct (y_dataset_folder y) as [folder|]; [|discriminate].
  destruct (bool_decide (folder ∈ dirs w)) eqn:Hfolder; [|discriminate].
  intros Heq. injection Heq as <-. cbn.
  apply bool_decide_eq_true in Hroot, Hfolder. auto.
Qed.

(** A wrong configuration makes [_parse_args] raise. *)
Lemma parse_args_config_error argv w :
  config_error w argv -> exists e, _parse_args argv w = Raise e w.
Proof.
  unfold _parse_args, bind, from_option, load_yaml, is_dir, assert_, ret, raise.
  destruct 1 as [|p Hf|p Hf|p Hf|p Hf|p y Hf Hr|p y root Hf Hr Hd
                 |p y root Hf Hr Hd Hfo|p y root folder Hf Hr Hd Hfo Hfd];
    try rewrite Hf; try rewrite Hr; eauto.
  - rewrite bool_decide_eq_false_2 by assumption. eauto.
  - rewrite bool_decide_eq_true_2 by assumption. rewrite Hfo. eauto.
  - rewrite bool_decide_eq_true_2 by assumption. rewrite Hfo.
    rewrite bool_decide_eq_false_2 by assumption. eauto.
Qed.

(** What a run that reaches [model.fit] has gone through. *)
Lemma main_Ok argv w g w' :
  main argv w = Ok g w' ->
  exists w1 b,
    _parse_args argv w = Ok (config g) w /\
    split (glob_tif w (dataset_folder (config g))) w = Ok (files g) w1 /\
    batch_size (config g) = Some b /\ 0 < b /\
    class_weight N_CLASSES TRAIN_CLASS_COUNTS = Some (fit_class_weight (fit g)) /\
    make_xp_dir (config g) w1 = Ok (xp_dir g) w' /\
    fit_x (fit g) = train_dataset (train_files (files g)) (Z.to_nat b) /\
    fit_validation_data (fit g) = val_dataset (val_files (files g)) (Z.to_nat b) /\
    fit_steps_per_epoch (fit g) = trainset_size (files g) / b /\
    fit_validation_steps (fit g) = valset_size (files g) / b /\
    epochs (config g) = Some (fit_epochs (fit g)) /\
    exists first_batch st,
      next (fit_x (fit g)) (fresh (fit_x (fit g)) O) = Some (first_batch, st) /\
      sample_batch g = take 5 first_batch.
Proof.
  unfold main. intros Hm.
  apply bind_Ok in Hm as (c & w0 & Hparse & Hm).
  destruct (parse_args_Ok _ _ _ _ Hparse) as (-> & Hroot & Hfolder).
  apply bind_Ok in Hm as (ok & w0 & Hex & Hm).
  unfold path_exists in Hex. injection Hex as _ <-.
  apply bind_Ok in Hm as (u & w0 & Hassert & Hm).
  apply assert_Ok in Hassert as [_ ->].
  apply bind_Ok in Hm as (found & w0 & Hglob & Hm). injection Hglob as <- <-.
  apply bind_Ok in Hm as (sp & w1 & Hsplit & Hm).
  apply bind_Ok in Hm as (b & w2 & Hb & Hm).
  unfold tf_batch_size in Hb.
  apply bind_Ok in Hb as (b' & w3 & Hb' & Hb).
  apply from_option_Ok in Hb' as [Hbs ->].
  destruct (Z.leb_spec b' 0) as [|Hpos]; [discriminate|].
  injection Hb as -> <-.
  apply bind_Ok in Hm as (cw & w2 & Hcw & Hm).
  apply from_option_Ok in Hcw as [Hcw ->].
  apply bind_Ok in Hm as (xp & w2 & Hxp & Hm).
  apply bind_Ok in Hm as (sb & w3 & Hsb & Hm).
  unfold take_sample_batch in Hsb.
  destruct (next _ _) as [[fb st]|] eqn:Hnext; [|discriminate].
  injection Hsb as <- <-.
  apply bind_Ok in Hm as (l & w3 & Hlr & Hm).
  apply from_option_Ok in Hlr as [_ ->].
  apply bind_Ok in Hm as (ep & w3 & Hep & Hm).
  apply from_option_Ok in Hep as [Hep ->].
  apply bind_Ok in Hm as (steps & w3 & Hst & Hm).
  apply floordiv_Ok in Hst as (_ & -> & ->).
  apply bind_Ok in Hm as (vsteps & w3 & Hvst & Hm).
  apply floordiv_Ok in Hvst as (_ & -> & ->).
  injection Hm as <- <-. cbn.
  exists w1, b. repeat (split; [assumption || reflexivity|]).
  exists fb, st. split; [exact Hnext|reflexivity].
Qed.
End Running.

(** * Streams *)

Section StreamLemmas.
Context {St A : Type}.

Lemma draw_streams (d : Dataset St A) I R :
  Streams d I R ->
  forall n p s, I p s ->
    exists l s', draw d n s = Some (l, s') /\ length l = n /\
      (forall i x, l !! i = Some x -> R (p + i)%nat x) /\ I (p + n)%nat s'.
Proof.
  intros Hd. induction n as [|n IH]; intros p s Hs.
  - exists [], s. cbn. rewrite Nat.add_0_r. repeat split; try done.
  - destruct (Hd p s Hs) as (x & s1 & Hnext & Hx & Hs1).
    destruct (IH (S p) s1 Hs1) as (l & s2 & Hdraw & Hlen & Hl & Hs2).
    exists (x :: l), s2. cbn [draw]. rewrite Hnext. cbn [mbind option_bind].
    rewrite Hdraw. cbn [mbind option_bind]. split; [reflexivity|].
    split; [cbn; lia|]. split.
    + intros [|i] y Hy; cbn in Hy.
      * injection Hy as <-. rewrite Nat.add_0_r. exact Hx.
      * replace (p + S i)%nat with (S p + i)%nat by lia. exact (Hl i y Hy).
    + replace (p + S n)%nat with (S p + n)%nat by lia. exact Hs2.
Qed.

Lemma pull_streams (d : Dataset St A) I R :
  Streams d I R ->
  forall n p s, I p s ->
    exists l s', pull d n s = (l, s') /\ length l = n /\
      (forall i x, l !! i = Some x -> R (p + i)%nat x) /\ I (p + n)%nat s'.
Proof.
  intros Hd. induction n as [|n IH]; intros p s Hs.
  - exists [], s. cbn. rewrite Nat.add_0_r. repeat split; try done.
  - destruct (Hd p s Hs) as (x & s1 & Hnext & Hx & Hs1).
    destruct (IH (S p) s1 Hs1) as (l & s2 & Hpull & Hlen & Hl & Hs2).
    exists (x :: l), s2. cbn [pull]. rewrite Hnext, Hpull. split; [reflexivity|].
    split; [cbn; lia|]. split.
    + intros [|i] y Hy; cbn in Hy.
      * injection Hy as <-. rewrite Nat.add_0_r. exact Hx.
      * replace (p + S i)%nat with (S p + i)%nat by lia. exact (Hl i y Hy).
    + replace (p + S n)%nat with (S p + n)%nat by lia. exact Hs2.
Qed.

(** Batches of a stream are full, and they are a stream. *)
Lemma batch_streams `{Collaborators} (d : Dataset St A) I R (batch : nat) :
  (0 < batch)%nat -> Streams d I R ->
  Streams (ds_batch batch d)
    (fun j s => I (j * batch)%nat s)
    (fun j b => length b = batch /\
                forall i x, b !! i = Some x -> R (j * batch + i)%nat x).
Proof.
  intros Hb Hd j s Hs.
  destruct (pull_streams d I R Hd batch (j * batch)%nat s Hs)
    as (l & s' & Hpull & Hlen & Hl & Hs').
  exists l, s'. cbn [next ds_batch]. rewrite Hpull.
  destruct l as [|x l]; [cbn in Hlen; lia|].
  split; [reflexivity|]. split; [split; assumption|].
  replace (S j * batch)%nat with (j * batch + batch)%nat by lia. exact Hs'.
Qed.

(** Repeating a dataset that is not empty gives a stream: position [p] is
    element [p mod len] of iterator [p / len]. *)
Lemma repeat_streams `{Collaborators} (d : Dataset St A) len J R :
  (0 < len)%nat -> Epochs d len J R ->
  Streams (ds_repeat d)
    (fun p st =>
       (rp_epoch st = (p / len)%nat /\ J (p / len)%nat (p mod len)%nat (rp_input st)) \/
       (rp_first_call st = false /\ (0 < p)%nat /\ (p mod len)%nat = O /\
        S (rp_epoch st) = (p / len)%nat /\ J (rp_epoch st) len (rp_input st)))
    (fun p x => R (p / len)%nat (p mod len)%nat x).
Proof.
  intros Hlen (Hfresh & Hstep & Hend) p st Hst.
  assert (Hnext_pos : forall q, (p mod len)%nat = q -> (S q < len)%nat ->
            (S p / len = p / len /\ S p mod len = S q)%nat).
  { intros q Hq Hlt.
    pose proof (Nat.div_mod_eq p len) as Hp.
    assert (Heq : S p = (len * (p / len) + S q)%nat) by lia.
    split.
    - symmetry. apply (Nat.div_unique (S p) len (p / len) (S q)); lia.
    - symmetry. apply (Nat.mod_unique (S p) len (p / len) (S q)); lia. }
  assert (Hnext_wrap : (S (p mod len) = len)%nat ->
            (S p / len = S (p / len) /\ S p mod len = 0)%nat).
  { intros Hq. pose proof (Nat.div_mod_eq p len) as Hp.
    assert (Heq : S p = (len * S (p / len) + 0)%nat) by lia.
    split.
    - symmetry. apply (Nat.div_unique (S p) len (S (p / len)) 0); lia.
    - symmetry. apply (Nat.mod_unique (S p) len (S (p / len)) 0); lia. }
  assert (Hmod : (p mod len < len)%nat) by (apply Nat.mod_upper_bound; lia).
  cbn [next ds_repeat].
  destruct Hst as [(He & HJ) | (Hfc & Hp & Hm & He & HJ)].
  - destruct (Hstep _ _ _ HJ Hmod) as (x & s' & Hn & Hx & HJ').
    rewrite Hn. eexists _, _. split; [reflexivity|]. split; [exact Hx|].
    cbn [rp_epoch rp_input rp_first_call].
    destruct (decide (S (p mod len) = len)) as [Hw | Hnw].
    + destruct (Hnext_wrap Hw) as [Hd' Hm'].
      right. rewrite Hd', Hm', He. rewrite Hw in HJ'.
      repeat split; try done; lia.
    + destruct (Hnext_pos (p mod len)%nat eq_refl ltac:(lia)) as [Hd' Hm'].
      left. rewrite Hd', Hm'. repeat split; try done.
  - rewrite (Hend _ _ HJ), Hfc.
    pose proof (Hfresh (S (rp_epoch st))) as HJ0.
    destruct (Hstep _ _ _ HJ0 Hlen) as (x & s' & Hn & Hx & HJ').
    rewrite Hn. eexists _, _. split; [reflexivity|].
    rewrite Hm, <- He. split; [exact Hx|].
    cbn [rp_epoch rp_input rp_first_call].
    destruct (decide (len = 1%nat)) as [H1 | H1].
    + destruct (Hnext_wrap ltac:(lia)) as [Hd' Hm'].
      right. rewrite Hd', Hm', <- He. subst len.
      repeat split; try done; lia.
    + destruct (Hnext_pos O Hm ltac:(lia)) as [Hd' Hm'].
      left. rewrite Hd', Hm', <- He. repeat split; try done.
Qed.

(** The iterator numbered [k] of a repeated dataset starts at position
    [k * len] of that stream. *)
Lemma repeat_fresh `{Collaborators} (d : Dataset St A) len J R (k : nat) :
  (0 < len)%nat -> Epochs d len J R ->
  rp_epoch (fresh (ds_repeat d) k) = ((k * len + 0) / len)%nat /\
  J ((k * len + 0) / len)%nat ((k * len + 0) mod len)%nat
    (rp_input (fresh (ds_repeat d) k)).
Proof.
  intros Hlen (Hfresh & _ & _).
  rewrite Nat.add_0_r, Nat.div_mul, Nat.Div0.mod_mul by lia.
  split; [reflexivity|]. apply Hfresh.
Qed.

(** A stream from a later position on is a stream. *)
Lemma streams_shift (d : Dataset St A) I R (p0 : nat) :
  Streams d I R ->
  Streams d (fun p s => I (p0 + p)%nat s) (fun p x => R (p0 + p)%nat x).
Proof.
  intros Hd p s Hs. destruct (Hd _ s Hs) as (x & s' & Hn & Hx & Hs').
  exists x, s'. rewrite Nat.add_succ_r. auto.
Qed.

End StreamLemmas.

(** * The two pipelines *)

Section Pipelines.
Context `{Collaborators}.

(** The validation samples, before [repeat]: the list, in its order. *)
Lemma val_epochs (l : list string) :
  Epochs (ds_map load_image_test (ds_map parse_image (from_tensor_slices l)))
    (length l)
    (fun _ i s => s = drop i l)
    (fun _ i x => (val_sample <$> l) !! i = Some x).
Proof.
  split; [|split].
  - intros k. reflexivity.
  - intros k i s -> Hi.
    destruct (lookup_lt_is_Some_2 l i Hi) as [y Hy].
    exists (val_sample y), (drop (S i) l).
    cbn [next ds_map from_tensor_slices]. rewrite (drop_S l y i Hy).
    cbn [mbind option_bind]. split; [reflexivity|]. split; [|reflexivity].
    rewrite list_lookup_fmap, Hy. reflexivity.
  - intros k s ->. rewrite drop_all. reflexivity.
Qed.

(** The input of the shuffle yields what is left of its list. *)
Lemma pull_train_input (l : list string) (n : nat) :
  forall (rest : list string) (k i : nat),
    exists new i',
      pull (ds_map_random load_image_train
              (ds_map parse_image (from_tensor_slices l))) n (rest, k, i)
      = (new, (drop n rest, k, i')) /\
      length new = Nat.min n (length rest).
Proof.
  induction n as [|n IH]; intros rest k i.
  - exists [], i. cbn. rewrite drop_0. split; reflexivity.
  - destruct rest as [|x rest].
    + exists [], i. cbn. split; reflexivity.
    + destruct (IH rest k (S i)) as (new & i' & Hpull & Hlen).
      exists (load_image_train k i (parse_image x) :: new), i'.
      cbn [pull next ds_map_random ds_map from_tensor_slices mbind option_bind].
      cbn [pull next ds_map_random ds_map from_tensor_slices] in Hpull.
      rewrite Hpull. cbn [drop length]. split; [reflexivity|]. cbn. lia.
Qed.

(** One pass of the shuffle yields as many samples as there are paths,
    and its buffer never holds more than 1024 of them. *)
Lemma train_epochs (l : list string) :
  Epochs (ds_shuffle 1024 SEED
            (ds_map_random load_image_train
               (ds_map parse_image (from_tensor_slices l))))
    (length l)
    (fun _ i st =>
       (length (sh_buffer st) + length (sh_input st).1.1 + i = length l)%nat /\
       (length (sh_buffer st) < 1024)%nat)
    (fun _ _ _ => True).
Proof.
  split; [|split].
  - intros k. cbn. split; lia.
  - intros k i [[[rest k'] j] buf g] [Hsum Hbuf] Hi.
    cbn [sh_buffer sh_input fst] in Hsum, Hbuf.
    cbn [next ds_shuffle sh_buffer sh_input sh_gen].
    destruct (pull_train_input l (1024 - length buf) rest k' j)
      as (new & j' & Hpull & Hnew).
    rewrite Hpull.
    destruct (buf ++ new) as [|first others] eqn:Hcat.
    { apply (f_equal length) in Hcat. rewrite length_app in Hcat. cbn in Hcat. lia. }
    destruct (tf_random g) as [r g'].
    assert (Hj : (r mod S (length others) < length (first :: others))%nat)
      by (cbn [length]; apply Nat.mod_upper_bound; lia).
    destruct (lookup_lt_is_Some_2 _ _ Hj) as [x Hx]. rewrite Hx.
    eexists _, _. split; [reflexivity|]. split; [exact I|].
    cbn [sh_buffer sh_input fst].
    assert (Hlen : (S (length others) = length buf + length new)%nat).
    { apply (f_equal length) in Hcat. rewrite length_app in Hcat. cbn in Hcat. lia. }
    rewrite length_drop, length_insert. cbn [length]. rewrite length_drop.
    split; lia.
  - intros k [[[rest k'] j] buf g] [Hsum Hbuf].
    cbn [sh_buffer sh_input fst] in Hsum, Hbuf.
    assert (buf = []) by (destruct buf; [done|cbn in Hsum; lia]).
    assert (rest = []) by (destruct rest; [done|cbn in Hsum; lia]).
    subst. cbn [next ds_shuffle sh_buffer sh_input sh_gen].
    destruct (pull_train_input l (1024 - length (@nil Sample)) [] k' j)
      as (new & j' & Hpull & Hnew).
    rewrite Hpull. destruct new; [reflexivity|cbn in Hnew; lia].
Qed.

Lemma train_streams (tf : list path) (batch k : nat) :
  tf <> [] -> (0 < batch)%nat ->
  exists I,
    Streams (train_dataset tf batch) I (fun _ b => length b = batch) /\
    I O (fresh (train_dataset tf batch) k) /\
    forall j st, I j st -> (length (sh_buffer (rp_input st)) < 1024)%nat.
Proof.
  intros Hne Hb.
  assert (Hlen : (0 < length (str <$> tf))%nat)
    by (rewrite length_fmap; destruct tf; [done|cbn; lia]).
  pose proof (batch_streams _ _ _ batch Hb
                (streams_shift _ _ _ (k * length (str <$> tf))
                   (repeat_streams _ _ _ _ Hlen (train_epochs (str <$> tf))))) as Hs.
  eexists. split; [|split].
  - intros j s Hj. destruct (Hs j s Hj) as (x & s' & Hn & [Hx _] & Hs').
    exists x, s'. split; [exact Hn|]. split; [exact Hx|exact Hs'].
  - cbn beta. left. rewrite Nat.mul_0_l.
    exact (repeat_fresh _ _ _ _ k Hlen (train_epochs (str <$> tf))).
  - cbn beta. intros j st Hst.
    destruct Hst as [(_ & [_ Hbuf]) | (_ & _ & _ & _ & [_ Hbuf])]; exact Hbuf.
Qed.

Lemma val_streams (vf : list path) (batch k : nat) :
  vf <> [] -> (0 < batch)%nat ->
  exists I,
    Streams (val_dataset vf batch) I
      (fun j b => length b = batch /\
         forall i x, b !! i = Some x ->
           (val_sample <$> (str <$> vf)) !! ((j * batch + i) mod length vf)%nat
           = Some x) /\
    I O (fresh (val_dataset vf batch) k).
Proof.
  intros Hne Hb.
  assert (Hlen : (0 < length (str <$> vf))%nat)
    by (rewrite length_fmap; destruct vf; [done|cbn; lia]).
  pose proof (batch_streams _ _ _ batch Hb
                (streams_shift _ _ _ (k * length (str <$> vf))
                   (repeat_streams _ _ _ _ Hlen (val_epochs (str <$> vf))))) as Hs.
  eexists. split.
  - intros j s Hj. destruct (Hs j s Hj) as (x & s' & Hn & [Hx Hel] & Hs').
    exists x, s'. split; [exact Hn|]. split; [|exact Hs'].
    split; [exact Hx|]. intros i y Hy. specialize (Hel i y Hy).
    rewrite Nat.add_comm, Nat.Div0.mod_add, length_fmap in Hel. exact Hel.
  - cbn beta. left. rewrite Nat.mul_0_l.
    exact (repeat_fresh _ _ _ _ k Hlen (val_epochs (str <$> vf))).
Qed.

(** Without files a pipeline is empty: its first [next] reports the end. *)
Lemma val_dataset_empty (batch k : nat) :
  next (val_dataset [] batch) (fresh (val_dataset [] batch) k) = None.
Proof. destruct batch; reflexivity. Qed.
End Pipelines.

(** * The run as a whole *)

Lemma Qfloor_div (t b : Z) : 0 < b -> Qfloor (inject_Z t / inject_Z b) = t / b.
Proof.
  intros Hb. destruct b as [|p|p]; try lia.
  unfold Qfloor, Qdiv, Qinv, Qmult, inject_Z. cbn [Qnum Qden].
  rewrite Z.mul_1_r. reflexivity.
Qed.

Section WholeRun.
Context `{Collaborators}.

Lemma script_main argv w :
  script argv w = main argv (world_of (random_seed SEED w)).
Proof. reflexivity. Qed.

Lemma ancestors_spec (p q : path) :
  q ∈ ancestors p <-> exists n, (n <= length p)%nat /\ q = take n p.
Proof.
  unfold ancestors. rewrite list_elem_of_fmap. split.
  - intros (n & -> & Hn). apply elem_of_seq in Hn. exists n. split; [lia|reflexivity].
  - intros (n & Hn & ->). exists n. split; [reflexivity|]. apply elem_of_seq. lia.
Qed.

Lemma parent_in_ancestors (p : path) (a : string) : p ∈ ancestors (p ++ [a]).
Proof.
  apply ancestors_spec. exists (length p). rewrite length_app. cbn [length].
  split; [lia|]. rewrite take_app_length. reflexivity.
Qed.

Lemma sibling_not_in_ancestors (p : path) (a b : string) :
  a <> b -> p ++ [a] ∉ ancestors (p ++ [b]).
Proof.
  intros Hab Hin. apply ancestors_spec in Hin as (n & Hn & Heq).
  assert (Hlen : length (p ++ [a]) = length (take n (p ++ [b]))) by (rewrite <- Heq; reflexivity).
  rewrite length_take, !length_app in Hlen. cbn [length] in Hlen.
  rewrite take_ge in Heq by (rewrite length_app; cbn [length]; lia).
  apply app_inv_head in Heq. congruence.
Qed.

(** The three directories are made when nothing exists yet at or below the
    experiment directory. *)
Lemma make_xp_dir_Ok (c : Config) (w : World) :
  let xp := xp_rootdir c ++ [now w] in
  (forall q, q ∈ dirs w -> ~ xp `prefix_of` q) ->
  exists w',
    make_xp_dir c w = Ok xp w' /\
    xp ++ ["tensorboard"%string] ∈ dirs w' /\
    xp ++ ["plots"%string] ∈ dirs w' /\
    xp ++ ["checkpoints"%string] ∈ dirs w' /\
    dirs w ⊆ dirs w'.
Proof.
  intros xp Hfresh.
  assert (Hno : forall a, xp ++ [a] ∉ dirs w).
  { intros a Hin. apply (Hfresh _ Hin). apply prefix_app_r. reflexivity. }
  unfold make_xp_dir. fold xp. unfold bind at 1. unfold mkdir at 1.
  rewrite bool_decide_eq_false_2 by apply Hno.
  unfold bind at 1. unfold mkdir at 1. cbn [dirs].
  rewrite bool_decide_eq_false_2.
  2:{ rewrite elem_of_union, elem_of_list_to_set. intros [Hin|Hin].
      - revert Hin. apply sibling_not_in_ancestors. discriminate.
      - exact (Hno _ Hin). }
  rewrite length_app. cbn [length].
  replace (length xp + 1 - 1)%nat with (length xp) by lia.
  rewrite take_app_length.
  rewrite bool_decide_eq_true_2.
  2:{ rewrite elem_of_union, elem_of_list_to_set. left. apply parent_in_ancestors. }
  unfold bind at 1. unfold mkdir at 1. cbn [dirs].
  rewrite bool_decide_eq_false_2.
  2:{ rewrite !elem_of_union, elem_of_singleton, elem_of_list_to_set.
      intros [Heq|[Hin|Hin]].
      - apply app_inv_head in Heq. discriminate.
      - revert Hin. apply sibling_not_in_ancestors. discriminate.
      - exact (Hno _ Hin). }
  rewrite length_app. cbn [length].
  replace (length xp + 1 - 1)%nat with (length xp) by lia.
  rewrite take_app_length.
  rewrite bool_decide_eq_true_2.
  2:{ rewrite !elem_of_union, elem_of_list_to_set. right. left.
      apply parent_in_ancestors. }
  eexists. split; [reflexivity|]. cbn [dirs].
  assert (Htb : xp ++ ["tensorboard"%string] ∈ ancestors (xp ++ ["tensorboard"%string])).
  { apply ancestors_spec. exists (length (xp ++ ["tensorboard"%string])).
    split; [lia|]. rewrite firstn_all. reflexivity. }
  rewrite !elem_of_union, !elem_of_singleton, !elem_of_list_to_set.
  split; [auto|]. split; [auto|]. split; [auto|].
  intros q Hq. rewrite !elem_of_union. auto.
Qed.

End WholeRun.

Section Claims.
Context `{Collaborators}.

(** A run in a world where the configuration is complete, both
    directories exist, the experiment directory is new, the table of
    counts has the shape of the weight vector and there is at least one
    file, reaches [model.fit]. *)
Lemma script_runs (w : World) (cfg root folder : path) (b ep : Z) (rate : Q)
    (cw : list spec_float) :
  randbelow_in_range ->
  config_files w cfg
  = Document (Some {| y_xp_rootdir := Some root; y_dataset_folder := Some folder;
                      y_batch_size := Some b; y_epochs := Some ep;
                      y_lr := Some rate |}) ->
  root ∈ dirs w -> folder ∈ dirs w -> 0 < b ->
  class_weight N_CLASSES TRAIN_CLASS_COUNTS = Some cw ->
  (forall q, q ∈ dirs w -> ~ (root ++ [now w]) `prefix_of` q) ->
  1 <= Z.of_nat (length (glob_tif w folder)) < 2 ^ 52 ->
  exists g w' shuffled,
    script (Some cfg) w = Ok g w' /\
    shuffled ≡ₚ glob_tif w folder /\
    valset_size (files g) = Z.of_nat (length (glob_tif w folder)) / 10 /\
    trainset_size (files g)
    = Z.of_nat (length (glob_tif w folder)) - valset_size (files g) /\
    val_files (files g) = take (Z.to_nat (valset_size (files g))) shuffled /\
    train_files (files g) = drop (Z.to_nat (valset_size (files g))) shuffled /\
    fit_steps_per_epoch (fit g) = trainset_size (files g) / b /\
    fit_validation_steps (fit g) = valset_size (files g) / b /\
    fit_validation_data (fit g) = val_dataset (val_files (files g)) (Z.to_nat b) /\
    xp_dir g = root ++ [now w] /\
    xp_dir g ++ ["tensorboard"%string] ∈ dirs w' /\
    xp_dir g ++ ["plots"%string] ∈ dirs w' /\
    xp_dir g ++ ["checkpoints"%string] ∈ dirs w'.
Proof.
  intros Hrange Hcfg Hroot Hfolder Hb Hcw Hfresh HN.
  rewrite script_main.
  set (w0 := world_of (random_seed SEED w)).
  assert (Hparse : _parse_args (Some cfg) w0
                   = Ok {| xp_rootdir := root; dataset_folder := folder;
                           batch_size := Some b; epochs := Some ep;
                           lr := Some rate |} w0).
  { unfold _parse_args, bind, from_option, load_yaml, is_dir, assert_, ret.
    change (config_files w0 cfg) with (config_files w cfg). rewrite Hcfg.
    cbn [y_xp_rootdir y_dataset_folder y_batch_size y_epochs y_lr].
    change (dirs w0) with (dirs w).
    rewrite !bool_decide_eq_true_2 by assumption. reflexivity. }
  destruct (split_spec (glob_tif w folder) w0 Hrange HN)
    as (sp & w1 & l & Hsplit & Hv & Ht & Hperm & Hval & Htrain & Hvb
        & Hd1 & _ & _ & Hn1).
  assert (Hlen : length l = length (glob_tif w folder)) by (rewrite Hperm; reflexivity).
  assert (Htf : train_files sp <> []).
  { intros Hnil. apply (f_equal length) in Hnil.
    rewrite Htrain, length_drop, Hv in Hnil. cbn [length] in Hnil.
    assert (Z.of_nat (length (glob_tif w folder)) / 10
            < Z.of_nat (length (glob_tif w folder)))
      by (apply Z.div_lt_upper_bound; lia).
    lia. }
  destruct (train_streams (train_files sp) (Z.to_nat b) O Htf ltac:(lia))
    as (I & Hs & H0 & _).
  destruct (Hs O _ H0) as (fb & st & Hnext & _ & _).
  set (c := {| xp_rootdir := root; dataset_folder := folder;
               batch_size := Some b; epochs := Some ep; lr := Some rate |}) in *.
  destruct (make_xp_dir_Ok c w1) as (w2 & Hxp & Htb & Hpl & Hck & _).
  { cbn [xp_rootdir c]. rewrite Hn1, Hd1. exact Hfresh. }
  cbn [xp_rootdir c] in Hxp, Htb, Hpl, Hck.
  change (now w0) with (now w) in Hn1. rewrite Hn1 in Hxp, Htb, Hpl, Hck.
  eexists _, w2, l. split.
  - unfold main.
    unfold bind at 1. rewrite Hparse.
    unfold bind at 1. unfold path_exists.
    unfold bind at 1. cbn [dataset_folder c]. change (dirs w0) with (dirs w).
    rewrite (bool_decide_eq_true_2 _ Hfolder). cbn [orb assert_ ret].
    unfold bind at 1. unfold bind at 1.
    change (glob_tif w0 folder) with (glob_tif w folder). rewrite Hsplit.
    unfold bind at 1. unfold tf_batch_size, bind at 1. cbn [batch_size c from_option ret].
    replace (b <=? 0) with false by (symmetry; apply Z.leb_gt; exact Hb).
    cbn [ret]. unfold bind at 1. rewrite Hcw. cbn [from_option ret].
    unfold bind at 1. rewrite Hxp.
    unfold bind at 1. unfold take_sample_batch. rewrite Hnext. cbn [ret].
    unfold bind at 1. cbn [lr c from_option ret].
    unfold bind at 1. cbn [epochs c from_option ret].
    unfold bind at 1. unfold floordiv at 1.
    replace (b =? 0) with false by (symmetry; apply Z.eqb_neq; lia). cbn [ret].
    unfold bind at 1. unfold floordiv at 1.
    replace (b =? 0) with false by (symmetry; apply Z.eqb_neq; lia). cbn [ret].
    reflexivity.
  - cbn [files fit fit_steps_per_epoch fit_validation_steps fit_validation_data xp_dir].
    repeat (split; [assumption || reflexivity|]). assumption.
Qed.

(** C8. When the run reaches [model.fit], the number of steps of an epoch
    is [floor(trainset_size / batch_size)] and the number of validation
    steps [floor(valset_size / batch_size)], for the positive batch size of
    the configuration: each is the greatest number of whole batches its
    size holds. *)
Theorem steps_per_epoch_floor (argv : option path) (w w' : World) (g : Globals) :
  script argv w = Ok g w' ->
  exists b,
    batch_size (config g) = Some b /\ 0 < b /\
    fit_steps_per_epoch (fit g)
    = Qfloor (inject_Z (trainset_size (files g)) / inject_Z b) /\
    fit_validation_steps (fit g)
    = Qfloor (inject_Z (valset_size (files g)) / inject_Z b) /\
    fit_steps_per_epoch (fit g) * b <= trainset_size (files g)
      < (fit_steps_per_epoch (fit g) + 1) * b /\
    fit_validation_steps (fit g) * b <= valset_size (files g)
      < (fit_validation_steps (fit g) + 1) * b.
Proof.
  rewrite script_main. intros Hm.
  destruct (main_Ok _ _ _ _ Hm)
    as (w1 & b & _ & _ & Hbs & Hb & _ & _ & _ & _ & Hst & Hvst & _).
  exists b. split; [exact Hbs|]. split; [exact Hb|].
  rewrite !Qfloor_div by exact Hb. split; [exact Hst|]. split; [exact Hvst|].
  rewrite Hst, Hvst.
  pose proof (Z.mul_div_le (trainset_size (files g)) b Hb).
  pose proof (Z.mul_succ_div_gt (trainset_size (files g)) b Hb).
  pose proof (Z.mul_div_le (valset_size (files g)) b Hb).
  pose proof (Z.mul_succ_div_gt (valset_size (files g)) b Hb).
  lia.
Qed.

(** C9. A configuration error leaves the file system as it was: when the
    configuration file is missing or malformed, or lacks one of the two
    directories, or names a directory that does not exist, the run raises
    and the set of existing directories is unchanged; no experiment
    directory has been made. *)
Theorem config_error_creates_nothing (argv : option path) (w : World) :
  config_error w argv ->
  exists e w', script argv w = Raise e w' /\ dirs w' = dirs w.
Proof.
  intros Herr. rewrite script_main.
  set (w0 := world_of (random_seed SEED w)).
  assert (Herr0 : config_error w0 argv).
  { destruct Herr; [constructor|..]; econstructor; eassumption. }
  destruct (parse_args_config_error argv w0 Herr0) as [e He].
  exists e, w0. split; [|reflexivity].
  unfold main. unfold bind at 1. rewrite He. reflexivity.
Qed.

(** C10. With fewer than ten files, in a world where the run is otherwise
    in order, the validation set is empty: [valset_size] is 0, all files
    are training files, [validation_steps] is 0, the validation stream is
    empty, and the run reaches [model.fit] all the same. *)
Theorem small_dataset_runs_without_validation
    (w : World) (cfg root folder : path) (b ep : Z) (rate : Q)
    (cw : list spec_float) :
  randbelow_in_range ->
  config_files w cfg
  = Document (Some {| y_xp_rootdir := Some root; y_dataset_folder := Some folder;
                      y_batch_size := Some b; y_epochs := Some ep;
                      y_lr := Some rate |}) ->
  root ∈ dirs w -> folder ∈ dirs w -> 0 < b ->
  class_weight N_CLASSES TRAIN_CLASS_COUNTS = Some cw ->
  (forall q, q ∈ dirs w -> ~ (root ++ [now w]) `prefix_of` q) ->
  (1 <= length (glob_tif w folder) < 10)%nat ->
  exists g w',
    script (Some cfg) w = Ok g w' /\
    valset_size (files g) = 0 /\
    val_files (files g) = [] /\
    train_files (files g) ≡ₚ glob_tif w folder /\
    trainset_size (files g) = Z.of_nat (length (glob_tif w folder)) /\
    fit_validation_steps (fit g) = 0 /\
    next (fit_validation_data (fit g)) (fresh (fit_validation_data (fit g)) O) = None /\
    draw (fit_validation_data (fit g)) (Z.to_nat (fit_validation_steps (fit g)))
      (fresh (fit_validation_data (fit g)) O)
    = Some ([], fresh (fit_validation_data (fit g)) O).
Proof.
  intros Hrange Hcfg Hroot Hfolder Hb Hcw Hfresh HN.
  destruct (script_runs w cfg root folder b ep rate cw Hrange Hcfg Hroot Hfolder
              Hb Hcw Hfresh)
    as (g & w' & l & Hrun & Hperm & Hv & Ht & Hval & Htrain & _ & Hvst & Hvd & _).
  { change (2 ^ 52) with 4503599627370496. lia. }
  assert (Hv0 : valset_size (files g) = 0) by (rewrite Hv; apply Z.div_small; lia).
  exists g, w'. split; [exact Hrun|]. split; [exact Hv0|].
  rewrite Hv0 in *. cbn [Z.to_nat take drop] in Hval, Htrain.
  split; [exact Hval|]. split; [rewrite Htrain; exact Hperm|].
  split; [lia|]. rewrite Hvst. change (0 / b) with 0.
  split; [reflexivity|]. rewrite Hvd, Hval. split; [apply val_dataset_empty|].
  reflexivity.
Qed.
End Claims.

(** ** The claims about the run, on the demonstration world *)

Lemma Demo_world_fresh (n : nat) (q : path) :
  q ∈ dirs (Demo.world n) ->
  ~ (["xp"%string] ++ [now (Demo.world n)]) `prefix_of` q.
Proof.
  cbn [dirs Demo.world now]. rewrite elem_of_union, !elem_of_singleton.
  intros [-> | ->] [k Hk]; discriminate.
Qed.

Lemma Demo_root_exists (n : nat) : ["xp"%string] ∈ dirs (Demo.world n).
Proof. cbn [dirs Demo.world]. rewrite elem_of_union, !elem_of_singleton. auto. Qed.

Lemma Demo_folder_exists (n : nat) : ["data"%string] ∈ dirs (Demo.world n).
Proof. cbn [dirs Demo.world]. rewrite elem_of_union, !elem_of_singleton. auto. Qed.

(** A run over twelve tiles with batches of two: five steps an epoch, no
    validation step. *)
Lemma steps_per_epoch_floor_witness :
  exists g w',
    script (Some ["cfg.yaml"%string]) (Demo.world 12) = Ok g w' /\
    exists b,
      batch_size (config g) = Some b /\ 0 < b /\
      fit_steps_per_epoch (fit g)
      = Qfloor (inject_Z (trainset_size (files g)) / inject_Z b) /\
      fit_validation_steps (fit g)
      = Qfloor (inject_Z (valset_size (files g)) / inject_Z b) /\
      fit_steps_per_epoch (fit g) * b <= trainset_size (files g)
        < (fit_steps_per_epoch (fit g) + 1) * b /\
      fit_validation_steps (fit g) * b <= valset_size (files g)
        < (fit_validation_steps (fit g) + 1) * b.
Proof.
  destruct (script_runs (Demo.world 12) ["cfg.yaml"%string] ["xp"%string]
              ["data"%string] 2 3 (1 # 1000)%Q
              [F64.zero; F64.zero;
               S754_finite false 5629499534213120 (-51);
               S754_finite false 5629499534213120 (-53)])
    as (g & w' & _ & Hrun & _).
  - exact Demo_randbelow_in_range.
  - reflexivity.
  - apply Demo_root_exists.
  - apply Demo_folder_exists.
  - lia.
  - vm_compute. reflexivity.
  - apply Demo_world_fresh.
  - split; [vm_compute; discriminate | vm_compute; reflexivity].
  - exists g, w'. split; [exact Hrun|].
    exact (steps_per_epoch_floor _ _ _ _ Hrun).
Defined.

(** A run whose configuration file does not exist. *)
Lemma config_error_creates_nothing_witness :
  exists e w',
    script (Some ["nowhere.yaml"%string]) (Demo.world 12) = Raise e w' /\
    dirs w' = dirs (Demo.world 12).
Proof.
  apply (config_error_creates_nothing (Some ["nowhere.yaml"%string]) (Demo.world 12)).
  apply config_missing. reflexivity.
Defined.

(** A run over five tiles. *)
Lemma small_dataset_runs_without_validation_witness :
  exists g w',
    script (Some ["cfg.yaml"%string]) (Demo.world 5) = Ok g w' /\
    valset_size (files g) = 0 /\
    val_files (files g) = [] /\
    train_files (files g) ≡ₚ glob_tif (Demo.world 5) ["data"%string] /\
    trainset_size (files g)
    = Z.of_nat (length (glob_tif (Demo.world 5) ["data"%string])) /\
    fit_validation_steps (fit g) = 0 /\
    next (fit_validation_data (fit g)) (fresh (fit_validation_data (fit g)) O) = None /\
    draw (fit_validation_data (fit g)) (Z.to_nat (fit_validation_steps (fit g)))
      (fresh (fit_validation_data (fit g)) O)
    = Some ([], fresh (fit_validation_data (fit g)) O).
Proof.
  apply (small_dataset_runs_without_validation (Demo.world 5) ["cfg.yaml"%string]
           ["xp"%string] ["data"%string] 2 3 (1 # 1000)%Q
           [F64.zero; F64.zero;
            S754_finite false 5629499534213120 (-51);
            S754_finite false 5629499534213120 (-53)]).
  - exact Demo_randbelow_in_range.
  - reflexivity.
  - apply Demo_root_exists.
  - apply Demo_folder_exists.
  - lia.
  - vm_compute. reflexivity.
  - apply Demo_world_fresh.
  - split; [vm_compute; lia | vm_compute; lia].
Defined.

(** A configuration that lacks only the learning rate is not among the
    errors of [config_error]: [_parse_args] accepts it, and the run raises
    [AttributeError] at line 148, after the experiment directories have been
    made. *)
Remark missing_lr_fails_after_mkdir :
  match script (Some ["no_lr.yaml"%string]) (Demo.world 12) with
  | Raise AttributeError w =>
      bool_decide (["xp"; "04-11-2020_10:30:00"; "tensorboard"]%string ∈ dirs w)
  | _ => false
  end = true.
Proof. vm_compute. reflexivity. Qed.

(** * What a run does to the file system *)

Section Frames.
Context `{Collaborators}.

Lemma extends_refl (w : World) : extends w w.
Proof. repeat split; reflexivity. Qed.

Lemma extends_trans (w1 w2 w3 : World) :
  extends w1 w2 -> extends w2 w3 -> extends w1 w3.
Proof.
  intros (Hd & Hc & Hg & Hn) (Hd' & Hc' & Hg' & Hn').
  repeat split; [etrans; eassumption|congruence..].
Qed.

Lemma frame_bind {A B} (c : M World A) (k : A -> M World B) :
  frame c -> (forall a, frame (k a)) -> frame (bind c k).
Proof.
  intros Hc Hk w. unfold bind. specialize (Hc w).
  destruct (c w) as [a w1|e w1]; cbn [world_of] in *; [|exact Hc].
  exact (extends_trans _ _ _ Hc (Hk a w1)).
Qed.

Lemma frame_ret {A} (a : A) : frame (ret a).
Proof. intros w. apply extends_refl. Qed.

Lemma frame_raise {A} (e : exn) : frame (raise (A:=A) e).
Proof. intros w. apply extends_refl. Qed.

Lemma frame_from_option {A} (e : exn) (o : option A) : frame (from_option e o).
Proof. destruct o; intros w; apply extends_refl. Qed.

Lemma frame_assert (b : bool) : frame (assert_ b).
Proof. destruct b; intros w; apply extends_refl. Qed.

Lemma frame_floordiv (a b : Z) : frame (floordiv a b).
Proof. unfold floordiv. destruct (b =? 0); intros w; apply extends_refl. Qed.

Lemma frame_load_yaml (p : path) : frame (load_yaml p).
Proof.
  intros w. unfold load_yaml. destruct (config_files w p); apply extends_refl.
Qed.

Lemma frame_random_seed (a : Z) : frame (random_seed a).
Proof. intros w. repeat split; reflexivity. Qed.

Lemma frame_sample {A} (l : list A) : frame (sample l).
Proof.
  intros w. unfold sample.
  destruct (sample_loop _ _ _ _ _) as [[s g]|]; repeat split; reflexivity.
Qed.

Lemma frame_mkdir (parents : bool) (p : path) : frame (mkdir parents p).
Proof.
  intros w. unfold mkdir.
  destruct (bool_decide (p ∈ dirs w)); [apply extends_refl|].
  destruct parents.
  - repeat split; try reflexivity. cbn [world_of dirs]. apply union_subseteq_r.
  - destruct (bool_decide _); [|apply extends_refl].
    repeat split; try reflexivity. cbn [world_of dirs]. apply union_subseteq_r.
Qed.

Lemma frame_parse_args (argv : option path) : frame (_parse_args argv).
Proof.
  intros w. rewrite (parse_args_world argv w _ eq_refl). apply extends_refl.
Qed.

Lemma frame_split (l : list path) : frame (split l).
Proof.
  unfold split. apply frame_bind; [apply frame_sample|]. intros s.
  apply frame_bind; [apply frame_from_option|]. intros v. apply frame_ret.
Qed.

Lemma frame_tf_batch_size (c : Config) : frame (tf_batch_size c).
Proof.
  unfold tf_batch_size. apply frame_bind; [apply frame_from_option|]. intros b.
  destruct (b <=? 0); [apply frame_raise|apply frame_ret].
Qed.

Lemma frame_make_xp_dir (c : Config) : frame (make_xp_dir c).
Proof.
  intros w. unfold make_xp_dir.
  apply (frame_bind (mkdir true _) _); [apply frame_mkdir|]. intros _.
  apply frame_bind; [apply frame_mkdir|]. intros _.
  apply frame_bind; [apply frame_mkdir|]. intros _. apply frame_ret.
Qed.

Lemma frame_take_sample_batch {St} (d : Dataset St (list Sample)) :
  frame (take_sample_batch d).
Proof.
  unfold take_sample_batch.
  destruct (next d (fresh d O)) as [[b s]|]; [apply frame_ret|apply frame_raise].
Qed.

Lemma frame_main (argv : option path) : frame (main argv).
Proof.
  unfold main.
  apply frame_bind; [apply frame_parse_args|]. intros c.
  apply frame_bind; [intros w; apply extends_refl|]. intros ok.
  apply frame_bind; [apply frame_assert|]. intros _.
  apply frame_bind; [intros w; apply extends_refl|]. intros found.
  apply frame_bind; [apply frame_split|]. intros sp.
  apply frame_bind; [apply frame_tf_batch_size|]. intros b. cbv zeta.
  apply frame_bind; [apply frame_from_option|]. intros cw.
  apply frame_bind; [apply frame_make_xp_dir|]. intros xp.
  apply frame_bind; [apply frame_take_sample_batch|]. intros sb.
  apply frame_bind; [apply frame_from_option|]. intros rate.
  apply frame_bind; [apply frame_from_option|]. intros ep.
  apply frame_bind; [apply frame_floordiv|]. intros steps.
  apply frame_bind; [apply frame_floordiv|]. intros vsteps.
  apply frame_ret.
Qed.

Lemma frame_script (argv : option path) : frame (script argv).
Proof.
  unfold script. apply frame_bind; [apply frame_random_seed|].
  intros _. apply frame_main.
Qed.


(** ** The configuration *)

Lemma parse_args_accepts (w : World) (cfg : path) (y : TrainingSection)
    (root folder : path) :
  config_files w cfg = Document (Some y) ->
  y_xp_rootdir y = Some root -> y_dataset_folder y = Some folder ->
  root ∈ dirs w -> folder ∈ dirs w ->
  _parse_args (Some cfg) w
  = Ok {| xp_rootdir := root; dataset_folder := folder;
          batch_size := y_batch_size y; epochs := y_epochs y; lr := y_lr y |} w.
Proof.
  intros Hcfg Hr Hf Hrd Hfd.
  unfold _parse_args, bind, from_option, load_yaml, is_dir, assert_, ret.
  rewrite Hcfg. cbv beta iota. rewrite Hr. cbv beta iota.
  rewrite (bool_decide_eq_true_2 _ Hrd). cbv beta iota. rewrite Hf. cbv beta iota.
  rewrite (bool_decide_eq_true_2 _ Hfd). reflexivity.
Qed.

Lemma parse_args_inv (argv : option path) (w : World) (c : Config) (w' : World) :
  _parse_args argv w = Ok c w' ->
  exists cfg y,
    argv = Some cfg /\ config_files w cfg = Document (Some y) /\
    y_xp_rootdir y = Some (xp_rootdir c) /\
    y_dataset_folder y = Some (dataset_folder c) /\
    batch_size c = y_batch_size y /\ epochs c = y_epochs y /\ lr c = y_lr y.
Proof.
  unfold _parse_args, bind, from_option, load_yaml, is_dir, assert_, ret, raise.
  destruct argv as [p|]; [|discriminate].
  destruct (config_files w p) as [| | |[y|]] eqn:Hcfg; try discriminate.
  destruct (y_xp_rootdir y) as [root|] eqn:Hr; [|discriminate].
  destruct (bool_decide (root ∈ dirs w)); [|discriminate].
  destruct (y_dataset_folder y) as [folder|] eqn:Hf; [|discriminate].
  destruct (bool_decide (folder ∈ dirs w)); [|discriminate].
  intros Heq. injection Heq as <- _. exists p, y. cbn. repeat split; assumption.
Qed.

(** X1. [_parse_args] returns a configuration exactly when none of the
    errors of [config_error] applies, and raises when one does.  What it
    returns are the two directories of the file, which exist, and the batch
    size, the number of epochs and the learning rate as the file has them,
    present or not: these three are not looked at before the script uses
    them.  It changes nothing. *)
Theorem parse_args_accepts_iff (argv : option path) (w : World) :
  ((exists c w', _parse_args argv w = Ok c w') <-> ~ config_error w argv) /\
  (config_error w argv -> exists e, _parse_args argv w = Raise e w) /\
  (forall c w', _parse_args argv w = Ok c w' ->
     w' = w /\
     xp_rootdir c ∈ dirs w /\ dataset_folder c ∈ dirs w /\
     exists cfg y,
       argv = Some cfg /\ config_files w cfg = Document (Some y) /\
       y_xp_rootdir y = Some (xp_rootdir c) /\
       y_dataset_folder y = Some (dataset_folder c) /\
       batch_size c = y_batch_size y /\ epochs c = y_epochs y /\ lr c = y_lr y).
Proof.
  split; [split|split].
  - intros (c & w' & Hok) Herr.
    destruct (parse_args_config_error _ _ Herr) as [e He]. congruence.
  - intros Hok.
    destruct argv as [p|]; [|destruct Hok; constructor].
    destruct (config_files w p) as [| | |[y|]] eqn:Hcfg;
      [destruct Hok; econstructor; eassumption..| |destruct Hok; econstructor; eassumption].
    destruct (y_xp_rootdir y) as [root|] eqn:Hr;
      [|destruct Hok; eapply config_no_root; eassumption].
    destruct (decide (root ∈ dirs w)) as [Hrd|Hrd];
      [|destruct Hok; eapply config_root_not_dir; eassumption].
    destruct (y_dataset_folder y) as [folder|] eqn:Hf;
      [|destruct Hok; eapply config_no_folder; eassumption].
    destruct (decide (folder ∈ dirs w)) as [Hfd|Hfd];
      [|destruct Hok; eapply config_folder_not_dir; eassumption].
    eexists _, w. apply parse_args_accepts; eassumption.
  - apply parse_args_config_error.
  - intros c w' Hok.
    destruct (parse_args_Ok _ _ _ _ Hok) as (-> & Hr & Hf).
    split; [reflexivity|]. split; [exact Hr|]. split; [exact Hf|].
    exact (parse_args_inv _ _ _ _ Hok).
Qed.
End Frames.

Section Directories.
Context `{Collaborators}.

Lemma self_in_ancestors (p : path) : p ∈ ancestors p.
Proof. apply ancestors_spec. exists (length p). split; [lia|]. rewrite firstn_all. reflexivity. Qed.

Lemma sibling_fresh (xp : path) (a b : string) (d : gset path) :
  a <> b ->
  bool_decide (xp ++ [a] ∈ list_to_set (ancestors (xp ++ [b])) ∪ d)
  = bool_decide (xp ++ [a] ∈ d).
Proof.
  intros Hab. apply bool_decide_ext.
  rewrite elem_of_union, elem_of_list_to_set. split; [|auto].
  intros [Hin|Hin]; [|exact Hin].
  exfalso. revert Hin. apply sibling_not_in_ancestors. exact Hab.
Qed.

Lemma parent_of_child (xp : path) (a : string) :
  take (length (xp ++ [a]) - 1) (xp ++ [a]) = xp.
Proof.
  rewrite length_app. cbn [length].
  replace (length xp + 1 - 1)%nat with (length xp) by lia.
  apply take_app_length.
Qed.

(** The four ways [make_xp_dir] can go. *)
Lemma make_xp_dir_cases (c : Config) (w : World) :
  let xp := xp_rootdir c ++ [now w] in
  let tb := xp ++ ["tensorboard"%string] in
  let pl := xp ++ ["plots"%string] in
  let ck := xp ++ ["checkpoints"%string] in
  (tb ∈ dirs w -> make_xp_dir c w = Raise FileExistsError w) /\
  (tb ∉ dirs w -> pl ∈ dirs w ->
     exists w', make_xp_dir c w = Raise FileExistsError w' /\
                dirs w' = list_to_set (ancestors tb) ∪ dirs w) /\
  (tb ∉ dirs w -> pl ∉ dirs w -> ck ∈ dirs w ->
     exists w', make_xp_dir c w = Raise FileExistsError w' /\
                dirs w' = {[pl]} ∪ (list_to_set (ancestors tb) ∪ dirs w)) /\
  (tb ∉ dirs w -> pl ∉ dirs w -> ck ∉ dirs w ->
     exists w', make_xp_dir c w = Ok xp w' /\
                dirs w' = {[ck]} ∪ ({[pl]} ∪ (list_to_set (ancestors tb) ∪ dirs w))).
Proof.
  intros xp tb pl ck. subst tb pl ck.
  assert (Hparent : forall (a : string) (d : gset path),
            bool_decide (take (length (xp ++ [a]) - 1) (xp ++ [a])
                           ∈ d ∪ (list_to_set (ancestors (xp ++ ["tensorboard"%string]))
                                  ∪ dirs w)) = true).
  { intros a d. rewrite parent_of_child. apply bool_decide_eq_true_2.
    rewrite !elem_of_union, elem_of_list_to_set. right. left.
    apply parent_in_ancestors. }
  assert (Hparent0 : forall (a : string),
            bool_decide (take (length (xp ++ [a]) - 1) (xp ++ [a])
                           ∈ list_to_set (ancestors (xp ++ ["tensorboard"%string]))
                             ∪ dirs w) = true).
  { intros a. rewrite parent_of_child. apply bool_decide_eq_true_2.
    rewrite !elem_of_union, elem_of_list_to_set. left.
    apply parent_in_ancestors. }
  assert (Hck : forall d : gset path,
            bool_decide (xp ++ ["checkpoints"%string]
                           ∈ {[xp ++ ["plots"%string]]}
                             ∪ (list_to_set (ancestors (xp ++ ["tensorboard"%string])) ∪ d))
            = bool_decide (xp ++ ["checkpoints"%string] ∈ d)).
  { intros d. apply bool_decide_ext.
    rewrite !elem_of_union, elem_of_singleton, elem_of_list_to_set. split; [|auto].
    intros [Heq|[Hin|Hin]]; [| |exact Hin].
    - apply app_inv_head in Heq. discriminate.
    - exfalso. revert Hin. apply sibling_not_in_ancestors. discriminate. }
  unfold make_xp_dir. fold xp.
  split; [|split; [|split]].
  - intros Htb. unfold bind at 1. unfold mkdir at 1.
    rewrite (bool_decide_eq_true_2 _ Htb). reflexivity.
  - intros Htb Hpl. unfold bind at 1. unfold mkdir at 1.
    rewrite (bool_decide_eq_false_2 _ Htb).
    unfold bind at 1. unfold mkdir at 1. cbn [dirs].
    rewrite sibling_fresh by discriminate.
    rewrite (bool_decide_eq_true_2 _ Hpl).
    eexists. split; reflexivity.
  - intros Htb Hpl Hc. unfold bind at 1. unfold mkdir at 1.
    rewrite (bool_decide_eq_false_2 _ Htb).
    unfold bind at 1. unfold mkdir at 1. cbn [dirs].
    rewrite sibling_fresh by discriminate.
    rewrite (bool_decide_eq_false_2 _ Hpl).
    rewrite Hparent0.
    unfold bind at 1. unfold mkdir at 1. cbn [dirs].
    rewrite Hck, (bool_decide_eq_true_2 _ Hc).
    eexists. split; reflexivity.
  - intros Htb Hpl Hc. unfold bind at 1. unfold mkdir at 1.
    rewrite (bool_decide_eq_false_2 _ Htb).
    unfold bind at 1. unfold mkdir at 1. cbn [dirs].
    rewrite sibling_fresh by discriminate.
    rewrite (bool_decide_eq_false_2 _ Hpl).
    rewrite Hparent0.
    unfold bind at 1. unfold mkdir at 1. cbn [dirs].
    rewrite Hck, (bool_decide_eq_false_2 _ Hc).
    rewrite Hparent.
    eexists. split; reflexivity.
Qed.

Lemma make_xp_dir_inv (c : Config) (w : World) (xp : path) (w' : World) :
  make_xp_dir c w = Ok xp w' ->
  xp = xp_rootdir c ++ [now w] /\
  (xp ++ ["tensorboard"%string] ∉ dirs w) /\
  (xp ++ ["plots"%string] ∉ dirs w) /\
  (xp ++ ["checkpoints"%string] ∉ dirs w) /\
  dirs w' = {[xp ++ ["checkpoints"%string]]}
            ∪ ({[xp ++ ["plots"%string]]}
               ∪ (list_to_set (ancestors (xp ++ ["tensorboard"%string])) ∪ dirs w)).
Proof.
  intros Hok.
  destruct (make_xp_dir_cases c w) as (H1 & H2 & H3 & H4).
  set (xp0 := xp_rootdir c ++ [now w]) in *.
  destruct (decide (xp0 ++ ["tensorboard"%string] ∈ dirs w)) as [Htb|Htb];
    [rewrite (H1 Htb) in Hok; discriminate|].
  destruct (decide (xp0 ++ ["plots"%string] ∈ dirs w)) as [Hpl|Hpl];
    [destruct (H2 Htb Hpl) as (w2 & Heq & _); rewrite Heq in Hok; discriminate|].
  destruct (decide (xp0 ++ ["checkpoints"%string] ∈ dirs w)) as [Hc|Hc];
    [destruct (H3 Htb Hpl Hc) as (w2 & Heq & _); rewrite Heq in Hok; discriminate|].
  destruct (H4 Htb Hpl Hc) as (w2 & Heq & Hd). rewrite Heq in Hok.
  injection Hok as <- <-. auto.
Qed.


Lemma tree_prefix (d : gset path) (p : path) (n : nat) :
  tree d -> p ∈ d -> take n p ∈ d.
Proof.
  intros Ht Hp.
  enough (Hk : forall k, take (length p - k) p ∈ d).
  { destruct (decide (n <= length p)%nat) as [Hle|Hgt].
    - specialize (Hk (length p - n)%nat).
      replace (length p - (length p - n))%nat with n in Hk by lia. exact Hk.
    - rewrite take_ge by lia. exact Hp. }
  induction k as [|k IH].
  - rewrite Nat.sub_0_r, firstn_all. exact Hp.
  - specialize (Ht _ IH). rewrite length_take in Ht.
    rewrite take_take in Ht.
    replace (length p - S k)%nat
      with (Nat.min (Nat.min (length p - k) (length p) - 1) (length p - k)) by lia.
    exact Ht.
Qed.
End Directories.

Section MoreRuns.
Context `{Collaborators}.

(** The run from the loading of the module to line 108. *)
Lemma main_at_mkdir (argv : option path) (w w1 : World) (c : Config) (sp : Split)
    (b : Z) (cw : list spec_float) :
  _parse_args argv w = Ok c w ->
  split (glob_tif w (dataset_folder c)) w = Ok sp w1 ->
  batch_size c = Some b -> 0 < b ->
  class_weight N_CLASSES TRAIN_CLASS_COUNTS = Some cw ->
  main argv w
  = match make_xp_dir c w1 with
    | Raise e w2 => Raise e w2
    | Ok xp w2 =>
        match next (train_dataset (train_files sp) (Z.to_nat b))
                (fresh (train_dataset (train_files sp) (Z.to_nat b)) O) with
        | None => Raise NameError w2
        | Some (fb, _) =>
            match lr c, epochs c with
            | Some _, Some ep =>
                Ok {| config := c; files := sp; xp_dir := xp;
                      sample_batch := take 5 fb;
                      fit := {| fit_x := train_dataset (train_files sp) (Z.to_nat b);
                                fit_epochs := ep;
                                fit_steps_per_epoch := trainset_size sp / b;
                                fit_validation_data :=
                                  val_dataset (val_files sp) (Z.to_nat b);
                                fit_validation_steps := valset_size sp / b;
                                fit_class_weight := cw |} |} w2
            | _, _ => Raise AttributeError w2
            end
        end
    end.
Proof.
  intros Hparse Hsplit Hbs Hb Hcw.
  destruct (parse_args_Ok _ _ _ _ Hparse) as (_ & _ & Hfolder).
  unfold main.
  unfold bind at 1. rewrite Hparse.
  unfold bind at 1. unfold path_exists.
  unfold bind at 1.
  rewrite (bool_decide_eq_true_2 _ Hfolder). cbn [orb assert_ ret].
  unfold bind at 1. unfold bind at 1. rewrite Hsplit.
  unfold bind at 1. unfold tf_batch_size, bind at 1. rewrite Hbs. cbn [from_option ret].
  replace (b <=? 0) with false by (symmetry; apply Z.leb_gt; exact Hb).
  cbn [ret]. unfold bind at 1. rewrite Hcw. cbn [from_option ret].
  unfold bind at 1. destruct (make_xp_dir c w1) as [xp w2|e w2]; [|reflexivity].
  unfold bind at 1. unfold take_sample_batch.
  destruct (next _ _) as [[fb st]|]; [|reflexivity]. cbn [ret].
  unfold bind at 1. destruct (lr c) as [rate|]; [|reflexivity]. cbn [from_option ret].
  unfold bind at 1. destruct (epochs c) as [ep|]; [|reflexivity]. cbn [from_option ret].
  unfold bind at 1. unfold floordiv at 1.
  replace (b =? 0) with false by (symmetry; apply Z.eqb_neq; lia). cbn [ret].
  unfold bind at 1. unfold floordiv at 1.
  replace (b =? 0) with false by (symmetry; apply Z.eqb_neq; lia). cbn [ret].
  reflexivity.
Qed.

Lemma split_inv (l : list path) (w : World) (sp : Split) (w' : World) :
  split l w = Ok sp w' ->
  exists (shuffled : list path) (v : Z),
    sample l w = Ok shuffled w' /\
    F64.to_Z_trunc (F64.mul (F64.of_Z (Z.of_nat (length shuffled))) F64.tenth) = Some v /\
    sp = {| train_files := slice_from shuffled v; val_files := slice_to shuffled v;
            valset_size := v;
            trainset_size := Z.of_nat (length shuffled) - v |}.
Proof.
  unfold split, bind.
  destruct (sample l w) as [s w1|e w1]; [|discriminate].
  destruct (F64.to_Z_trunc _) as [v|] eqn:Hv; cbn [from_option ret raise]; [|discriminate].
  intros Heq. injection Heq as <- <-. exists s, v. auto.
Qed.

Lemma split_world (l : list path) (w : World) (sp : Split) (w' : World) :
  split l w = Ok sp w' ->
  dirs w' = dirs w /\ config_files w' = config_files w /\
  glob_tif w' = glob_tif w /\ now w' = now w.
Proof.
  intros Hsplit. apply split_inv in Hsplit as (s & v & Hs & _). unfold sample in Hs.
  destruct (sample_loop _ _ _ _ _) as [[s' g']|]; [|discriminate].
  injection Hs as _ <-. auto.
Qed.

Lemma split_same_rng (l : list path) (wa wb : World) (sp : Split) (wa' : World) :
  split l wa = Ok sp wa' -> py_random wb = py_random wa ->
  exists wb', split l wb = Ok sp wb' /\ dirs wb' = dirs wb /\ now wb' = now wb.
Proof.
  unfold split, bind, sample. intros Hs Hg. rewrite Hg.
  destruct (sample_loop _ _ _ _ _) as [[s g]|]; [|discriminate].
  destruct (F64.to_Z_trunc _) as [v|]; cbn [from_option ret raise] in *; [|discriminate].
  injection Hs as <- _. eexists. split; [reflexivity|]. split; reflexivity.
Qed.

Lemma ancestors_of_tensorboard (d : gset path) (root : path) (t : string) (q : path) :
  tree d -> root ∈ d ->
  q ∈ ancestors ((root ++ [t]) ++ ["tensorboard"%string]) ->
  q ∈ d \/ q = root ++ [t] \/ q = (root ++ [t]) ++ ["tensorboard"%string].
Proof.
  intros Ht Hroot Hq. apply ancestors_spec in Hq as (n & Hn & ->).
  rewrite !length_app in Hn. cbn [length] in Hn.
  destruct (decide (n <= length root)%nat) as [Hle|Hgt].
  - left. rewrite <- app_assoc, take_app_le by exact Hle.
    apply tree_prefix; assumption.
  - destruct (decide (n = S (length root))) as [->|Hne].
    + right. left.
      replace (S (length root)) with (length (root ++ [t]))
        by (rewrite length_app; cbn [length]; lia).
      apply take_app_length.
    + right. right. apply take_ge. rewrite !length_app. cbn [length]. lia.
Qed.

(** X4. In a file system where every directory has its parent, a run
    that reaches [model.fit] has made the [tensorboard], [plots] and
    [checkpoints] directories of the experiment, none of which existed, and
    the experiment directory [xp_rootdir/<time>] itself unless that existed
    already; it has made no other.  So it leaves four directories more than
    it found, or three when the experiment directory was there, and every
    directory still has its parent. *)
Theorem run_creates_experiment_directories
    (argv : option path) (w w' : World) (g : Globals) :
  script argv w = Ok g w' -> tree (dirs w) ->
  let xp := xp_rootdir (config g) ++ [now w] in
  xp_dir g = xp /\
  (forall q, q ∈ dirs w' <->
     q ∈ dirs w \/
     q ∈ [xp; xp ++ ["tensorboard"%string]; xp ++ ["plots"%string];
          xp ++ ["checkpoints"%string]]) /\
  (forall q, q ∈ dirs w' ∖ dirs w <->
     q ∈ [xp ++ ["tensorboard"%string]; xp ++ ["plots"%string];
          xp ++ ["checkpoints"%string]] \/
     (q = xp /\ xp ∉ dirs w)) /\
  size (dirs w' ∖ dirs w) = (if bool_decide (xp ∈ dirs w) then 3 else 4)%nat /\
  (xp ++ ["tensorboard"%string] ∉ dirs w) /\
  (xp ++ ["plots"%string] ∉ dirs w) /\
  (xp ++ ["checkpoints"%string] ∉ dirs w) /\
  tree (dirs w').
Proof.
  rewrite script_main. intros Hm Htree xp.
  set (w0 := world_of (random_seed SEED w)) in *.
  destruct (main_Ok _ _ _ _ Hm)
    as (w1 & b & Hparse & Hsplit & _ & _ & _ & Hxp & _).
  destruct (parse_args_Ok _ _ _ _ Hparse) as (_ & Hroot & _).
  change (dirs w0) with (dirs w) in Hroot.
  destruct (split_world _ _ _ _ Hsplit) as (Hd1' & _ & _ & Hn1).
  change (now w0) with (now w) in Hn1. change (dirs w0) with (dirs w) in Hd1'.
  destruct (make_xp_dir_inv _ _ _ _ Hxp) as (Hxpeq & Htb & Hpl & Hck & Hdirs).
  rewrite Hn1 in Hxpeq. fold xp in Hxpeq. rewrite Hxpeq in Htb, Hpl, Hck, Hdirs.
  rewrite Hd1' in Htb, Hpl, Hck, Hdirs.
  assert (Hmem : forall q, q ∈ dirs w' <->
            q ∈ dirs w \/
            q ∈ [xp; xp ++ ["tensorboard"%string]; xp ++ ["plots"%string];
                 xp ++ ["checkpoints"%string]]).
  { intros q. rewrite Hdirs, !elem_of_union, !elem_of_singleton, elem_of_list_to_set.
    rewrite !elem_of_cons, elem_of_nil. split.
    - intros [->|[->|[Hq|Hq]]]; [auto 10|auto 10| |auto].
      destruct (ancestors_of_tensorboard _ _ _ _ Htree Hroot Hq) as [Hin | [-> | ->]];
        auto 10.
    - intros [Hq|[->|[->|[->|[->|[ ]]]]]]; [auto| | |auto|auto].
      + right. right. left. apply parent_in_ancestors.
      + right. right. left. apply self_in_ancestors. }
  assert (Hnew : forall q, q ∈ dirs w' ∖ dirs w <->
            q ∈ [xp ++ ["tensorboard"%string]; xp ++ ["plots"%string];
                 xp ++ ["checkpoints"%string]] \/
            (q = xp /\ xp ∉ dirs w)).
  { intros q. split.
    - intros Hq. apply elem_of_difference in Hq as [Hq Hn].
      apply Hmem in Hq as [Hq|Hq]; [contradiction|].
      rewrite !elem_of_cons, elem_of_nil in Hq. rewrite !elem_of_cons, elem_of_nil.
      destruct Hq as [->|[->|[->|[->|[ ]]]]]; auto 10.
    - intros Hq. apply elem_of_difference.
      rewrite !elem_of_cons, elem_of_nil in Hq.
      destruct Hq as [[->|[->|[->|[ ]]]]|[-> Hn]];
        (split; [apply Hmem; right; rewrite !elem_of_cons; auto 10|assumption]). }
  assert (Hne : forall a : string, xp <> xp ++ [a]).
  { intros a Heq. apply (f_equal length) in Heq.
    rewrite length_app in Heq. cbn [length] in Heq. lia. }
  assert (Hnd3 : NoDup [xp ++ ["tensorboard"%string]; xp ++ ["plots"%string];
                        xp ++ ["checkpoints"%string]]).
  { repeat (apply NoDup_cons; split); [| |apply not_elem_of_nil|apply NoDup_nil_2].
    - rewrite !elem_of_cons, elem_of_nil.
      intros [Heq|[Heq|[ ]]]; apply app_inv_head in Heq; discriminate.
    - rewrite !elem_of_cons, elem_of_nil.
      intros [Heq|[ ]]; apply app_inv_head in Heq; discriminate. }
  split; [exact Hxpeq|]. split; [exact Hmem|]. split; [exact Hnew|].
  split; [|split; [exact Htb|split; [exact Hpl|split; [exact Hck|]]]].
  - case_bool_decide as Hxpin.
    + transitivity (size (list_to_set (C:=gset path)
                            [xp ++ ["tensorboard"%string]; xp ++ ["plots"%string];
                             xp ++ ["checkpoints"%string]])).
      * f_equal. apply set_eq. intros q. rewrite Hnew, elem_of_list_to_set.
        split; [intros [Hq|[_ Hn]]; [exact Hq|contradiction]|auto].
      * rewrite size_list_to_set by exact Hnd3. reflexivity.
    + transitivity (size (list_to_set (C:=gset path)
                            [xp; xp ++ ["tensorboard"%string]; xp ++ ["plots"%string];
                             xp ++ ["checkpoints"%string]])).
      * f_equal. apply set_eq. intros q. rewrite Hnew, elem_of_list_to_set.
        rewrite (elem_of_cons _ q xp). split.
        -- intros [Hq|[-> _]]; auto.
        -- intros [->|Hq]; auto.
      * rewrite size_list_to_set; [reflexivity|].
        apply NoDup_cons. split; [|exact Hnd3].
        rewrite !elem_of_cons, elem_of_nil.
        intros [Heq|[Heq|[Heq|[ ]]]]; exact (Hne _ Heq).
  - intros q Hq. apply Hmem in Hq. apply Hmem.
    rewrite !elem_of_cons, elem_of_nil in Hq.
    destruct Hq as [Hq|[->|[->|[->|[->|[ ]]]]]].
    + left. apply Htree. exact Hq.
    + left. unfold xp. rewrite parent_of_child. exact Hroot.
    + right. rewrite parent_of_child. apply elem_of_cons. auto.
    + right. rewrite parent_of_child. apply elem_of_cons. auto.
    + right. rewrite parent_of_child. apply elem_of_cons. auto.
Qed.

(** X5. A second run with the same configuration, started in the world the
    first one left and within the same second of the clock, raises
    [FileExistsError] at line 109 and makes no directory. *)
Theorem rerun_in_same_second_fails (argv : option path) (w w' : World) (g : Globals) :
  script argv w = Ok g w' ->
  exists w'', script argv w' = Raise FileExistsError w'' /\ dirs w'' = dirs w'.
Proof.
  intros Hrun.
  destruct (frame_script argv w) as (Hsub & Hcf & Hgl & Hnow).
  rewrite Hrun in Hsub, Hcf, Hgl, Hnow. cbn [world_of] in Hsub, Hcf, Hgl, Hnow.
  rewrite script_main in Hrun.
  set (w0 := world_of (random_seed SEED w)) in *.
  destruct (main_Ok _ _ _ _ Hrun)
    as (w1 & b & Hparse & Hsplit & Hbs & Hb & Hcw & Hxp & _).
  destruct (parse_args_Ok _ _ _ _ Hparse) as (_ & Hroot & Hfolder).
  destruct (parse_args_inv _ _ _ _ Hparse)
    as (cfg & y & -> & Hcfg & Hyr & Hyf & Hyb & Hye & Hyl).
  change (dirs w0) with (dirs w) in Hroot, Hfolder.
  change (config_files w0 cfg) with (config_files w cfg) in Hcfg.
  rewrite script_main. set (w0' := world_of (random_seed SEED w')).
  assert (Hparse' : _parse_args (Some cfg) w0' = Ok (config g) w0').
  { rewrite (parse_args_accepts w0' cfg y (xp_rootdir (config g))
               (dataset_folder (config g))).
    - f_equal. destruct (config g); cbn in *; congruence.
    - change (config_files w0' cfg) with (config_files w' cfg). rewrite Hcf. exact Hcfg.
    - exact Hyr.
    - exact Hyf.
    - apply Hsub, Hroot.
    - apply Hsub, Hfolder. }
  destruct (split_same_rng _ w0 w0' _ _ Hsplit eq_refl) as (w1' & Hsplit' & Hd1' & Hn1').
  change (glob_tif w0 (dataset_folder (config g)))
    with (glob_tif w (dataset_folder (config g))) in Hsplit'.
  rewrite <- Hgl in Hsplit'.
  change (glob_tif w' (dataset_folder (config g)))
    with (glob_tif w0' (dataset_folder (config g))) in Hsplit'.
  rewrite (main_at_mkdir _ w0' w1' _ _ b _ Hparse' Hsplit' Hbs Hb Hcw).
  destruct (make_xp_dir_inv _ _ _ _ Hxp) as (Hxpeq & _ & _ & _ & Hdirs).
  destruct (split_world _ _ _ _ Hsplit) as (_ & _ & _ & Hn1).
  change (now w0) with (now w) in Hn1.
  destruct (make_xp_dir_cases (config g) w1') as (Hexists & _).
  rewrite Hexists.
  - exists w1'. split; [reflexivity|exact Hd1'].
  - rewrite Hd1', Hn1'. change (dirs w0') with (dirs w'). change (now w0') with (now w').
    rewrite Hnow, <- Hn1, <- Hxpeq, Hdirs.
    rewrite !elem_of_union, elem_of_list_to_set. right. right. left.
    apply self_in_ancestors.
Qed.

(** X6. A configuration that has no batch size, or one that is not
    positive, passes [_parse_args] and fails at line 93, with
    [AttributeError] and [InvalidArgumentError] respectively, before any
    directory is made. *)
Theorem bad_batch_size_fails_before_mkdir
    (w : World) (cfg : path) (y : TrainingSection) (root folder : path) :
  randbelow_in_range ->
  config_files w cfg = Document (Some y) ->
  y_xp_rootdir y = Some root -> y_dataset_folder y = Some folder ->
  root ∈ dirs w -> folder ∈ dirs w ->
  1 <= Z.of_nat (length (glob_tif w folder)) < 2 ^ 52 ->
  match y_batch_size y with Some b => b <= 0 | None => True end ->
  exists w',
    script (Some cfg) w
    = Raise (match y_batch_size y with
             | Some _ => InvalidArgumentError
             | None => AttributeError
             end) w' /\
    dirs w' = dirs w.
Proof.
  intros Hrange Hcfg Hyr Hyf Hroot Hfolder HN Hbad.
  rewrite script_main. set (w0 := world_of (random_seed SEED w)).
  pose proof (parse_args_accepts w0 cfg y root folder Hcfg Hyr Hyf Hroot Hfolder) as Hparse.
  destruct (split_spec (glob_tif w folder) w0 Hrange HN)
    as (sp & w1 & l & Hsplit & _ & _ & _ & _ & _ & _ & Hd1 & _).
  exists w1. split; [|exact Hd1].
  unfold main.
  unfold bind at 1. rewrite Hparse.
  unfold bind at 1. unfold path_exists.
  unfold bind at 1. cbn [dataset_folder]. change (dirs w0) with (dirs w).
  rewrite (bool_decide_eq_true_2 _ Hfolder). cbn [orb assert_ ret].
  unfold bind at 1. unfold bind at 1.
  change (glob_tif w0 folder) with (glob_tif w folder). rewrite Hsplit.
  unfold bind at 1. unfold tf_batch_size, bind at 1. cbn [batch_size].
  destruct (y_batch_size y) as [b|]; cbn [from_option ret raise]; [|reflexivity].
  replace (b <=? 0) with true by (symmetry; apply Z.leb_le; exact Hbad).
  reflexivity.
Qed.

(** X7. A configuration that lacks the learning rate or the number of
    epochs, and is in order otherwise, fails with [AttributeError] only
    after lines 108-111: the three directories of the experiment have been
    made and are left behind. *)
Theorem missing_lr_or_epochs_leaves_directories
    (w : World) (cfg : path) (y : TrainingSection) (root folder : path) (b : Z)
    (cw : list spec_float) :
  randbelow_in_range ->
  config_files w cfg = Document (Some y) ->
  y_xp_rootdir y = Some root -> y_dataset_folder y = Some folder ->
  y_batch_size y = Some b -> 0 < b ->
  root ∈ dirs w -> folder ∈ dirs w ->
  class_weight N_CLASSES TRAIN_CLASS_COUNTS = Some cw ->
  (forall q, q ∈ dirs w -> ~ (root ++ [now w]) `prefix_of` q) ->
  1 <= Z.of_nat (length (glob_tif w folder)) < 2 ^ 52 ->
  y_lr y = None \/ y_epochs y = None ->
  exists w',
    script (Some cfg) w = Raise AttributeError w' /\
    (root ++ [now w]) ++ ["tensorboard"%string] ∈ dirs w' /\
    (root ++ [now w]) ++ ["plots"%string] ∈ dirs w' /\
    (root ++ [now w]) ++ ["checkpoints"%string] ∈ dirs w'.
Proof.
  intros Hrange Hcfg Hyr Hyf Hyb Hb Hroot Hfolder Hcw Hfresh HN Hmiss.
  rewrite script_main. set (w0 := world_of (random_seed SEED w)).
  pose proof (parse_args_accepts w0 cfg y root folder Hcfg Hyr Hyf Hroot Hfolder) as Hparse.
  set (c := {| xp_rootdir := root; dataset_folder := folder;
               batch_size := y_batch_size y; epochs := y_epochs y; lr := y_lr y |}) in *.
  destruct (split_spec (glob_tif w folder) w0 Hrange HN)
    as (sp & w1 & l & Hsplit & Hv & _ & Hperm & _ & Htrain & _ & Hd1 & _ & _ & Hn1).
  change (now w0) with (now w) in Hn1. change (dirs w0) with (dirs w) in Hd1.
  assert (Hlen : length l = length (glob_tif w folder)) by (rewrite Hperm; reflexivity).
  assert (Htf : train_files sp <> []).
  { intros Hnil. apply (f_equal length) in Hnil.
    rewrite Htrain, length_drop, Hv in Hnil. cbn [length] in Hnil.
    assert (Z.of_nat (length (glob_tif w folder)) / 10
            < Z.of_nat (length (glob_tif w folder)))
      by (apply Z.div_lt_upper_bound; lia).
    lia. }
  destruct (train_streams (train_files sp) (Z.to_nat b) O Htf ltac:(lia))
    as (I & Hs & H0 & _).
  destruct (Hs O _ H0) as (fb & st & Hnext & _ & _).
  destruct (make_xp_dir_Ok c w1) as (w2 & Hxp & Htb & Hpl & Hck & _).
  { cbn [xp_rootdir c]. rewrite Hn1, Hd1. exact Hfresh. }
  cbn [xp_rootdir c] in Hxp, Htb, Hpl, Hck. rewrite Hn1 in Hxp, Htb, Hpl, Hck.
  exists w2. split; [|auto].
  rewrite (main_at_mkdir (Some cfg) w0 w1 c sp b cw Hparse Hsplit Hyb Hb Hcw).
  rewrite Hxp, Hnext. cbn [lr epochs c].
  destruct Hmiss as [-> | ->]; [reflexivity|]. destruct (y_lr y); reflexivity.
Qed.

Lemma train_dataset_empty (batch k : nat) :
  next (train_dataset [] batch) (fresh (train_dataset [] batch) k) = None.
Proof. destruct batch; reflexivity. Qed.

(** X9. In every run that reaches [model.fit], the training data given to
    it yields any number of batches, each of the batch size of the
    configuration, whichever iterator over it is used; so does the
    validation data when there is at least one validation step. *)
Theorem run_streams_never_end (argv : option path) (w w' : World) (g : Globals) :
  script argv w = Ok g w' ->
  (forall n k : nat,
     exists l st,
       draw (fit_x (fit g)) n (fresh (fit_x (fit g)) k) = Some (l, st) /\
       length l = n /\
       Forall (fun batch => Some (Z.of_nat (length batch)) = batch_size (config g)) l) /\
  (1 <= fit_validation_steps (fit g) ->
   forall n k : nat,
     exists l st,
       draw (fit_validation_data (fit g)) n (fresh (fit_validation_data (fit g)) k)
       = Some (l, st) /\
       length l = n /\
       Forall (fun batch => Some (Z.of_nat (length batch)) = batch_size (config g)) l).
Proof.
  rewrite script_main. intros Hm.
  destruct (main_Ok _ _ _ _ Hm)
    as (w1 & b & _ & Hsplit & Hbs & Hb & _ & _ & Hx & Hvd & _ & Hvs & _ & fb & st & Hnext & _).
  rewrite Hbs. split.
  - intros n k. rewrite Hx in *.
    assert (Htf : train_files (files g) <> []).
    { intros Hnil. rewrite Hnil, train_dataset_empty in Hnext. discriminate. }
    destruct (train_streams (train_files (files g)) (Z.to_nat b) k Htf ltac:(lia))
      as (I & Hs & H0 & _).
    destruct (draw_streams _ _ _ Hs n O _ H0) as (l & st' & Hd & Hlen & Hl & _).
    exists l, st'. split; [exact Hd|]. split; [exact Hlen|].
    apply Forall_lookup. intros j x Hj. rewrite (Hl j x Hj). f_equal. lia.
  - intros Hsteps n k. rewrite Hvd in *.
    assert (Hvf : val_files (files g) <> []).
    { apply split_inv in Hsplit as (s & v & _ & Hv & Hsp).
      rewrite Hsp in Hvs |- *. cbn [val_files valset_size] in *.
      assert (Hv1 : 1 <= v).
      { rewrite Hvs in Hsteps.
        destruct (Z_lt_le_dec v 1) as [Hlt|Hge]; [|exact Hge].
        destruct (Z_lt_le_dec v 0) as [Hneg|Hnn].
        - pose proof (Z.div_lt_upper_bound v b 0 Hb ltac:(lia)). lia.
        - rewrite Z.div_small in Hsteps by lia. lia. }
      destruct s as [|x s]; [vm_compute in Hv; injection Hv as <-; lia|].
      unfold slice_to, slice_index.
      replace (v <? 0) with false by (symmetry; apply Z.ltb_ge; lia).
      cbn [length]. destruct (Nat.min (Z.to_nat v) (S (length s))) eqn:Hmin; [lia|].
      discriminate. }
    destruct (val_streams (val_files (files g)) (Z.to_nat b) k Hvf ltac:(lia))
      as (I & Hs & H0).
    destruct (draw_streams _ _ _ Hs n O _ H0) as (l & st' & Hd & Hlen & Hl & _).
    exists l, st'. split; [exact Hd|]. split; [exact Hlen|].
    apply Forall_lookup. intros j x Hj. rewrite (proj1 (Hl j x Hj)). f_equal. lia.
Qed.
End MoreRuns.

(** * One pass of the shuffle *)

Section ShufflePass.
Context `{Collaborators}.

Lemma pull_train_input_exact (l : list string) (n : nat) :
  forall (rest : list string) (k i : nat),
    pull (train_input l) n (rest, k, i)
    = (imap (fun j f => load_image_train k (i + j) (parse_image f)) (take n rest),
       (drop n rest, k, (i + Nat.min n (length rest))%nat)).
Proof.
  induction n as [|n IH]; intros rest k i.
  - cbn. rewrite drop_0, Nat.add_0_r. reflexivity.
  - destruct rest as [|x rest].
    + cbn. rewrite Nat.add_0_r. reflexivity.
    + cbn [pull next train_input ds_map_random ds_map from_tensor_slices mbind option_bind].
      specialize (IH rest k (S i)).
      cbn [train_input] in IH. rewrite IH.
      cbn [take drop length imap]. rewrite Nat.add_0_r. f_equal.
      * f_equal. apply imap_ext. intros j y _. cbn. f_equal. lia.
      * f_equal. cbn. lia.
Qed.

(** Swapping a slot with the first one and emitting it loses nothing. *)
Lemma swap_first_perm {A} (first : A) (others : list A) (j : nat) (x : A) :
  (first :: others) !! j = Some x ->
  x :: drop 1 (<[j := first]> (first :: others)) ≡ₚ first :: others.
Proof.
  destruct j as [|j]; intros Hx.
  - cbn in Hx. injection Hx as ->. reflexivity.
  - change ((first :: others) !! S j) with (others !! j) in Hx.
    change (drop 1 (<[S j := first]> (first :: others))) with (<[j := first]> others).
    assert (Hj : (j < length others)%nat) by (eapply lookup_lt_Some; exact Hx).
    rewrite insert_take_drop by exact Hj.
    rewrite <- (take_drop_middle others j x Hx) at 3.
    rewrite <- !Permutation_middle. apply perm_swap.
Qed.

Lemma shuffle_next (l : list string) st :
  match next (ds_shuffle 1024 SEED (train_input l)) st with
  | None => pending st = []
  | Some (x, st') => x :: pending st' ≡ₚ pending st
  end.
Proof.
  destruct st as [[[rest k] i] buf g].
  cbn [next ds_shuffle sh_buffer sh_input sh_gen].
  rewrite pull_train_input_exact.
  set (n := (1024 - length buf)%nat).
  assert (Hrem : pending {| sh_input := (rest, k, i); sh_buffer := buf; sh_gen := g |}
                 = (buf ++ imap (fun j f => load_image_train k (i + j) (parse_image f))
                                (take n rest))
                   ++ imap (fun j f => load_image_train k
                                         ((i + Nat.min n (length rest)) + j) (parse_image f))
                           (drop n rest)).
  { unfold pending. cbn [sh_buffer sh_input fst snd].
    rewrite <- app_assoc. f_equal.
    rewrite <- (take_drop n rest) at 1. rewrite imap_app. f_equal.
    apply imap_ext. intros j y _. cbn. rewrite length_take. f_equal. lia. }
  destruct (buf ++ _) as [|first others] eqn:Hcat.
  - rewrite Hrem. cbn [app].
    destruct buf; [|discriminate]. cbn [app length] in Hcat.
    destruct rest as [|y rest]; [reflexivity|]. discriminate.
  - destruct (tf_random g) as [r g'].
    assert (Hj : (r mod S (length others) < length (first :: others))%nat)
      by (cbn [length]; apply Nat.mod_upper_bound; lia).
    destruct (lookup_lt_is_Some_2 _ _ Hj) as [x Hx]. rewrite Hx.
    rewrite Hrem. unfold pending. cbn [sh_buffer sh_input fst snd].
    rewrite app_comm_cons. apply Permutation_app_tail.
    apply swap_first_perm. exact Hx.
Qed.

Lemma shuffle_drains (l : list string) (m : nat) :
  forall st, length (pending st) = m ->
    exists out st',
      draw (ds_shuffle 1024 SEED (train_input l)) m st = Some (out, st') /\
      out ≡ₚ pending st /\
      next (ds_shuffle 1024 SEED (train_input l)) st' = None.
Proof.
  induction m as [|m IH]; intros st Hlen.
  - exists [], st. split; [reflexivity|].
    assert (Hnil : pending st = []) by (destruct (pending st); [done|discriminate]).
    split; [rewrite Hnil; reflexivity|].
    pose proof (shuffle_next l st) as Hn.
    destruct (next _ st) as [[x st']|]; [|reflexivity].
    rewrite Hnil in Hn. apply Permutation_nil_r in Hn. discriminate.
  - pose proof (shuffle_next l st) as Hn.
    cbn [draw].
    destruct (next _ st) as [[x st']|].
    + assert (Hlen' : length (pending st') = m).
      { apply Permutation_length in Hn. cbn [length] in Hn. lia. }
      destruct (IH st' Hlen') as (out & st'' & Hd & Hperm & Hend).
      cbn [mbind option_bind]. rewrite Hd. cbn [mbind option_bind].
      exists (x :: out), st''. split; [reflexivity|]. split; [|exact Hend].
      rewrite Hperm. exact Hn.
    + rewrite Hn in Hlen. discriminate.
Qed.
(** One pass: as many samples as files, a permutation of them, then the end. *)
Lemma shuffle_pass (l : list string) (k : nat) :
  exists out st,
    draw (ds_shuffle 1024 SEED (train_input l)) (length l)
      (fresh (ds_shuffle 1024 SEED (train_input l)) k) = Some (out, st) /\
    out ≡ₚ train_samples k l /\
    next (ds_shuffle 1024 SEED (train_input l)) st = None.
Proof.
  assert (Hp : pending (fresh (ds_shuffle 1024 SEED (train_input l)) k) = train_samples k l).
  { reflexivity. }
  destruct (shuffle_drains l (length l) (fresh (ds_shuffle 1024 SEED (train_input l)) k))
    as (out & st & Hd & Hperm & Hend).
  { rewrite Hp. unfold train_samples. apply length_imap. }
  exists out, st. rewrite <- Hp. auto.
Qed.
End ShufflePass.

(** X11. The shuffle loses and repeats nothing: one pass over the shuffle
    stage of the training stream yields as many samples as there are files,
    they are a permutation of the samples of the files, and then the pass
    ends. *)
Theorem shuffle_pass_is_permutation `{Collaborators} (l : list string) (k : nat) :
  (forall (tf : list path) (batch : nat),
     train_dataset tf batch
     = ds_prefetch
         (ds_batch batch (ds_repeat (ds_shuffle 1024 SEED (train_input (str <$> tf)))))) /\
  exists out st,
    draw (ds_shuffle 1024 SEED (train_input l)) (length l)
      (fresh (ds_shuffle 1024 SEED (train_input l)) k) = Some (out, st) /\
    out ≡ₚ train_samples k l /\
    next (ds_shuffle 1024 SEED (train_input l)) st = None.
Proof.
  split; [reflexivity|]. apply shuffle_pass.
Qed.

(** * The training stream, pass after pass *)











(** * What the generator of the shuffle decides *)








(** C7, as stated, fails for the validation stream: of five files the split
    gives the validation pipeline none, and the first draw from the
    validation stream reports its end. *)
Lemma validation_stream_ends_below_ten_files :
  exists sp w',
    Demo.tile <$> seq 0 5 <> [] /\
    split (Demo.tile <$> seq 0 5) (Demo.world 5) = Ok sp w' /\
    val_files sp = [] /\
    draw (val_dataset (H:=Demo.collaborators) (val_files sp) 2) 1
      (fresh (val_dataset (H:=Demo.collaborators) (val_files sp) 2) O)
    = None.
Proof.
  destruct (split_spec (Demo.tile <$> seq 0 5) (Demo.world 5) Demo_randbelow_in_range)
    as (sp & w' & l & Hsplit & Hv & _ & _ & Hval & _).
  { split; [vm_compute; discriminate | vm_compute; reflexivity]. }
  assert (Hnil : val_files sp = [])
    by (rewrite Hval, Hv; reflexivity).
  exists sp, w'. split; [discriminate|]. split; [exact Hsplit|].
  split; [exact Hnil|]. rewrite Hnil. reflexivity.
Qed.

(** C7, amended. A pipeline built over a list of files that is not empty
    repeats without end: any number [n] of batches can be drawn from it, and
    every batch is full.  In the script, for a dataset of [N >= 1] files,
    the training files are never empty, so the training stream never ends;
    the validation stream never ends when [N >= 10], and for [N < 10] there
    is no validation file and the validation stream ends at its first
    draw. *)
Theorem streams_never_exhaust `{Collaborators}
    (file_list : list path) (w : World) (batch n k : nat) :
  randbelow_in_range ->
  1 <= Z.of_nat (length file_list) < 2 ^ 52 ->
  (0 < batch)%nat ->
  (forall fl : list path, fl <> [] ->
     (exists l st,
        draw (train_dataset fl batch) n (fresh (train_dataset fl batch) k)
        = Some (l, st) /\
        length l = n /\ Forall (fun b => length b = batch) l) /\
     (exists l st,
        draw (val_dataset fl batch) n (fresh (val_dataset fl batch) k)
        = Some (l, st) /\
        length l = n /\ Forall (fun b => length b = batch) l)) /\
  exists sp w',
    split file_list w = Ok sp w' /\
    (exists l st,
       draw (train_dataset (train_files sp) batch) n
         (fresh (train_dataset (train_files sp) batch) k) = Some (l, st) /\
       length l = n /\ Forall (fun b => length b = batch) l) /\
    (10 <= Z.of_nat (length file_list) ->
     exists l st,
       draw (val_dataset (val_files sp) batch) n
         (fresh (val_dataset (val_files sp) batch) k) = Some (l, st) /\
       length l = n /\ Forall (fun b => length b = batch) l) /\
    (Z.of_nat (length file_list) < 10 ->
     val_files sp = [] /\
     next (val_dataset (val_files sp) batch)
       (fresh (val_dataset (val_files sp) batch) k) = None).
Proof.
  intros Hrange HN Hb.
  assert (Htrain : forall fl : list path, fl <> [] ->
            exists l st,
              draw (train_dataset fl batch) n (fresh (train_dataset fl batch) k)
              = Some (l, st) /\
              length l = n /\ Forall (fun b => length b = batch) l).
  { intros fl Hne.
    destruct (train_streams fl batch k Hne Hb) as (I & Hs & H0 & _).
    destruct (draw_streams _ _ _ Hs n O _ H0) as (l & st & Hd & Hlen & Hl & _).
    exists l, st. split; [exact Hd|]. split; [exact Hlen|].
    apply Forall_lookup. intros j b Hj. exact (Hl j b Hj). }
  assert (Hvalid : forall fl : list path, fl <> [] ->
            exists l st,
              draw (val_dataset fl batch) n (fresh (val_dataset fl batch) k)
              = Some (l, st) /\
              length l = n /\ Forall (fun b => length b = batch) l).
  { intros fl Hne.
    destruct (val_streams fl batch k Hne Hb) as (I & Hs & H0).
    destruct (draw_streams _ _ _ Hs n O _ H0) as (l & st & Hd & Hlen & Hl & _).
    exists l, st. split; [exact Hd|]. split; [exact Hlen|].
    apply Forall_lookup. intros j b Hj. exact (proj1 (Hl j b Hj)). }
  split; [intros fl Hne; split; [apply Htrain|apply Hvalid]; exact Hne|].
  destruct (split_spec file_list w Hrange HN)
    as (sp & w' & l & Hsplit & Hv & _ & Hperm & Hval & Htf & Hvb & _).
  assert (Hlen : length l = length file_list) by (rewrite Hperm; reflexivity).
  pose proof (Z.mul_div_le (Z.of_nat (length file_list)) 10 ltac:(lia)) as H1.
  pose proof (Z.mul_succ_div_gt (Z.of_nat (length file_list)) 10 ltac:(lia)) as H2.
  rewrite <- Hv in H1, H2.
  exists sp, w'. split; [exact Hsplit|]. split; [|split].
  - apply Htrain. intros Hnil. apply (f_equal length) in Hnil.
    rewrite Htf, length_drop in Hnil. cbn [length] in Hnil. lia.
  - intros H10. apply Hvalid. intros Hnil. apply (f_equal length) in Hnil.
    rewrite Hval, length_take in Hnil. cbn [length] in Hnil. lia.
  - intros H10.
    assert (Hnil : val_files sp = [])
      by (rewrite Hval; replace (valset_size sp) with 0 by lia; reflexivity).
    split; [exact Hnil|]. rewrite Hnil. apply val_dataset_empty.
Qed.


(** * Further properties of the class weights and of the split *)

(** X12. The class weights cannot be computed exactly when [N_CLASSES] is
    negative, or when the number of counts from index 2 on is neither
    [N_CLASSES - 2] (0 when [N_CLASSES < 2]) nor 1: a single count is
    broadcast.  When they can, the vector has [N_CLASSES] entries, those of
    classes 0 and 1 are zero, and a broadcast count [c] of the [int64]
    range gives every other class the weight [(1 / c) * c / (N_CLASSES - 2)].
    This holds for every element type. *)
Theorem class_weight_shape_errors {F} `{Dtype F} (n : Z) (counts : list Z) :
  let k := length (drop 2 counts) in
  (class_weight n counts = None <->
   n < 0 \/ (k <> (Z.to_nat n - 2)%nat /\ k <> 1%nat)) /\
  (forall w, class_weight n counts = Some w ->
     Z.of_nat (length w) = n /\
     (forall i, (i < 2)%nat -> Z.of_nat i < n -> w !! i = Some fzero) /\
     (forall c, drop 2 counts = [c] -> - 2 ^ 63 <= c < 2 ^ 63 ->
        forall i, (2 <= i)%nat -> Z.of_nat i < n ->
          w !! i = Some (weight_of n c c))).
Proof.
  intros k. unfold class_weight, np_zeros.
  destruct (Z.ltb_spec n 0) as [Hneg|Hn]; cbn [mbind option_bind].
  { split; [split; [auto|reflexivity]|discriminate]. }
  unfold np_assign_from. rewrite length_replicate, length_fmap. fold k.
  set (s := int64_sum (drop 2 counts)).
  destruct (decide (k = (Z.to_nat n - 2)%nat)) as [Hk|Hk].
  - split.
    + split; [discriminate|]. intros [Hlt|[Hne _]]; [lia|contradiction].
    + intros w [= <-]. split; [|split].
      * rewrite length_app, length_take, length_replicate, length_fmap. fold k. lia.
      * intros i Hi Hin. rewrite lookup_app_l
          by (rewrite length_take, length_replicate; lia).
        rewrite lookup_take_lt by lia. apply lookup_replicate_2. lia.
      * intros c Hc Hrange i Hi Hin.
        assert (Hk1 : k = 1%nat) by (unfold k; rewrite Hc; reflexivity).
        rewrite lookup_app_r by (rewrite length_take, length_replicate; lia).
        rewrite length_take, length_replicate.
        replace (i - Nat.min 2 (Z.to_nat n))%nat with 0%nat by lia.
        unfold s. rewrite Hc. cbn [fmap list_fmap lookup list_lookup].
        unfold int64_sum. cbn [fold_left]. rewrite Z.add_0_l, int64_wrap_id by exact Hrange.
        reflexivity.
  - destruct (drop 2 counts) as [|c [|c' rest]] eqn:Hd; cbn [fmap list_fmap].
    + split; [split; [intros _; right; split; [exact Hk|discriminate]|reflexivity]|].
      discriminate.
    + split.
      * split; [discriminate|]. intros [Hlt|[_ Hne]]; [lia|]. contradiction.
      * intros w [= <-]. split; [|split].
        -- rewrite length_app, length_take, !length_replicate. lia.
        -- intros i Hi Hin. rewrite lookup_app_l
             by (rewrite length_take, length_replicate; lia).
           rewrite lookup_take_lt by lia. apply lookup_replicate_2. lia.
        -- intros c0 [= <-] Hrange i Hi Hin.
           rewrite lookup_app_r by (rewrite length_take, length_replicate; lia).
           rewrite length_take, length_replicate.
           rewrite lookup_replicate_2 by lia.
           unfold s, int64_sum. cbn [fold_left].
           rewrite Z.add_0_l, int64_wrap_id by exact Hrange. reflexivity.
    + split; [|discriminate].
      split; [intros _; right; split; [exact Hk|discriminate]|reflexivity].
Qed.

Lemma of_Z_finite (z : Z) :
  0 < z < 2 ^ 53 -> exists m e, F64.of_Z z = S754_finite false m e.
Proof.
  intros Hz. destruct (of_Z_normal z Hz) as (m & e & Heq & _). eauto.
Qed.

(** X13. A class that has no pixel in the training set does not make the
    computation fail: its weight in binary64 is [+infinity], or [nan] when
    all the classes from index 2 on have none. *)
Theorem zero_count_gives_infinite_weight (n : Z) (counts : list Z) (i : nat) :
  Z.of_nat (length counts) = n -> n < 2 ^ 53 ->
  Forall (fun c => 0 <= c) (drop 2 counts) ->
  total (drop 2 counts) < 2 ^ 53 ->
  (2 <= i)%nat -> counts !! i = Some 0 ->
  exists w,
    class_weight (F:=spec_float) n counts = Some w /\
    w !! i = Some (if Z.eqb (total (drop 2 counts)) 0 then S754_nan
                   else S754_infinity false).
Proof.
  intros Hlen Hn Hnn Htot Hi Hc.
  assert (Hil : (i < length counts)%nat) by (eapply lookup_lt_Some; exact Hc).
  pose proof (class_weight_shape (F:=spec_float) n counts Hlen ltac:(lia)) as Hshape.
  eexists. split; [exact Hshape|].
  rewrite (class_weight_lookup n counts _ i 0 Hshape Hshape Hi Hc).
  rewrite int64_sum_total
    by (try assumption; change (2 ^ 63) with 9223372036854775808;
        change (2 ^ 53) with 9007199254740992 in Htot; lia).
  f_equal. unfold weight_of. cbn [fdiv fmul of_int float64].
  destruct (of_Z_finite 1 ltac:(lia)) as (m1 & e1 & ->).
  destruct (of_Z_finite (n - 2) ltac:(lia)) as (mk & ek & ->).
  change (F64.of_Z 0) with (S754_zero false).
  pose proof (total_nonneg _ Hnn) as Hs.
  destruct (Z.eqb_spec (total (drop 2 counts)) 0) as [->|Hne].
  - reflexivity.
  - destruct (of_Z_finite (total (drop 2 counts)) ltac:(lia)) as (ms & es & ->).
    reflexivity.
Qed.

(** X14. Each class is balanced on its own: for every class [i >= 2],
    [weight[i] * count[i] * (N_CLASSES - 2)] in the binary64 weights of the
    code is within the fraction [2^-50] of the total count, so that all
    classes weigh the same in the loss up to rounding. *)
Theorem class_balance_per_class (n : Z) (counts : list Z) :
  Z.of_nat (length counts) = n -> 3 <= n ->
  Forall (fun c => 0 < c) (drop 2 counts) ->
  total (drop 2 counts) < 2 ^ 53 ->
  exists (w : list spec_float) (xs : list Q),
    class_weight n counts = Some w /\
    values w = Some xs /\
    forall i x c, (2 <= i)%nat -> xs !! i = Some x -> counts !! i = Some c ->
      (Qabs (x * inject_Z c * inject_Z (n - 2) - inject_Z (total (drop 2 counts)))
       <= inject_Z (total (drop 2 counts)) * eps50)%Q.
Proof.
  intros Hlen Hn Hpos Htot. set (s := total (drop 2 counts)).
  pose proof (Forall_pos_nonneg _ Hpos) as Hnn.
  pose proof (class_weight_shape (F:=spec_float) n counts Hlen ltac:(lia)) as Hshape.
  rewrite int64_sum_total in Hshape
    by (try assumption; change (2 ^ 63) with 9223372036854775808;
        change (2 ^ 53) with 9007199254740992 in Htot; lia).
  fold s in Hshape.
  assert (Hk : Z.of_nat (length (drop 2 counts)) = n - 2)
    by (rewrite length_drop; lia).
  assert (Hkb : n - 2 <= s).
  { unfold s. rewrite <- Hk. clear -Hpos.
    induction Hpos as [|c l Hc Hl IH]; [reflexivity|].
    change (total (c :: l)) with (c + total l). cbn [length]. lia. }
  assert (Hle : Forall (fun c => 0 < c <= s) (drop 2 counts)).
  { apply Forall_lookup. intros i c Hi. split.
    - rewrite Forall_lookup in Hpos. exact (Hpos i c Hi).
    - exact (lookup_le_total _ i c Hnn Hi). }
  destruct (weights_float_rel n s (drop 2 counts) ltac:(lia) ltac:(lia) Hle)
    as (ys & Hys & Hypos & Hb).
  exists ([F64.zero; F64.zero] ++ (weight_of n s <$> drop 2 counts)), (0 :: 0 :: ys)%Q.
  split; [exact Hshape|]. split.
  - unfold values. cbn [app mapM F64.to_Q F64.zero mbind option_bind].
    rewrite Hys. reflexivity.
  - intros i x c Hi Hx Hc.
    destruct i as [|[|i]]; [lia..|]. cbn in Hx.
    assert (Hc' : drop 2 counts !! i = Some c) by (rewrite lookup_drop; exact Hc).
    destruct (Forall2_lookup_lr _ _ _ _ _ _ Hb Hx Hc') as [Hlo Hhi].
    apply Qabs_Qle_condition. split; lra.
Qed.

(** X10. The split never empties the training set: of [N >= 1] files the
    validation set takes [N // 10], so the training set is at least nine times
    as large, and the validation set is empty exactly when there are fewer
    than ten files. *)
Theorem split_holds_out_at_most_a_tenth `{Collaborators}
    (file_list : list path) (w : World) :
  randbelow_in_range ->
  1 <= Z.of_nat (length file_list) < 2 ^ 52 ->
  exists sp w',
    split file_list w = Ok sp w' /\
    train_files sp <> [] /\
    9 * valset_size sp <= trainset_size sp /\
    10 * valset_size sp <= Z.of_nat (length file_list) < 10 * valset_size sp + 10 /\
    (val_files sp = [] <-> Z.of_nat (length file_list) < 10).
Proof.
  intros Hrange HN.
  destruct (split_spec file_list w Hrange HN)
    as (sp & w' & l & Hsplit & Hv & Ht & Hperm & Hval & Htrain & Hvb & _).
  assert (Hlen : length l = length file_list) by (rewrite Hperm; reflexivity).
  pose proof (Z.mul_div_le (Z.of_nat (length file_list)) 10 ltac:(lia)) as H1.
  pose proof (Z.mul_succ_div_gt (Z.of_nat (length file_list)) 10 ltac:(lia)) as H2.
  rewrite <- Hv in H1, H2.
  exists sp, w'. split; [exact Hsplit|]. split; [|split; [lia|split; [lia|]]].
  - intros Hnil. apply (f_equal length) in Hnil.
    rewrite Htrain, length_drop in Hnil. cbn [length] in Hnil. lia.
  - rewrite Hval. split.
    + intros Hnil. apply (f_equal length) in Hnil.
      rewrite length_take in Hnil. cbn [length] in Hnil. lia.
    + intros Hlt. replace (valset_size sp) with 0 by lia. reflexivity.
Qed.

(** * The paths of the plots *)

Lemma str_int_inj (a b : Z) : str_int a = str_int b -> a = b.
Proof.
  unfold str_int. intros Heq.
  apply (f_equal NilEmpty.int_of_string) in Heq.
  rewrite !NilEmpty.isi in Heq. injection Heq as Heq.
  apply (f_equal Z.of_int) in Heq. rewrite !DecimalZ.of_to in Heq. exact Heq.
Qed.

(** The characters of a numeral are digits, after a minus sign at most. *)
Lemma uint_chars (d : Decimal.uint) (c : Ascii.ascii) :
  In c (String.list_ascii_of_string (NilEmpty.string_of_uint d)) ->
  c <> "_"%char /\ c <> "."%char.
Proof.
  induction d; cbn [NilEmpty.string_of_uint String.list_ascii_of_string In];
    intros Hin; try contradiction;
    (destruct Hin as [<-|Hin]; [split; discriminate|exact (IHd Hin)]).
Qed.

Lemma str_int_chars (z : Z) (c : Ascii.ascii) :
  In c (String.list_ascii_of_string (str_int z)) -> c <> "_"%char /\ c <> "."%char.
Proof.
  unfold str_int, NilEmpty.string_of_int.
  destruct (Z.to_int z) as [d|d]; [apply uint_chars|].
  cbn [String.list_ascii_of_string In]. intros [<-|Hin]; [split; discriminate|].
  exact (uint_chars d c Hin).
Qed.

(** Two strings without a separator, each followed by the separator, are
    equal when the whole strings are. *)
Lemma append_separator_inj (c0 : Ascii.ascii) (s s' t t' : string) :
  (forall c, In c (String.list_ascii_of_string s) -> c <> c0) ->
  (forall c, In c (String.list_ascii_of_string s') -> c <> c0) ->
  String.append s (String c0 t) = String.append s' (String c0 t') ->
  s = s' /\ t = t'.
Proof.
  revert s'. induction s as [|a s IH]; intros [|a' s'] Hs Hs' Heq; cbn in Heq.
  - injection Heq as ->. auto.
  - injection Heq as <- _. exfalso. apply (Hs' c0); [left; reflexivity|reflexivity].
  - injection Heq as -> _. exfalso. apply (Hs c0); [left; reflexivity|reflexivity].
  - injection Heq as <- Heq.
    destruct (IH s') as [-> ->]; [| |exact Heq|auto].
    + intros c Hc. apply Hs. right. exact Hc.
    + intros c Hc. apply Hs'. right. exact Hc.
Qed.

Lemma plot_name_inj (n e n' e' : Z) :
  plot_name n e = plot_name n' e' -> n = n' /\ e = e'.
Proof.
  unfold plot_name. intros Heq.
  change (String.append "plot_" ?s) with (String "p" (String "l" (String "o" (String "t" (String "_" s))))) in Heq.
  injection Heq as Heq.
  change (String.append "_epoch" ?s) with (String "_" (String.append "epoch" s)) in Heq.
  apply append_separator_inj in Heq as [Hn Heq];
    [|intros c Hc; exact (proj1 (str_int_chars _ c Hc))..].
  change (String.append "epoch" ?s) with (String "e" (String "p" (String "o" (String "c" (String "h" s))))) in Heq.
  injection Heq as Heq.
  change ".png"%string with (String "." "png") in Heq.
  apply append_separator_inj in Heq as [He _];
    [|intros c Hc; exact (proj2 (str_int_chars _ c Hc))..].
  split; apply str_int_inj; assumption.
Qed.

Lemma range_lookup (a b : Z) (i : nat) (x : Z) :
  range a b !! i = Some x <-> x = a + Z.of_nat i /\ Z.of_nat i < b - a.
Proof.
  unfold range. rewrite list_lookup_fmap. split.
  - intros Hx. destruct (seq 0 (Z.to_nat (b - a)) !! i) as [j|] eqn:Hj; [|discriminate].
    apply lookup_seq in Hj as [-> Hlt]. cbn in Hx. injection Hx as <-. split; lia.
  - intros [-> Hlt]. rewrite (lookup_seq_lt 0 (Z.to_nat (b - a)) i) by lia. reflexivity.
Qed.

Lemma save_filepaths_lookup (cb : PlotCallback) (epoch : Z) (l : list path)
    (i : nat) (p : path) :
  on_epoch_begin cb epoch = inr (Some l) ->
  l !! i = Some p <->
  exists folder, save_folder cb = Some folder /\
                 p = folder ++ [plot_name (1 + Z.of_nat i) epoch] /\
                 Z.of_nat i < num cb.
Proof.
  unfold on_epoch_begin. destruct (ipython_mode cb); [discriminate|].
  destruct (save_folder cb) as [folder|]; [|discriminate].
  intros [= <-]. rewrite list_lookup_fmap. split.
  - destruct (range 1 (num cb + 1) !! i) as [n|] eqn:Hn; [|discriminate].
    apply range_lookup in Hn as [-> Hlt]. intros [= <-].
    exists folder. split; [reflexivity|]. split; [reflexivity|lia].
  - intros (f & [= <-] & -> & Hlt).
    rewrite (proj2 (range_lookup 1 (num cb + 1) i (1 + Z.of_nat i))) by (split; lia).
    reflexivity.
Qed.

(** X15. No plot overwrites another: a path the callback asks for at
    epoch [e] and position [i], when [on_epoch_begin] gets as far as asking,
    is asked for at no other epoch and no other position. *)
Theorem plot_paths_never_collide (cb : PlotCallback) (e e' : Z)
    (l l' : list path) (i i' : nat) (p : path) :
  on_epoch_begin cb e = inr (Some l) ->
  on_epoch_begin cb e' = inr (Some l') ->
  l !! i = Some p -> l' !! i' = Some p ->
  e = e' /\ i = i'.
Proof.
  intros Hl Hl' Hi Hi'.
  apply (save_filepaths_lookup cb e l i p Hl) in Hi as (f & Hf & -> & _).
  apply (save_filepaths_lookup cb e' l' i' _ Hl') in Hi' as (f' & Hf' & Heq & _).
  rewrite Hf in Hf'. injection Hf' as <-.
  apply app_inv_head in Heq.
  apply (f_equal (fun q : path => match q with x :: _ => x | [] => EmptyString end)) in Heq.
  apply plot_name_inj in Heq as [Hn He]. split; [congruence|lia].
Qed.

(** X16. In a run that reaches [model.fit], the callback of line 118 does
    not raise and asks at every epoch for the five files [plot_1_epoch<e>.png] to
    [plot_5_epoch<e>.png] in the [plots] directory of the experiment, which
    lines 108-111 have made. *)
Theorem run_plots_go_to_the_plots_folder `{Collaborators}
    (argv : option path) (w w' : World) (g : Globals) (epoch : Z) :
  script argv w = Ok g w' ->
  on_epoch_begin (plot_callback (xp_dir g)) epoch
  = inr (Some ((fun n => xp_dir g ++ ["plots"%string; plot_name n epoch])
                 <$> [1; 2; 3; 4; 5])) /\
  xp_dir g ++ ["plots"%string] ∈ dirs w'.
Proof.
  rewrite script_main. intros Hm.
  destruct (main_Ok _ _ _ _ Hm) as (w1 & b & _ & _ & _ & _ & _ & Hxp & _).
  split.
  - unfold on_epoch_begin, plot_callback. cbn [save_folder num ipython_mode].
    change (range 1 (5 + 1)) with [1; 2; 3; 4; 5]. cbn [fmap list_fmap].
    rewrite <- !app_assoc. reflexivity.
  - destruct (make_xp_dir_inv _ _ _ _ Hxp) as (_ & _ & _ & _ & Hd).
    rewrite Hd, !elem_of_union, !elem_of_singleton. auto.
Qed.

(** * The further properties on the example worlds *)

Lemma Example_root_exists (y : TrainingSection) (n : nat) :
  ["xp"%string] ∈ dirs (Example.world y n).
Proof. cbn [dirs Example.world]. rewrite !elem_of_union, !elem_of_singleton. auto. Qed.

Lemma Example_folder_exists (y : TrainingSection) (n : nat) :
  ["data"%string] ∈ dirs (Example.world y n).
Proof. cbn [dirs Example.world]. rewrite !elem_of_union, !elem_of_singleton. auto. Qed.

Lemma Example_tree (y : TrainingSection) (n : nat) : tree (dirs (Example.world y n)).
Proof.
  intros p. cbn [dirs Example.world]. rewrite !elem_of_union, !elem_of_singleton.
  intros [[-> | ->] | ->]; cbn [length Nat.sub take]; auto.
Qed.

Lemma Example_world_fresh (y : TrainingSection) (n : nat) (q : path) :
  q ∈ dirs (Example.world y n) ->
  ~ (["xp"%string] ++ [now (Example.world y n)]) `prefix_of` q.
Proof.
  cbn [dirs Example.world now]. rewrite !elem_of_union, !elem_of_singleton.
  intros [[-> | ->] | ->] [k Hk]; discriminate.
Qed.

Lemma Example_glob (y : TrainingSection) (n : nat) :
  glob_tif (Example.world y n) ["data"%string] = Demo.tile <$> seq 0 n.
Proof. reflexivity. Qed.

(** A run over [n] tiles with batches of two reaches [model.fit]. *)
Lemma Example_runs (n : nat) :
  (1 <= n < 1000)%nat ->
  exists g w',
    script (Some ["cfg.yaml"%string])
      (Example.world (Example.section_with_batch (Some 2)) n) = Ok g w'.
Proof.
  intros Hn.
  destruct (script_runs (Example.world (Example.section_with_batch (Some 2)) n)
              ["cfg.yaml"%string] ["xp"%string] ["data"%string] 2 3 (1 # 1000)%Q
              [F64.zero; F64.zero;
               S754_finite false 5629499534213120 (-51);
               S754_finite false 5629499534213120 (-53)])
    as (g & w' & _ & Hrun & _).
  - exact Demo_randbelow_in_range.
  - reflexivity.
  - apply Example_root_exists.
  - apply Example_folder_exists.
  - lia.
  - vm_compute. reflexivity.
  - apply Example_world_fresh.
  - rewrite Example_glob, length_fmap, length_seq.
    change (2 ^ 52) with 4503599627370496. lia.
  - exists g, w'. exact Hrun.
Qed.

(** A run over twelve tiles, where the experiment directory is new. *)
Lemma run_creates_experiment_directories_witness :
  exists g w',
    script (Some ["cfg.yaml"%string])
      (Example.world (Example.section_with_batch (Some 2)) 12) = Ok g w' /\
    tree (dirs (Example.world (Example.section_with_batch (Some 2)) 12)) /\
    let xp := xp_rootdir (config g)
              ++ [now (Example.world (Example.section_with_batch (Some 2)) 12)] in
    xp_dir g = xp /\
    (forall q, q ∈ dirs w' <->
       q ∈ dirs (Example.world (Example.section_with_batch (Some 2)) 12) \/
       q ∈ [xp; xp ++ ["tensorboard"%string]; xp ++ ["plots"%string];
            xp ++ ["checkpoints"%string]]) /\
    (forall q,
       q ∈ dirs w' ∖ dirs (Example.world (Example.section_with_batch (Some 2)) 12) <->
       q ∈ [xp ++ ["tensorboard"%string]; xp ++ ["plots"%string];
            xp ++ ["checkpoints"%string]] \/
       (q = xp /\
        xp ∉ dirs (Example.world (Example.section_with_batch (Some 2)) 12))) /\
    size (dirs w' ∖ dirs (Example.world (Example.section_with_batch (Some 2)) 12))
    = (if bool_decide
            (xp ∈ dirs (Example.world (Example.section_with_batch (Some 2)) 12))
       then 3%nat else 4%nat) /\
    (xp ++ ["tensorboard"%string]
       ∉ dirs (Example.world (Example.section_with_batch (Some 2)) 12)) /\
    (xp ++ ["plots"%string]
       ∉ dirs (Example.world (Example.section_with_batch (Some 2)) 12)) /\
    (xp ++ ["checkpoints"%string]
       ∉ dirs (Example.world (Example.section_with_batch (Some 2)) 12)) /\
    tree (dirs w').
Proof.
  destruct (Example_runs 12 ltac:(lia)) as (g & w' & Hrun).
  exists g, w'. split; [exact Hrun|]. split; [apply Example_tree|].
  exact (run_creates_experiment_directories _ _ _ _ Hrun (Example_tree _ _)).
Defined.

(** The same run, twice. *)
Lemma rerun_in_same_second_fails_witness :
  exists g w',
    script (Some ["cfg.yaml"%string])
      (Example.world (Example.section_with_batch (Some 2)) 12) = Ok g w' /\
    exists w'',
      script (Some ["cfg.yaml"%string]) w' = Raise FileExistsError w'' /\
      dirs w'' = dirs w'.
Proof.
  destruct (Example_runs 12 ltac:(lia)) as (g & w' & Hrun).
  exists g, w'. split; [exact Hrun|].
  exact (rerun_in_same_second_fails _ _ _ _ Hrun).
Defined.

(** A configuration without a batch size. *)
Lemma bad_batch_size_fails_before_mkdir_witness :
  exists w',
    script (Some ["cfg.yaml"%string])
      (Example.world (Example.section_with_batch None) 12)
    = Raise AttributeError w' /\
    dirs w' = dirs (Example.world (Example.section_with_batch None) 12).
Proof.
  apply (bad_batch_size_fails_before_mkdir
           (Example.world (Example.section_with_batch None) 12)
           ["cfg.yaml"%string] (Example.section_with_batch None)
           ["xp"%string] ["data"%string]).
  - exact Demo_randbelow_in_range.
  - reflexivity.
  - reflexivity.
  - reflexivity.
  - apply Example_root_exists.
  - apply Example_folder_exists.
  - split; [vm_compute; discriminate | vm_compute; reflexivity].
  - exact I.
Defined.

(** The configuration of [Demo] that lacks the learning rate. *)
Lemma missing_lr_or_epochs_leaves_directories_witness :
  exists w',
    script (Some ["no_lr.yaml"%string]) (Demo.world 12) = Raise AttributeError w' /\
    (["xp"%string] ++ [now (Demo.world 12)]) ++ ["tensorboard"%string] ∈ dirs w' /\
    (["xp"%string] ++ [now (Demo.world 12)]) ++ ["plots"%string] ∈ dirs w' /\
    (["xp"%string] ++ [now (Demo.world 12)]) ++ ["checkpoints"%string] ∈ dirs w'.
Proof.
  apply (missing_lr_or_epochs_leaves_directories (H:=Demo.collaborators)
           (Demo.world 12) ["no_lr.yaml"%string] Demo.section_without_lr
           ["xp"%string] ["data"%string] 2
           [F64.zero; F64.zero;
            S754_finite false 5629499534213120 (-51);
            S754_finite false 5629499534213120 (-53)]).
  - exact Demo_randbelow_in_range.
  - reflexivity.
  - reflexivity.
  - reflexivity.
  - reflexivity.
  - lia.
  - apply Demo_root_exists.
  - apply Demo_folder_exists.
  - vm_compute. reflexivity.
  - apply Demo_world_fresh.
  - split; [vm_compute; discriminate | vm_compute; reflexivity].
  - left. reflexivity.
Defined.


(** A run over forty tiles: thirty-six for training, four for validation. *)
Lemma run_streams_never_end_witness :
  exists g w',
    script (Some ["cfg.yaml"%string])
      (Example.world (Example.section_with_batch (Some 2)) 40) = Ok g w' /\
    (forall n k : nat,
       exists l st,
         draw (fit_x (fit g)) n (fresh (fit_x (fit g)) k) = Some (l, st) /\
         length l = n /\
         Forall (fun batch => Some (Z.of_nat (length batch)) = batch_size (config g)) l) /\
    (1 <= fit_validation_steps (fit g) ->
     forall n k : nat,
       exists l st,
         draw (fit_validation_data (fit g)) n (fresh (fit_validation_data (fit g)) k)
         = Some (l, st) /\
         length l = n /\
         Forall (fun batch => Some (Z.of_nat (length batch)) = batch_size (config g)) l).
Proof.
  destruct (Example_runs 40 ltac:(lia)) as (g & w' & Hrun).
  exists g, w'. split; [exact Hrun|].
  exact (run_streams_never_end _ _ _ _ Hrun).
Defined.

(** The split of twelve tiles. *)
Lemma split_holds_out_at_most_a_tenth_witness :
  exists sp w',
    split (Demo.tile <$> seq 0 12) (Demo.world 12) = Ok sp w' /\
    train_files sp <> [] /\
    9 * valset_size sp <= trainset_size sp /\
    10 * valset_size sp <= Z.of_nat (length (Demo.tile <$> seq 0 12))
      < 10 * valset_size sp + 10 /\
    (val_files sp = [] <-> Z.of_nat (length (Demo.tile <$> seq 0 12)) < 10).
Proof.
  apply (split_holds_out_at_most_a_tenth (Demo.tile <$> seq 0 12) (Demo.world 12)).
  - exact Demo_randbelow_in_range.
  - split; [vm_compute; discriminate | vm_compute; reflexivity].
Defined.

(** A table whose class 2 is empty. *)
Lemma zero_count_gives_infinite_weight_witness :
  exists w,
    class_weight (F:=spec_float) 4 [100; 50; 0; 40] = Some w /\
    w !! 2%nat = Some (if Z.eqb (total (drop 2 [100; 50; 0; 40])) 0 then S754_nan
                       else S754_infinity false).
Proof.
  apply (zero_count_gives_infinite_weight 4 [100; 50; 0; 40] 2).
  - reflexivity.
  - vm_compute. reflexivity.
  - repeat constructor; lia.
  - vm_compute. reflexivity.
  - lia.
  - reflexivity.
Defined.

(** The counts [7, 5, 3, 28]. *)
Lemma class_balance_per_class_witness :
  exists (w : list spec_float) (xs : list Q),
    class_weight 4 Demo.odd_counts = Some w /\
    values w = Some xs /\
    forall i x c, (2 <= i)%nat -> xs !! i = Some x -> Demo.odd_counts !! i = Some c ->
      (Qabs (x * inject_Z c * inject_Z (4 - 2)
             - inject_Z (total (drop 2 Demo.odd_counts)))
       <= inject_Z (total (drop 2 Demo.odd_counts)) * eps50)%Q.
Proof.
  apply (class_balance_per_class 4 Demo.odd_counts).
  - reflexivity.
  - lia.
  - repeat constructor; lia.
  - vm_compute. reflexivity.
Defined.

(** The second plot of epoch 3. *)
Lemma plot_paths_never_collide_witness :
  exists (l : list path) (p : path),
    on_epoch_begin (plot_callback ["xp"%string]) 3 = inr (Some l) /\
    l !! 1%nat = Some p /\
    (3 = 3 /\ 1%nat = 1%nat).
Proof.
  eexists _, _. split; [reflexivity|]. split; [reflexivity|].
  exact (plot_paths_never_collide (plot_callback ["xp"%string]) 3 3 _ _ 1 1 _
           eq_refl eq_refl eq_refl eq_refl).
Defined.

(** The plots of epoch 0 of a run over twelve tiles. *)
Lemma run_plots_go_to_the_plots_folder_witness :
  exists g w',
    script (Some ["cfg.yaml"%string])
      (Example.world (Example.section_with_batch (Some 2)) 12) = Ok g w' /\
    on_epoch_begin (plot_callback (xp_dir g)) 0
    = inr (Some ((fun n => xp_dir g ++ ["plots"%string; plot_name n 0])
                   <$> [1; 2; 3; 4; 5])) /\
    xp_dir g ++ ["plots"%string] ∈ dirs w'.
Proof.
  destruct (Example_runs 12 ltac:(lia)) as (g & w' & Hrun).
  exists g, w'. split; [exact Hrun|].
  exact (run_plots_go_to_the_plots_folder _ _ _ _ 0 Hrun).
Defined.



(** Seven batches of two from the split of twelve tiles and of the split of
    forty. *)
Lemma streams_never_exhaust_witness :
  (forall fl : list path, fl <> [] ->
     (exists l st,
        draw (train_dataset (H:=Demo.collaborators) fl 2) 7
          (fresh (train_dataset (H:=Demo.collaborators) fl 2) 1) = Some (l, st) /\
        length l = 7%nat /\ Forall (fun b => length b = 2%nat) l) /\
     (exists l st,
        draw (val_dataset (H:=Demo.collaborators) fl 2) 7
          (fresh (val_dataset (H:=Demo.collaborators) fl 2) 1) = Some (l, st) /\
        length l = 7%nat /\ Forall (fun b => length b = 2%nat) l)) /\
  exists sp w',
    split (Demo.tile <$> seq 0 40) (Demo.world 40) = Ok sp w' /\
    (exists l st,
       draw (train_dataset (H:=Demo.collaborators) (train_files sp) 2) 7
         (fresh (train_dataset (H:=Demo.collaborators) (train_files sp) 2) 1) = Some (l, st) /\
       length l = 7%nat /\ Forall (fun b => length b = 2%nat) l) /\
    (10 <= Z.of_nat (length (Demo.tile <$> seq 0 40)) ->
     exists l st,
       draw (val_dataset (H:=Demo.collaborators) (val_files sp) 2) 7
         (fresh (val_dataset (H:=Demo.collaborators) (val_files sp) 2) 1) = Some (l, st) /\
       length l = 7%nat /\ Forall (fun b => length b = 2%nat) l) /\
    (Z.of_nat (length (Demo.tile <$> seq 0 40)) < 10 ->
     val_files sp = [] /\
     next (val_dataset (H:=Demo.collaborators) (val_files sp) 2)
       (fresh (val_dataset (H:=Demo.collaborators) (val_files sp) 2) 1) = None).
Proof.
  apply (streams_never_exhaust (H:=Demo.collaborators)
           (Demo.tile <$> seq 0 40) (Demo.world 40) 2 7 1).
  - exact Demo_randbelow_in_range.
  - split; [vm_compute; discriminate | vm_compute; reflexivity].
  - lia.
Defined.
